(** * Crowddata annotation conversion: a shallow embedding and its properties

    The development embeds the conversion engine of
    [Extract_Processing/data_processing_1128.py] (single-tier variant),
    [Extract_Processing_Merge/data_processing_1212_merged.py] (two-tier,
    difficulty-aware variant) and the file-name sanitiser [clean_filename]
    of the [csv_with_*source_data.py] scripts, with the functions of those
    scripts around it: the matching of source files by number and
    [download_and_extract_data] of [csv_with_source_data.py],
    [extract_filename_from_source_file], [sort_filenames_by_order] and the
    row sort key of [csv_with_gcs_source_data.py].

    Python objects coming out of [json.load] are values of [pyval]; Python
    [str] is a list of Unicode code points; a raised exception is the
    [Raise] case of [result]; binary64 floats are [spec_float] with the
    operations of the Standard Library's [SpecFloat]. *)

From Stdlib Require Import ZArith NArith Bool String Ascii List Lia SpecFloat.
From Stdlib Require Import Sorted Permutation.
From Stdlib Require Decimal DecimalPos DecimalN.
Import ListNotations.

Set Implicit Arguments.
Set Warnings "-register-all".

(* ================================================================== *)
(** * Python strings as lists of code points *)
(* ================================================================== *)

Definition char := N.
Definition str := list char.
Bind Scope N_scope with char.

(** [u "..."] reads an ASCII literal as a Python string. *)
Definition u (s : string) : str :=
  List.map N_of_ascii (list_ascii_of_string s).

Definition chr_eqb (a b : char) : bool := N.eqb a b.

Fixpoint str_eqb (a b : str) : bool :=
  match a, b with
  | [], [] => true
  | x :: a', y :: b' => chr_eqb x y && str_eqb a' b'
  | _, _ => false
  end.

(** [s.startswith(p)] *)
Fixpoint startswith (s p : str) : bool :=
  match p, s with
  | [], _ => true
  | x :: p', y :: s' => chr_eqb x y && startswith s' p'
  | _ :: _, [] => false
  end.

(** [s.endswith(p)] *)
Definition endswith (s p : str) : bool := startswith (rev s) (rev p).

(** [c in s] for a single character [c]. *)
Definition str_contains (c : char) (s : str) : bool := existsb (chr_eqb c) s.

(** [s.replace(old, new)] for a non-empty [old]: occurrences are replaced
    from the left and never overlap.  [skip] counts the characters of the
    current occurrence that are still to be dropped. *)
Fixpoint replace_from (old new s : str) (skip : nat) : str :=
  match s with
  | [] => []
  | c :: t =>
      match skip with
      | S k => replace_from old new t k
      | O =>
          if startswith s old
          then new ++ replace_from old new t (length old - 1)
          else c :: replace_from old new t 0
      end
  end.

Definition str_replace (s old new : str) : str := replace_from old new s 0.

(** Python's [str.isspace] on one code point (the table of
    [_PyUnicode_IsWhitespace]). *)
Definition is_space (c : char) : bool :=
  ((9 <=? c) && (c <=? 13) || (28 <=? c) && (c <=? 32)
   || (c =? 133) || (c =? 160) || (c =? 5760)
   || (8192 <=? c) && (c <=? 8202)
   || (c =? 8232) || (c =? 8233) || (c =? 8239) || (c =? 8287)
   || (c =? 12288))%N.

Fixpoint lstrip (s : str) : str :=
  match s with
  | c :: t => if is_space c then lstrip t else s
  | [] => []
  end.

(** [s.strip()] *)
Definition strip (s : str) : str := rev (lstrip (rev (lstrip s))).

(** [s.split('\n')]: always at least one piece. *)
Fixpoint split_lines (s : str) : list str :=
  match s with
  | [] => [[]]
  | c :: t =>
      if chr_eqb c 10%N then [] :: split_lines t
      else match split_lines t with
           | l :: ls => (c :: l) :: ls
           | [] => [[c]]
           end
  end.

(** ['\n'.join(lines)] *)
Fixpoint join_lines (ls : list str) : str :=
  match ls with
  | [] => []
  | [l] => l
  | l :: ls' => l ++ 10%N :: join_lines ls'
  end.

(** [sep.join(parts)] *)
Fixpoint join (sep : str) (ps : list str) : str :=
  match ps with
  | [] => []
  | [p] => p
  | p :: ps' => p ++ sep ++ join sep ps'
  end.

(* ================================================================== *)
(** * Exceptions *)
(* ================================================================== *)

(** [JSONDecodeError] is what [json.loads] raises on a text that is not
    JSON; on a document nested too deep it raises [RecursionError]. *)
Inductive exn :=
| TypeError | AttributeError | IndexError | KeyError | OverflowError | ValueError
| OSError | JSONDecodeError | RecursionError.

Inductive result (A : Type) :=
| Ok (a : A)
| Raise (e : exn).
Arguments Ok {A} a.
Arguments Raise {A} e.

Definition bind {A B} (m : result A) (k : A -> result B) : result B :=
  match m with
  | Ok a => k a
  | Raise e => Raise e
  end.

Notation "x <- m ;; k" := (bind m (fun x => k))
  (at level 61, m at next level, right associativity).

(** A bare [try: ... except: ...]. *)
Definition try_except {A} (body : result A) (handler : A) : A :=
  match body with
  | Ok a => a
  | Raise _ => handler
  end.

Fixpoint mapM {A B} (f : A -> result B) (l : list A) : result (list B) :=
  match l with
  | [] => Ok []
  | a :: l' => b <- f a ;; bs <- mapM f l' ;; Ok (b :: bs)
  end.

(* ================================================================== *)
(** * Decimal digits *)
(* ================================================================== *)

Definition digit (d : N) : char := (48 + d)%N.

Fixpoint uint_digits (d : Decimal.uint) : str :=
  match d with
  | Decimal.Nil => []
  | Decimal.D0 r => digit 0 :: uint_digits r
  | Decimal.D1 r => digit 1 :: uint_digits r
  | Decimal.D2 r => digit 2 :: uint_digits r
  | Decimal.D3 r => digit 3 :: uint_digits r
  | Decimal.D4 r => digit 4 :: uint_digits r
  | Decimal.D5 r => digit 5 :: uint_digits r
  | Decimal.D6 r => digit 6 :: uint_digits r
  | Decimal.D7 r => digit 7 :: uint_digits r
  | Decimal.D8 r => digit 8 :: uint_digits r
  | Decimal.D9 r => digit 9 :: uint_digits r
  end.

(** [str(n)] for a natural number. *)
Definition dec_N (n : N) : str := uint_digits (N.to_uint n).

(** [str(z)] for an [int]. *)
Definition dec_Z (z : Z) : str :=
  match z with
  | Zneg p => 45%N :: dec_N (Npos p)
  | _ => dec_N (Z.to_N z)
  end.

(** Zero-padded field of [w] digits, as [%0wd] prints a non-negative number
    below [10^w]. *)
Fixpoint pad_digits (w : nat) (n : N) : str :=
  match w with
  | O => []
  | S w' => pad_digits w' (n / 10) ++ [digit (n mod 10)]
  end.

Definition is_digit (c : char) : bool := ((48 <=? c) && (c <=? 57))%N.

(* ================================================================== *)
(** * Python values, as [json.load] builds them *)
(* ================================================================== *)

Inductive pyval :=
| PNone
| PBool (b : bool)
| PInt (z : Z)
| PFloat (f : spec_float)
| PStr (s : str)
| PList (l : list pyval)
| PDict (d : list (str * pyval)).

(** Truth value of an object ([if x:], [not x], [x and y]). *)
Definition truthy (v : pyval) : bool :=
  match v with
  | PNone => false
  | PBool b => b
  | PInt z => negb (Z.eqb z 0)
  | PFloat (S754_zero _) => false
  | PFloat _ => true
  | PStr s => match s with [] => false | _ => true end
  | PList l => match l with [] => false | _ => true end
  | PDict d => match d with [] => false | _ => true end
  end.

Fixpoint lookup (k : str) (d : list (str * pyval)) : option pyval :=
  match d with
  | [] => None
  | (k', v) :: d' => if str_eqb k k' then Some v else lookup k d'
  end.

(** [obj.get(key, default)]: only a [dict] has the method. *)
Definition py_get (obj : pyval) (key : str) (default : pyval) : result pyval :=
  match obj with
  | PDict d => Ok (match lookup key d with Some v => v | None => default end)
  | _ => Raise AttributeError
  end.

(** [len(obj)] *)
Definition py_len (obj : pyval) : result nat :=
  match obj with
  | PList l => Ok (length l)
  | PDict d => Ok (length d)
  | PStr s => Ok (length s)
  | _ => Raise TypeError
  end.

(** [obj[i]] for a literal non-negative [int] index.  The keys of a [dict]
    read from JSON are strings, so an [int] subscript finds none. *)
Definition py_getitem (obj : pyval) (i : nat) : result pyval :=
  match obj with
  | PList l => match nth_error l i with Some v => Ok v | None => Raise IndexError end
  | PStr s => match nth_error s i with Some c => Ok (PStr [c]) | None => Raise IndexError end
  | PDict _ => Raise KeyError
  | _ => Raise TypeError
  end.

(** The items a [for x in obj] loop visits. *)
Definition py_iter (obj : pyval) : result (list pyval) :=
  match obj with
  | PList l => Ok l
  | PDict d => Ok (map (fun kv => PStr (fst kv)) d)
  | PStr s => Ok (map (fun c => PStr [c]) s)
  | _ => Raise TypeError
  end.

(** [obj == 'literal'] *)
Definition py_eq_str (obj : pyval) (s : str) : bool :=
  match obj with
  | PStr t => str_eqb t s
  | _ => false
  end.

Definition is_none (v : pyval) : bool :=
  match v with PNone => true | _ => false end.

(* ================================================================== *)
(** * Numbers: [int], [bool] and binary64 [float] *)
(* ================================================================== *)

Definition prec64 : Z := 53.
Definition emax64 : Z := 1024.

(** [float(z)]: the nearest double, [OverflowError] beyond the range. *)
Definition float_of_int (z : Z) : result spec_float :=
  match binary_normalize prec64 emax64 z 0 false with
  | S754_infinity _ => Raise OverflowError
  | f => Ok f
  end.

(** The operand of an arithmetic operator, when it is a number. *)
Inductive number :=
| NInt (z : Z)
| NFloat (f : spec_float).

Definition as_number (v : pyval) : result number :=
  match v with
  | PInt z => Ok (NInt z)
  | PBool b => Ok (NInt (if b then 1 else 0)%Z)
  | PFloat f => Ok (NFloat f)
  | _ => Raise TypeError
  end.

Definition of_number (n : number) : pyval :=
  match n with
  | NInt z => PInt z
  | NFloat f => PFloat f
  end.

(** [a + b] on numbers: exact on two [int]s, else the double sum. *)
Definition num_add (a b : number) : result number :=
  match a, b with
  | NInt x, NInt y => Ok (NInt (x + y)%Z)
  | NInt x, NFloat g => f <- float_of_int x ;; Ok (NFloat (SFadd prec64 emax64 f g))
  | NFloat f, NInt y => g <- float_of_int y ;; Ok (NFloat (SFadd prec64 emax64 f g))
  | NFloat f, NFloat g => Ok (NFloat (SFadd prec64 emax64 f g))
  end.

(** [a + b] in the places the converter uses it (both operands numbers). *)
Definition py_add (a b : pyval) : result pyval :=
  x <- as_number a ;; y <- as_number b ;; r <- num_add x y ;; Ok (of_number r).

(** [v > 0] against the [int] literal 0. *)
Definition py_gt0 (v : pyval) : result bool :=
  n <- as_number v ;;
  match n with
  | NInt z => Ok (0 <? z)%Z
  | NFloat f => Ok (SFltb (S754_zero false) f)
  end.

(** Nearest integer to [a / b], ties to the even one ([0 <= a], [0 < b]). *)
Definition div_half_even (a b : Z) : Z :=
  let q := (a / b)%Z in
  let r := (a mod b)%Z in
  match (2 * r ?= b)%Z with
  | Lt => q
  | Gt => (q + 1)%Z
  | Eq => if Z.even q then q else (q + 1)%Z
  end.

(** The magnitude [m * 2^e] of a finite double in units of [10^-4], rounded
    half-even: the digit string [dtoa] yields in mode 3 with 4 digits. *)
Definition scaled4 (m : positive) (e : Z) : Z :=
  match e with
  | Zneg p => div_half_even (Zpos m * 10000) (2 ^ Zpos p)
  | _ => (Zpos m * 2 ^ e * 10000)%Z
  end.

(** [strtod] of the decimal [n * 10^-4]: the nearest double. *)
Definition strtod4 (sign : bool) (n : Z) : spec_float :=
  match n with
  | Z0 => S754_zero sign
  | _ =>
      let '(q, e, l) := SFdiv_core_binary prec64 emax64 n 0 10000 0 in
      binary_round_aux prec64 emax64 sign q e l
  end.

(** [round(v, 4)]: an [int] is returned as it is; a [float] goes through
    [double_round] (to a 4-digit decimal and back), infinities and NaN
    round to themselves. *)
Definition py_round4 (v : pyval) : result number :=
  n <- as_number v ;;
  match n with
  | NInt z => Ok (NInt z)
  | NFloat (S754_finite s m e) =>
      match strtod4 s (scaled4 m e) with
      | S754_infinity _ => Raise OverflowError
      | r => Ok (NFloat r)
      end
  | NFloat f => Ok (NFloat f)
  end.

(** The text of a non-negative count [n] of [10^-4] units: integer part,
    a dot, four digits. *)
Definition fixed4 (n : Z) : str :=
  dec_N (Z.to_N (n / 10000)) ++ 46%N :: pad_digits 4 (Z.to_N (n mod 10000)).

(** [format(f, '.4f')] for a [float]. *)
Definition format_float_4f (f : spec_float) : str :=
  match f with
  | S754_nan => u "nan"
  | S754_infinity s => if s then u "-inf" else u "inf"
  | S754_zero s => (if s then [45%N] else []) ++ fixed4 0
  | S754_finite s m e => (if s then [45%N] else []) ++ fixed4 (scaled4 m e)
  end.

(** [format(n, '.4f')]: an [int] is converted to [float] first. *)
Definition format_4f (n : number) : result str :=
  match n with
  | NInt z => f <- float_of_int z ;; Ok (format_float_4f f)
  | NFloat f => Ok (format_float_4f f)
  end.

(** [f"{round(v, 4):.4f}"] *)
Definition fmt_round4 (v : pyval) : result str :=
  r <- py_round4 v ;; format_4f r.

(** [str(v)].  The spelling of a [float] (shortest round-trip digits) and of
    a container ([repr] of its items) is CPython's printing algorithm, taken
    as the parameter [py_repr]. *)
Definition py_str (py_repr : pyval -> str) (v : pyval) : str :=
  match v with
  | PNone => u "None"
  | PBool true => u "True"
  | PBool false => u "False"
  | PInt z => dec_Z z
  | PStr s => s
  | _ => py_repr v
  end.

(* ================================================================== *)
(** * The fragment of [re] the scripts use *)
(* ================================================================== *)

Module Re.

Definition cls := char -> bool.

(** Patterns: one character of a class, sequence, ordered alternative,
    greedy [c+], lazy [c*?] over a class, and a numbered group. *)
Inductive re :=
| Chr (p : cls)
| Seq (a b : re)
| Alt (a b : re)
| Plus (p : cls)
| StarLazy (p : cls)
| Group (n : nat) (r : re).

Definition captures := list (nat * str).

(** The remainders left after taking 0, 1, 2, ... characters of class
    [p] off the front of [s], shortest take first. *)
Fixpoint lazy_rests (p : cls) (s : str) : list str :=
  s :: match s with
       | c :: t => if p c then lazy_rests p t else []
       | [] => []
       end.

(** The same for one or more characters, longest take first. *)
Definition greedy_rests (p : cls) (s : str) : list str :=
  rev (tl (lazy_rests p s)).

(** All the ways [r] matches a prefix of [s], in the order a backtracking
    matcher tries them; each with the groups set and the text left. *)
Fixpoint exec (r : re) (s : str) (caps : captures) : list (captures * str) :=
  match r with
  | Chr p =>
      match s with
      | c :: t => if p c then [(caps, t)] else []
      | [] => []
      end
  | Seq a b => flat_map (fun m => exec b (snd m) (fst m)) (exec a s caps)
  | Alt a b => exec a s caps ++ exec b s caps
  | Plus p => map (fun t => (caps, t)) (greedy_rests p s)
  | StarLazy p => map (fun t => (caps, t)) (lazy_rests p s)
  | Group n r' =>
      map (fun m => ((n, firstn (length s - length (snd m)) s) :: fst m, snd m))
          (exec r' s caps)
  end.

(** [pattern.match(s)]: the first way, if any. *)
Definition match_prefix (r : re) (s : str) : option (captures * str) :=
  hd_error (exec r s []).

Fixpoint group (n : nat) (caps : captures) : str :=
  match caps with
  | [] => []
  | (k, v) :: caps' => if Nat.eqb k n then v else group n caps'
  end.

(** Replacement templates: literal text and [\n] references. *)
Inductive piece :=
| Lit (s : str)
| Ref (n : nat).

Definition expand (tpl : list piece) (caps : captures) : str :=
  flat_map (fun p => match p with Lit s => s | Ref n => group n caps end) tpl.

(** [re.sub(r, tpl, s)] for a pattern that matches no empty text: scan
    from the left, replace each match, resume after it.  [skip] counts the
    characters of the current match still to be passed over. *)
Fixpoint sub_from (r : re) (tpl : list piece) (s : str) (skip : nat) : str :=
  match s with
  | [] => []
  | c :: t =>
      match skip with
      | S k => sub_from r tpl t k
      | O =>
          match match_prefix r s with
          | Some (caps, rest) =>
              expand tpl caps ++ sub_from r tpl t (length s - length rest - 1)
          | None => c :: sub_from r tpl t 0
          end
      end
  end.

Definition sub (r : re) (tpl : list piece) (s : str) : str :=
  sub_from r tpl s 0.

Definition just (c : char) : cls := fun x => chr_eqb x c.
Definition except (c : char) : cls := fun x => negb (chr_eqb x c).

(** [\w] on [str] patterns: ASCII letters, digits and the underscore, and
    beyond ASCII whatever the Unicode database calls alphanumeric (the
    table [alnum], a parameter). *)
Definition word (alnum : cls) : cls := fun c =>
  if (c <? 128)%N
  then ((48 <=? c) && (c <=? 57) || (65 <=? c) && (c <=? 90)
        || (97 <=? c) && (c <=? 122) || (c =? 95))%N
  else alnum c.

End Re.

(* ================================================================== *)
(** * Output formatter (both variants carry the same two functions) *)
(* ================================================================== *)

Section Formatter.

Variable alnum : Re.cls.

(** The pattern [<(\w+)([^>]*?)/>]. *)
Definition self_closing : Re.re :=
  Re.Seq (Re.Chr (Re.just 60))
    (Re.Seq (Re.Group 1 (Re.Plus (Re.word alnum)))
       (Re.Seq (Re.Group 2 (Re.StarLazy (Re.except 62)))
          (Re.Seq (Re.Chr (Re.just 47)) (Re.Chr (Re.just 62))))).

(** The template [<\1\2></\1>]. *)
Definition open_close : list Re.piece :=
  [Re.Lit [60%N]; Re.Ref 1; Re.Ref 2; Re.Lit (u "></"); Re.Ref 1; Re.Lit [62%N]].

Definition fix_empty_tags (xml_string : str) : str :=
  Re.sub self_closing open_close xml_string.

End Formatter.

Definition enumerate {A} (l : list A) : list (nat * A) :=
  combine (seq 0 (length l)) l.

(** One turn of the loop of [remove_empty_lines] over [enumerate(lines)]. *)
Definition remove_empty_lines_step (cleaned_lines : list str) (il : nat * str)
  : list str :=
  let '(i, line) := il in
  let stripped := strip line in
  let is_empty := Nat.eqb (length stripped) 0 in
  if Nat.eqb i 0 then cleaned_lines ++ [line]
  else
    let prev_is_tag :=
      match cleaned_lines with
      | [] => false
      | _ =>
          let prev_line := strip (last cleaned_lines []) in
          startswith prev_line (u "<?")
          || (startswith prev_line (u "<") && negb (startswith prev_line (u "<!--")))
      end in
    if is_empty
       && (match cleaned_lines with [] => false | _ => true end
           && str_eqb (strip (last cleaned_lines [])) [])
    then cleaned_lines
    else if is_empty && prev_is_tag then cleaned_lines
    else cleaned_lines ++ [line].

Definition remove_empty_lines (xml_string : str) : str :=
  let lines := split_lines xml_string in
  join_lines (fold_left remove_empty_lines_step (enumerate lines) []).

(** [escape_xml_text] *)
Definition escape_xml_text (py_repr : pyval -> str) (text : pyval) : str :=
  if negb (truthy text) then []
  else
    let text := py_str py_repr text in
    let text := str_replace text [38%N] (u "&amp;") in
    let text := str_replace text [60%N] (u "&lt;") in
    let text := str_replace text [62%N] (u "&gt;") in
    let text := str_replace text [34%N] (u "&quot;") in
    let text := str_replace text [39%N] (u "&apos;") in
    text.

(* ================================================================== *)
(** * [clean_filename] (the same text in the three [csv_with_*] scripts) *)
(* ================================================================== *)

Section CleanFilename.

Variable alnum : Re.cls.

(** The class [\w가-힣.-] whose complement the first pattern deletes. *)
Definition kept_char : Re.cls := fun c =>
  (Re.word alnum c || (44032 <=? c) && (c <=? 55203) || (c =? 46) || (c =? 45))%N.

(** The class [.-]. *)
Definition dot_or_hyphen : Re.cls := fun c => ((c =? 46) || (c =? 45))%N.

Definition clean_filename (filename : str) : str :=
  match filename with
  | [] => filename
  | _ =>
      let clean_name := Re.sub (Re.Chr (fun c => negb (kept_char c))) [] filename in
      let clean_name := Re.sub (Re.Plus dot_or_hyphen) [Re.Lit [46%N]] clean_name in
      if negb (str_contains 46 clean_name)
      then clean_name ++ u ".jpg"
      else clean_name
  end.

End CleanFilename.

(* ================================================================== *)
(** * ElementTree elements *)
(* ================================================================== *)

Inductive Element :=
| mkElement (tag : str) (attrib : list (str * str)) (text : option str)
            (children : list Element).

Definition tag (e : Element) : str := let '(mkElement t _ _ _) := e in t.
Definition attrib (e : Element) : list (str * str) := let '(mkElement _ a _ _) := e in a.
Definition text (e : Element) : option str := let '(mkElement _ _ x _) := e in x.
Definition children (e : Element) : list Element := let '(mkElement _ _ _ c) := e in c.

(** [ET.Element(tag)] *)
Definition new_element (t : str) : Element := mkElement t [] None [].

Fixpoint attrib_set (a : list (str * str)) (k v : str) : list (str * str) :=
  match a with
  | [] => [(k, v)]
  | (k', v') :: a' =>
      if str_eqb k k' then (k, v) :: a' else (k', v') :: attrib_set a' k v
  end.

Fixpoint attrib_get (a : list (str * str)) (k : str) : option str :=
  match a with
  | [] => None
  | (k', v) :: a' => if str_eqb k k' then Some v else attrib_get a' k
  end.

(** [elem.set(k, v)] *)
Definition elem_set (e : Element) (k v : str) : Element :=
  let '(mkElement t a x c) := e in mkElement t (attrib_set a k v) x c.

(** [elem.get(k)] *)
Definition elem_get (e : Element) (k : str) : option str := attrib_get (attrib e) k.

(** [elem.text = s] *)
Definition set_text (e : Element) (s : str) : Element :=
  let '(mkElement t a _ c) := e in mkElement t a (Some s) c.

(** [parent.append(child)], also the effect of [ET.SubElement] on the parent. *)
Definition append_child (parent child : Element) : Element :=
  let '(mkElement t a x c) := parent in mkElement t a x (c ++ [child]).

(** The [polygon] children of an [image] element. *)
Definition polygons (e : Element) : list Element :=
  filter (fun c => str_eqb (tag c) (u "polygon")) (children e).

Fixpoint foldM {A S} (f : S -> A -> result S) (l : list A) (s : S) : result S :=
  match l with
  | [] => Ok s
  | a :: l' => s' <- f s a ;; foldM f l' s'
  end.

(* ================================================================== *)
(** * Geometry of one annotation (the same text in both variants) *)
(* ================================================================== *)

(** One entry of [points]: [f"{round(x, 4):.4f},{round(y, 4):.4f}"], the two
    expressions [ex] and [ey] evaluated and formatted left to right. *)
Definition xy_text (ex ey : result pyval) : result str :=
  x <- ex ;; sx <- fmt_round4 x ;;
  y <- ey ;; sy <- fmt_round4 y ;;
  Ok (sx ++ 44%N :: sy).

(** The entry for a point object [p], read with [p.get('x', 0)] and
    [p.get('y', 0)]. *)
Definition point_text (p : pyval) : result str :=
  xy_text (py_get p (u "x") (PInt 0)) (py_get p (u "y") (PInt 0)).

(** The [BOX] branch. *)
Definition box_points (annotation : pyval) : result (list str) :=
  coords <- py_get annotation (u "coords") (PDict []) ;;
  if truthy coords then
    tl <- py_get coords (u "tl") (PDict []) ;;
    tr <- py_get coords (u "tr") (PDict []) ;;
    br <- py_get coords (u "br") (PDict []) ;;
    bl <- py_get coords (u "bl") (PDict []) ;;
    if truthy tl && truthy tr && truthy br && truthy bl then
      p1 <- point_text tl ;;
      p2 <- point_text tr ;;
      p3 <- point_text br ;;
      p4 <- point_text bl ;;
      Ok [p1; p2; p3; p4]
    else Ok []
  else
    obj <- py_get annotation (u "object") (PDict []) ;;
    if truthy obj then
      left <- py_get obj (u "left") (PInt 0) ;;
      top <- py_get obj (u "top") (PInt 0) ;;
      width <- py_get obj (u "width") (PInt 0) ;;
      height <- py_get obj (u "height") (PInt 0) ;;
      w_pos <- py_gt0 width ;;
      both_pos <- (if w_pos then py_gt0 height else Ok false) ;;
      if both_pos then
        p1 <- xy_text (Ok left) (Ok top) ;;
        p2 <- xy_text (py_add left width) (Ok top) ;;
        p3 <- xy_text (py_add left width) (py_add top height) ;;
        p4 <- xy_text (Ok left) (py_add top height) ;;
        Ok [p1; p2; p3; p4]
      else Ok []
    else Ok [].

(** The [POLYGONS] branch. *)
Definition polygon_points (annotation : pyval) : result (list str) :=
  points_data <- py_get annotation (u "points") (PList []) ;;
  if truthy points_data then
    items <- py_iter points_data ;;
    mapM point_text items
  else Ok [].

(** The list [points] built for one annotation. *)
Definition annotation_points (annotation : pyval) : result (list str) :=
  annotation_type <- py_get annotation (u "annotation") (PStr []) ;;
  if py_eq_str annotation_type (u "BOX") then box_points annotation
  else if py_eq_str annotation_type (u "POLYGONS") then polygon_points annotation
  else Ok [].

(** Width and height read from the source document. *)
Definition image_size (source_json_data : pyval) : result (pyval * pyval) :=
  images <- py_get source_json_data (u "images") (PList []) ;;
  nonempty <- (if truthy images
               then n <- py_len images ;; Ok (0 <? n)%nat
               else Ok false) ;;
  if nonempty then
    first <- py_getitem images 0 ;;
    converted_image_info <- py_get first (u "convertedImageInfo") (PDict []) ;;
    width <- py_get converted_image_info (u "width") (PInt 0) ;;
    height <- py_get converted_image_info (u "height") (PInt 0) ;;
    Ok (width, height)
  else Ok (PInt 0, PInt 0).

(** [text_value.replace(' ', '')] under [isinstance(text_value, str)]. *)
Definition remove_spaces (text_value : pyval) : pyval :=
  match text_value with
  | PStr s => PStr (str_replace s [32%N] [])
  | v => v
  end.

(** The attributes every [polygon] gets after its label. *)
Definition polygon_common (polygon_elem : Element) (z_order : Z) (points : list str)
  : Element :=
  let polygon_elem := elem_set polygon_elem (u "source") (u "file") in
  let polygon_elem := elem_set polygon_elem (u "occluded") (u "0") in
  let polygon_elem := elem_set polygon_elem (u "z_order") (dec_Z z_order) in
  elem_set polygon_elem (u "points") (join [59%N] points).

(** The [attribute] child of a [polygon]. *)
Definition attribute_child (py_repr : pyval -> str) (text_value : pyval) : Element :=
  let attribute_elem := new_element (u "attribute") in
  let attribute_elem := elem_set attribute_elem (u "name") (u "text") in
  set_text attribute_elem (escape_xml_text py_repr text_value).

(** The first lines of both converters: the [image] element with its id,
    name, width and height. *)
Definition image_header (py_repr : pyval -> str) (image_id : Z) (image_name : pyval)
    (source_json_data : pyval) : result Element :=
  let image_elem := new_element (u "image") in
  let image_elem := elem_set image_elem (u "id") (dec_Z (image_id - 1)) in
  let image_elem := elem_set image_elem (u "name") (escape_xml_text py_repr image_name) in
  wh <- image_size source_json_data ;;
  let image_elem := elem_set image_elem (u "width") (py_str py_repr (fst wh)) in
  let image_elem := elem_set image_elem (u "height") (py_str py_repr (snd wh)) in
  Ok image_elem.

(** [not results or len(results) <= data_index] *)
Definition too_short (results : pyval) (data_index : nat) : result bool :=
  if negb (truthy results) then Ok true
  else n <- py_len results ;; Ok (n <=? data_index)%nat.

(** [len(data_row) > 0 and data_row[0] is not None] *)
Definition has_payload (data_row : pyval) : result bool :=
  n <- py_len data_row ;;
  if (0 <? n)%nat
  then first <- py_getitem data_row 0 ;; Ok (negb (is_none first))
  else Ok false.

(** The loop over [annotations[coord_key]], shared by the two variants up
    to the body [step]; the state is the children appended so far and
    [z_order]. *)
Definition annotation_loop
    (step : Element * Z -> pyval -> result (Element * Z))
    (coord_key : str) (results : pyval) (data_index : nat) (image_elem : Element)
  : result Element :=
  data_row <- py_getitem results data_index ;;
  payload <- has_payload data_row ;;
  if payload then
    annotations <- py_getitem data_row 0 ;;
    match annotations with
    | PDict d =>
        match lookup coord_key d with
        | Some annotation_list =>
            items <- py_iter annotation_list ;;
            st <- foldM step items (image_elem, 0%Z) ;;
            Ok (fst st)
        | None => Ok image_elem
        end
    | _ => Ok image_elem
    end
  else Ok image_elem.

(* ================================================================== *)
(** * Manifest rows, the files on disk, and the state of a run *)
(* ================================================================== *)

(** The cells of a manifest row the converters read.  The manifest comes
    from [pd.read_csv], so [df.iterrows()] labels the rows 0, 1, 2, ... in
    file order; a missing cell is the float NaN. *)
Record Row := {
  data_idx : pyval;
  file_name : pyval;
  difficulty : pyval
}.

(** The directories a run reads. *)
Inductive dir :=
| result_json_dir | source_json_dir
| result_json_dir_hard | source_json_dir_hard
| result_json_dir_very_hard | source_json_dir_very_hard.

(** What the run sees of the disk: [os.listdir(d)], whether [d/name]
    exists, and what [json.load] reads from [d/name] ([None] when opening
    or parsing raises). *)
Record FileSystem (D : Type) := {
  os_listdir : D -> option (list str);
  exists_ : D -> str -> bool;
  read_json : D -> str -> option pyval
}.

Definition listdir {D} (fs : FileSystem D) (d : D) : result (list str) :=
  match os_listdir fs d with
  | Some l => Ok l
  | None => Raise OSError
  end.

(** [load_json_data]: the document, or [None] after any exception. *)
Definition load_json_data {D} (fs : FileSystem D) (d : D) (name : str) : pyval :=
  match read_json fs d name with
  | Some v => v
  | None => PNone
  end.

(** [extract_filename_from_csv]; [json_loads] is [json.loads] on a [str]. *)
Definition extract_filename_from_csv (json_loads : str -> result pyval)
    (file_name_str : pyval) : pyval :=
  try_except
    (data <- match file_name_str with
             | PStr s => json_loads s
             | _ => Raise TypeError
             end ;;
     py_get data (u "file_name") (PStr []))
    file_name_str.

(** The receiver of a [str] method. *)
Definition as_str (v : pyval) : result str :=
  match v with
  | PStr s => Ok s
  | _ => Raise AttributeError
  end.

(** What the row loop updates: the [image] children of the root,
    [processed_count] and [missing_files]. *)
Record RunState := {
  images : list Element;
  processed_count : nat;
  missing_files : list str
}.

Definition initial_state : RunState :=
  {| images := []; processed_count := 0; missing_files := [] |}.

(** [missing_files.append(name); continue] *)
Definition add_missing (st : RunState) (name : str) : RunState :=
  {| images := images st;
     processed_count := processed_count st;
     missing_files := missing_files st ++ [name] |}.

(** [root.append(image_elem); processed_count += 1] *)
Definition add_image (st : RunState) (image_elem : Element) : RunState :=
  {| images := images st ++ [image_elem];
     processed_count := S (processed_count st);
     missing_files := missing_files st |}.

(* ================================================================== *)
(** * Single-tier converter: [data_processing_1128.py] *)
(* ================================================================== *)

Module V1128.
Section Converter.

Variable py_repr : pyval -> str.

(** The body of [for annotation in annotation_list]. *)
Definition annotation_step (st : Element * Z) (annotation : pyval)
  : result (Element * Z) :=
  let '(image_elem, z_order) := st in
  points <- annotation_points annotation ;;
  match points with
  | [] => Ok (image_elem, z_order)
  | _ =>
      text_value <- py_get annotation (u "ocr") (PStr []) ;;
      let text_value := remove_spaces text_value in
      let polygon_elem := new_element (u "polygon") in
      let polygon_elem :=
        if py_eq_str text_value (u "empty")
        then elem_set polygon_elem (u "label") (u "empty")
        else elem_set polygon_elem (u "label") (u "text") in
      let polygon_elem := polygon_common polygon_elem z_order points in
      let polygon_elem :=
        if negb (py_eq_str text_value (u "empty"))
        then append_child polygon_elem (attribute_child py_repr text_value)
        else polygon_elem in
      Ok (append_child image_elem polygon_elem, (z_order + 1)%Z)
  end.

Definition convert_result_json_to_xml
    (result_json_data : pyval) (image_id : Z) (image_name : pyval)
    (source_json_data : pyval) : result Element :=
  image_elem <- image_header py_repr image_id image_name source_json_data ;;
  results <- py_get result_json_data (u "results") (PList []) ;;
  short <- too_short results 1 ;;
  if short then Ok image_elem
  else annotation_loop annotation_step (u "name_5OJYEV") results 1 image_elem.

(** ** The row loop of [process_csv_to_xml] *)

Variable json_loads : str -> result pyval.
Variable fs : FileSystem dir.

Definition extract_filename_from_csv := extract_filename_from_csv json_loads.

(** The body of [for idx, row in df.iterrows()]. *)
Definition process_row (st : RunState) (ir : nat * Row) : result RunState :=
  let '(idx, row) := ir in
  let data_idx := data_idx row in
  let file_name_str := file_name row in
  let actual_filename := extract_filename_from_csv file_name_str in
  if negb (truthy actual_filename) then Ok st
  else
    files <- listdir fs result_json_dir ;;
    let result_json_files :=
      filter (fun file => startswith file (py_str py_repr data_idx ++ u "_")
                          && endswith file (u ".json")) files in
    match result_json_files with
    | [] => Ok (add_missing st (py_str py_repr data_idx ++ u "_result"))
    | first_file :: _ =>
        name <- as_str actual_filename ;;
        let source_json_filename :=
          str_replace (str_replace name (u ".JPG") (u ".json")) (u ".jpg") (u ".json") in
        if negb (exists_ fs source_json_dir source_json_filename)
        then Ok (add_missing st source_json_filename)
        else
          let result_json_data := load_json_data fs result_json_dir first_file in
          let source_json_data := load_json_data fs source_json_dir source_json_filename in
          if negb (truthy result_json_data) || negb (truthy source_json_data)
          then Ok st
          else
            image_elem <- convert_result_json_to_xml result_json_data
                            (Z.of_nat idx + 1) actual_filename source_json_data ;;
            Ok (add_image st image_elem)
    end.

(** The loop of [process_csv_to_xml] over the manifest [df], started on
    the template root emptied of its [image] elements. *)
Definition process_csv_to_xml (df : list Row) : result RunState :=
  foldM process_row (enumerate df) initial_state.

End Converter.
End V1128.

(* ================================================================== *)
(** * Two-tier converter: [data_processing_1212_merged.py] *)
(* ================================================================== *)

(** The two difficulty tags: U+C911 and U+C0C1. *)
Definition tier_mid : str := [51473%N].
Definition tier_high : str := [49345%N].

Module V1212.
Section Converter.

Variable py_repr : pyval -> str.

(** [text_value and text_value.strip() and text_value != 'empty'] *)
Definition is_text (text_value : pyval) : result bool :=
  if truthy text_value then
    match text_value with
    | PStr s =>
        Ok (match strip s with [] => false | _ => true end
            && negb (str_eqb s (u "empty")))
    | _ => Raise AttributeError
    end
  else Ok false.

Definition annotation_step (text_key : str) (st : Element * Z) (annotation : pyval)
  : result (Element * Z) :=
  let '(image_elem, z_order) := st in
  points <- annotation_points annotation ;;
  match points with
  | [] => Ok (image_elem, z_order)
  | _ =>
      text_value <- py_get annotation text_key (PStr []) ;;
      let text_value := remove_spaces text_value in
      let polygon_elem := new_element (u "polygon") in
      labelled_text <- is_text text_value ;;
      let polygon_elem :=
        if labelled_text
        then elem_set polygon_elem (u "label") (u "text")
        else elem_set polygon_elem (u "label") (u "empty") in
      let polygon_elem := polygon_common polygon_elem z_order points in
      let polygon_elem :=
        match elem_get polygon_elem (u "label") with
        | Some l =>
            if str_eqb l (u "text")
            then append_child polygon_elem (attribute_child py_repr text_value)
            else polygon_elem
        | None => polygon_elem
        end in
      Ok (append_child image_elem polygon_elem, (z_order + 1)%Z)
  end.

Definition convert_result_json_to_xml
    (result_json_data : pyval) (image_id : Z) (image_name : pyval)
    (source_json_data : pyval) (difficulty : pyval) : result Element :=
  image_elem <- image_header py_repr image_id image_name source_json_data ;;
  let '(coord_key, text_key, data_index) :=
    if py_eq_str difficulty tier_mid
    then (u "name_RRMP0X", u "ocr", 1%nat)
    else (u "name_5OJYEV", u "ocr", 1%nat) in
  results <- py_get result_json_data (u "results") (PList []) ;;
  short <- too_short results data_index ;;
  if short then Ok image_elem
  else annotation_loop (annotation_step text_key) coord_key results data_index image_elem.

(** ** The row loop of [process_csv_to_xml] *)

Variable json_loads : str -> result pyval.
(** [int(s)] on a [str]: CPython's integer-literal reader. *)
Variable int_of_str : str -> result Z.
Variable fs : FileSystem dir.

Definition extract_filename_from_csv := extract_filename_from_csv json_loads.

(** [int(image_elem.get(k, 0))] *)
Definition int_attr (image_elem : Element) (k : str) : result Z :=
  match elem_get image_elem k with
  | Some s => int_of_str s
  | None => Ok 0%Z
  end.

Definition process_row (st : RunState) (ir : nat * Row) : result RunState :=
  let '(idx, row) := ir in
  let difficulty := difficulty row in
  let data_idx := data_idx row in
  let file_name_str := file_name row in
  let actual_filename := extract_filename_from_csv file_name_str in
  if negb (truthy actual_filename) then Ok st
  else
    match (if py_eq_str difficulty tier_mid
           then Some (result_json_dir_hard, source_json_dir_hard)
           else if py_eq_str difficulty tier_high
           then Some (result_json_dir_very_hard, source_json_dir_very_hard)
           else None) with
    | None => Ok st
    | Some (result_dir, source_dir) =>
        files <- listdir fs result_dir ;;
        let result_json_files :=
          filter (fun file => startswith file (py_str py_repr data_idx ++ u "_")
                              && endswith file (u ".json")) files in
        match result_json_files with
        | [] =>
            Ok (add_missing st (py_str py_repr data_idx ++ u "_result_"
                                  ++ py_str py_repr difficulty))
        | first_file :: _ =>
            name <- as_str actual_filename ;;
            let source_json_filename := str_replace name (u ".jpg") (u ".json") in
            if negb (exists_ fs source_dir source_json_filename)
            then Ok (add_missing st source_json_filename)
            else
              let result_json_data := load_json_data fs result_dir first_file in
              let source_json_data := load_json_data fs source_dir source_json_filename in
              if negb (truthy result_json_data) || negb (truthy source_json_data)
              then Ok st
              else
                image_elem <- convert_result_json_to_xml result_json_data
                                (Z.of_nat idx + 1) actual_filename source_json_data
                                difficulty ;;
                _ <- int_attr image_elem (u "width") ;;
                _ <- int_attr image_elem (u "height") ;;
                Ok (add_image st image_elem)
        end
    end.

Definition process_csv_to_xml (df : list Row) : result RunState :=
  foldM process_row (enumerate df) initial_state.

End Converter.
End V1212.

(* ================================================================== *)
(** * [add_timezone_to_datetime] *)
(* ================================================================== *)

(** A naive [datetime] (no microseconds: neither format reads any). *)
Record datetime := {
  year : Z; month : Z; day : Z;
  hour : Z; minute : Z; second : Z
}.

Definition is_leap (y : Z) : bool :=
  ((y mod 4 =? 0) && (negb (y mod 100 =? 0) || (y mod 400 =? 0)))%Z.

Definition days_in_month (y m : Z) : Z :=
  (if m =? 2 then (if is_leap y then 29 else 28)
   else if (m =? 4) || (m =? 6) || (m =? 9) || (m =? 11) then 30
   else 31)%Z.

(** The field checks of the [datetime] constructor, which [strptime] calls
    on what it has read: a seconds field of 60 or 61, a day the month does
    not have and year 0 all raise [ValueError]. *)
Definition valid_datetime (dt : datetime) : bool :=
  ((1 <=? year dt) && (year dt <=? 9999)
   && (1 <=? month dt) && (month dt <=? 12)
   && (1 <=? day dt) && (day dt <=? days_in_month (year dt) (month dt))
   && (0 <=? hour dt) && (hour dt <=? 23)
   && (0 <=? minute dt) && (minute dt <=? 59)
   && (0 <=? second dt) && (second dt <=? 59))%Z.

(** [dt - timedelta(hours=9)]: the same wall clock nine hours back, on the
    previous day when the hour is before 09; [OverflowError] below
    [datetime.min], 0001-01-01 00:00:00. *)
Definition previous_day (y m d : Z) : result (Z * Z * Z) :=
  (if 1 <? d then Ok (y, m, d - 1)
   else if 1 <? m then Ok (y, m - 1, days_in_month y (m - 1))
   else if 1 <? y then Ok (y - 1, 12, 31)
   else Raise OverflowError)%Z.

Definition minus_9_hours (dt : datetime) : result datetime :=
  if (9 <=? hour dt)%Z then
    Ok {| year := year dt; month := month dt; day := day dt;
          hour := (hour dt - 9)%Z; minute := minute dt; second := second dt |}
  else
    ymd <- previous_day (year dt) (month dt) (day dt) ;;
    let '(y, m, d) := ymd in
    Ok {| year := y; month := m; day := d;
          hour := (hour dt + 15)%Z; minute := minute dt; second := second dt |}.

(** [dt.strftime('%Y-%m-%d %H:%M:%S+09:00')].  The year is written with
    four digits, zero-padded, as the C library of macOS (where the scripts'
    paths point) does; glibc leaves a year below 1000 unpadded. *)
Definition strftime (dt : datetime) : str :=
  pad_digits 4 (Z.to_N (year dt)) ++ 45%N :: pad_digits 2 (Z.to_N (month dt))
  ++ 45%N :: pad_digits 2 (Z.to_N (day dt)) ++ 32%N :: pad_digits 2 (Z.to_N (hour dt))
  ++ 58%N :: pad_digits 2 (Z.to_N (minute dt)) ++ 58%N :: pad_digits 2 (Z.to_N (second dt))
  ++ u "+09:00".

Section Strptime.

(** The decimal value of a non-ASCII decimal digit (Unicode category Nd),
    which [\d] matches and [int] reads on [str]. *)
Variable uni_digit : char -> option N.

Definition digit_value (c : char) : option N :=
  if is_digit c then Some (c - 48)%N
  else if (c <? 128)%N then None
  else uni_digit c.

Definition d_ : Re.re :=
  Re.Chr (fun c => match digit_value c with Some _ => true | None => false end).

Definition range (a b : char) : Re.re :=
  Re.Chr (fun c => (a <=? c) && (c <=? b))%N.

Definition lit (c : char) : Re.re := Re.Chr (Re.just c).

(** The directives of [_strptime.TimeRE], groups numbered Y=1 ... S=6. *)
Definition re_Y := Re.Group 1 (Re.Seq d_ (Re.Seq d_ (Re.Seq d_ d_))).
Definition re_m :=
  Re.Group 2 (Re.Alt (Re.Seq (lit 49) (range 48 50))
             (Re.Alt (Re.Seq (lit 48) (range 49 57)) (range 49 57))).
Definition re_d :=
  Re.Group 3 (Re.Alt (Re.Seq (lit 51) (range 48 49))
             (Re.Alt (Re.Seq (range 49 50) d_)
             (Re.Alt (Re.Seq (lit 48) (range 49 57))
             (Re.Alt (range 49 57) (Re.Seq (lit 32) (range 49 57)))))).
Definition re_H :=
  Re.Group 4 (Re.Alt (Re.Seq (lit 50) (range 48 51))
             (Re.Alt (Re.Seq (range 48 49) d_) d_)).
Definition re_M := Re.Group 5 (Re.Alt (Re.Seq (range 48 53) d_) d_).
Definition re_S :=
  Re.Group 6 (Re.Alt (Re.Seq (lit 54) (range 48 49))
             (Re.Alt (Re.Seq (range 48 53) d_) d_)).

(** The compiled pattern of a format [%Y-%m-%d<sep>%H:%M:%S]. *)
Definition format_regex (sep : Re.re) : Re.re :=
  Re.Seq re_Y (Re.Seq (lit 45) (Re.Seq re_m (Re.Seq (lit 45) (Re.Seq re_d
    (Re.Seq sep (Re.Seq re_H (Re.Seq (lit 58) (Re.Seq re_M (Re.Seq (lit 58) re_S))))))))).

(** ['%Y-%m-%dT%H:%M:%S']: the pattern is compiled with [IGNORECASE]. *)
Definition format_T : Re.re :=
  format_regex (Re.Chr (fun c => (c =? 84) || (c =? 116))%N).

(** ['%Y-%m-%d %H:%M:%S']: a blank in a format stands for [\s+]. *)
Definition format_space : Re.re := format_regex (Re.Plus is_space).

(** [int(s)] on the text of a group: blanks skipped, digits read. *)
Definition int_of_group (s : str) : Z :=
  fold_left (fun acc c => match digit_value c with
                          | Some d => (10 * acc + Z.of_N d)%Z
                          | None => acc
                          end) s 0%Z.

(** [datetime.strptime(data_string, format)] *)
Definition strptime (format : Re.re) (data_string : pyval) : result datetime :=
  match data_string with
  | PStr s =>
      match Re.match_prefix format s with
      | None => Raise ValueError
      | Some (caps, rest) =>
          match rest with
          | _ :: _ => Raise ValueError
          | [] =>
              let g n := int_of_group (Re.group n caps) in
              let dt := {| year := g 1%nat; month := g 2%nat; day := g 3%nat;
                           hour := g 4%nat; minute := g 5%nat; second := g 6%nat |} in
              if valid_datetime dt then Ok dt else Raise ValueError
          end
      end
  | _ => Raise TypeError
  end.

Definition add_timezone_to_datetime (datetime_str : pyval) : pyval :=
  try_except
    (dt <- strptime format_T datetime_str ;;
     utc_dt <- minus_9_hours dt ;;
     Ok (PStr (strftime utc_dt)))
    (try_except
       (dt <- strptime format_space datetime_str ;;
        utc_dt <- minus_9_hours dt ;;
        Ok (PStr (strftime utc_dt)))
       datetime_str).

End Strptime.

(* ================================================================== *)
(** * Names that begin with a number: [csv_with_source_data.py] and the
      output name of [data_processing_1128.py] *)
(* ================================================================== *)

Section LeadingNumber.

Variable uni_digit : char -> option N.

(** The class [\d]. *)
Definition decimal : Re.cls := fun c =>
  match digit_value uni_digit c with Some _ => true | None => false end.

(** The pattern [^(\d+)_], matched at the front of a name. *)
Definition leading_number : Re.re :=
  Re.Seq (Re.Group 1 (Re.Plus decimal)) (Re.Chr (Re.just 95)).

(** [re.sub(r'^\d+_', '', name)] in [process_csv_to_xml]: without
    [MULTILINE] the anchor holds at the front only, so at most the one
    match there is cut off. *)
Definition strip_leading_number (name : str) : str :=
  match Re.match_prefix leading_number name with
  | Some (_, rest) => rest
  | None => name
  end.

(** [name.split('/')[-1]] *)
Fixpoint after_last_slash (name : str) : str :=
  match name with
  | [] => []
  | c :: t =>
      if chr_eqb c 47 then after_last_slash t
      else if str_contains 47 t then after_last_slash t else name
  end.

(** The loop of [download_and_map_source_data] that picks, among the
    blobs listed (given by name), those whose leading number is one of
    the manifest's [src_idx] texts. *)
Definition matching_files (csv_src_indices : list str) (blobs : list str)
  : list (str * str * str) :=
  flat_map
    (fun blob =>
       let filename := after_last_slash blob in
       match Re.match_prefix leading_number filename with
       | Some (caps, _) =>
           let file_src_idx := Re.group 1 caps in
           if existsb (str_eqb file_src_idx) csv_src_indices
           then [(blob, file_src_idx, filename)]
           else []
       | None => []
       end)
    blobs.

End LeadingNumber.

(* ================================================================== *)
(** * File names read from source files: [csv_with_gcs_source_data.py],
      [csv_with_source_data.py] *)
(* ================================================================== *)

(** [re.search(r, s)]: the first position at which [r] matches. *)
Fixpoint search (r : Re.re) (s : str) : option Re.captures :=
  match Re.match_prefix r s with
  | Some (caps, _) => Some caps
  | None =>
      match s with
      | [] => None
      | _ :: t => search r t
      end
  end.

(** The pattern that reads the text [lit] and goes on with [k]. *)
Definition then_ (lit : str) (k : Re.re) : Re.re :=
  fold_right (fun c r => Re.Seq (Re.Chr (Re.just c)) r) k lit.

(** The pattern for a quoted key, a colon and a quoted value without
    blanks between them; group 1 is the value, one or more characters
    other than the double quote. *)
Definition quoted_value (key : str) : Re.re :=
  then_ (34%N :: key ++ [34; 58; 34]%N)
    (Re.Seq (Re.Group 1 (Re.Plus (Re.except 34))) (Re.Chr (Re.just 34))).

(** [s[1:-1]] *)
Definition strip_ends (s : str) : str := removelast (tl s).

Section SourceNames.

Variable alnum : Re.cls.
(** [json.loads] on a [str]. *)
Variable json_loads : str -> result pyval.

(** [clean_filename] called on a truthy value: [re.sub] wants a string. *)
Definition clean_filename_of (filename : pyval) : result str :=
  match filename with
  | PStr s => Ok (clean_filename alnum s)
  | _ => Raise TypeError
  end.

(** [extract_filename_from_source_file] of [csv_with_gcs_source_data.py].
    [blobs] is what the listing under the prefix gives, each blob by what
    [download_as_text] returns; a failure of the client, of the listing or
    of a download is an exception.  The inner handler takes
    [JSONDecodeError] only; every other exception reaches the outer
    handler, which returns the empty text. *)
Definition extract_filename_from_source_file (blobs : result (list (result str))) : str :=
  try_except
    (bs <- blobs ;;
     match bs with
     | [] => Ok []
     | blob :: _ =>
         content <- blob ;;
         match json_loads content with
         | Ok data =>
             first <- py_get data (u "file_name") (PStr []) ;;
             filename <- (if truthy first then Ok first
                          else py_get data (u "filename") (PStr [])) ;;
             if truthy filename
             then clean_filename_of filename
             else Ok []
         | Raise JSONDecodeError =>
             let filename_match :=
               match search (quoted_value (u "file_name")) content with
               | Some caps => Some caps
               | None => search (quoted_value (u "filename")) content
               end in
             match filename_match with
             | Some caps => Ok (clean_filename alnum (Re.group 1 caps))
             | None => Ok []
             end
         | Raise e => Raise e
         end
     end)
    [].

(** [download_and_extract_data] of [csv_with_source_data.py] for the blob
    named [filename]: the name stored in [source_data_dict] under the
    blob's number, or nothing (the function returns [False]).  The inner
    handler takes [JSONDecodeError] only; after any other exception the
    outer handler returns [False]. *)
Definition download_and_extract_data (content : result str) (filename : str)
  : option str :=
  match content with
  | Raise _ => None
  | Ok content =>
      match json_loads content with
      | Raise JSONDecodeError => Some filename
      | Raise _ => None
      | Ok data =>
          match (fallback <- py_get data (u "file_name") (PStr filename) ;;
                 py_get data (u "filename") fallback) with
          | Raise _ => None
          | Ok file_name =>
              let file_name :=
                match file_name with
                | PStr s => s
                | _ => filename
                end in
              let file_name :=
                if startswith file_name [34%N] && endswith file_name [34%N]
                then strip_ends file_name
                else file_name in
              Some (clean_filename alnum file_name)
          end
      end
  end.

End SourceNames.

(* ================================================================== *)
(** * Sorting by the image order: [csv_with_gcs_source_data.py] *)
(* ================================================================== *)

(** [sorted] is a stable sort: its result is the one list that is
    ordered and keeps the elements that compare equal in their order of
    arrival, which insertion from the right computes.  [le x y] stands
    for [not (y < x)]. *)
Section Sorted.

Variable A : Type.
Variable le : A -> A -> bool.

Fixpoint insert_sorted (x : A) (l : list A) : list A :=
  match l with
  | [] => [x]
  | y :: l' => if le x y then x :: l else y :: insert_sorted x l'
  end.

Definition py_sorted (l : list A) : list A := fold_right insert_sorted [] l.

End Sorted.

(** [a <= b] on [str]: by code points, a proper prefix first. *)
Fixpoint str_leb (a b : str) : bool :=
  match a, b with
  | [], _ => true
  | _ :: _, [] => false
  | x :: a', y :: b' =>
      if (x <? y)%N then true
      else if (y <? x)%N then false
      else str_leb a' b'
  end.

(** [l.index(x)], or [None] for [ValueError]. *)
Fixpoint index_of (x : str) (l : list str) : option nat :=
  match l with
  | [] => None
  | y :: l' =>
      if str_eqb y x then Some 0
      else match index_of x l' with
           | Some i => Some (S i)
           | None => None
           end
  end.

(** [s.split(',')[0]] *)
Fixpoint before_comma (s : str) : str :=
  match s with
  | [] => []
  | c :: t => if chr_eqb c 44 then [] else c :: before_comma t
  end.

Section SortOrder.

(** [hash] on [str], which differs from one run of the interpreter to the
    next. *)
Variable hash : str -> Z.
Variable sort_order : list str.

(** [get_sort_key] of [sort_filenames_by_order]. *)
Definition get_sort_key (filename : str) : Z :=
  match index_of filename sort_order with
  | Some i => Z.of_nat i
  | None => Z.of_nat (length sort_order) + hash filename mod 1000
  end.

Definition sort_filenames_by_order (filenames : list str) : list str :=
  match sort_order with
  | [] => py_sorted str_leb filenames
  | _ => py_sorted (fun a b => get_sort_key a <=? get_sort_key b)%Z filenames
  end.

(** [get_sort_key_for_row] of [process_csv_with_gcs_sources], on the
    [file_name] cell of the row (a string: the cell is filled from
    [source_data_dict.get(x, '')]). *)
Definition get_sort_key_for_row (file_name : str) : Z :=
  match file_name with
  | [] => Z.of_nat (length sort_order) + 1000
  | _ =>
      let first_filename := strip (before_comma file_name) in
      match index_of first_filename sort_order with
      | Some i => Z.of_nat i
      | None => Z.of_nat (length sort_order) + hash first_filename mod 1000
      end
  end.

End SortOrder.

(* ================================================================== *)
(** * Definitions used to state the properties *)
(* ================================================================== *)

(** The double quote, which a literal cannot hold. *)
Definition dq : str := [34%N].

(** ** Sample records *)

(** A [BOX] record with the box [left=0, top=0, width=10, height=20] and
    the transcription [ocr]. *)
Definition sample_box (ocr : str) : pyval :=
  PDict [(u "annotation", PStr (u "BOX"));
         (u "object", PDict [(u "left", PInt 0); (u "top", PInt 0);
                             (u "width", PInt 10); (u "height", PInt 20)]);
         (u "ocr", PStr ocr)].

Definition sample_box_points : str :=
  u "0.0000,0.0000;10.0000,0.0000;10.0000,20.0000;0.0000,20.0000".

(** The [polygon] element the converters build for [sample_box] at
    [z_order] 0, given its label and children. *)
Definition sample_polygon (label : str) (kids : list Element) : Element :=
  mkElement (u "polygon")
    [(u "label", label); (u "source", u "file"); (u "occluded", u "0");
     (u "z_order", u "0"); (u "points", sample_box_points)]
    None kids.

(** An [attribute] child holding [s]. *)
Definition sample_attribute (s : str) : Element :=
  mkElement (u "attribute") [(u "name", u "text")] (Some s) [].

(** A source document giving a 640 x 480 image. *)
Definition sample_source : pyval :=
  PDict [(u "images",
          PList [PDict [(u "convertedImageInfo",
                         PDict [(u "width", PInt 640); (u "height", PInt 480)])]])].

(** A result document whose payload cell holds the records [rs] under the
    key [key]. *)
Definition sample_result (key : str) (rs : list pyval) : pyval :=
  PDict [(u "results", PList [PList []; PList [PDict [(key, PList rs)]]])].

(** Parameters fixed for closed examples: printing of floats and
    containers is never reached on the samples, file-name cells hold plain
    names (on which [json.loads] raises), and the text is ASCII. *)
Definition no_repr : pyval -> str := fun _ => [].
Definition plain_names : str -> result pyval := fun _ => Raise JSONDecodeError.
Definition ascii_only : Re.cls := fun _ => false.
Definition ascii_digits : char -> option N := fun _ => None.

(** ** [clean_filename] in the words of its description *)

(** Every maximal run of dots and hyphens replaced by one dot; [in_run]
    tells that the previous character belonged to such a run. *)
Fixpoint collapse_runs (in_run : bool) (s : str) : str :=
  match s with
  | [] => []
  | c :: t =>
      if dot_or_hyphen c
      then (if in_run then collapse_runs true t else 46%N :: collapse_runs true t)
      else c :: collapse_runs false t
  end.

Definition described_clean_filename (alnum : Re.cls) (filename : str) : str :=
  let kept := filter (kept_char alnum) filename in
  let collapsed := collapse_runs false kept in
  if str_contains 46 collapsed then collapsed else collapsed ++ u ".jpg".

(** ** Images without annotations *)

(** The [image] element with no children that both converters start from. *)
Definition bare_image (py_repr : pyval -> str) (image_id : Z) (image_name w h : pyval)
  : Element :=
  mkElement (u "image")
    [(u "id", dec_Z (image_id - 1));
     (u "name", escape_xml_text py_repr image_name);
     (u "width", py_str py_repr w);
     (u "height", py_str py_repr h)]
    None [].

(** What "fewer than 2 entries, or a null payload cell" means for the list
    [rs] held under [results]. *)
Definition no_payload (rs : list pyval) : Prop :=
  (length rs < 2)%nat
  \/ exists cells, nth_error rs 1 = Some (PList (PNone :: cells)).

(** ** Rows whose documents are on disk *)

(** The name of the source document of image [name], as each row loop
    derives it. *)
Definition source_name_1128 (name : str) : str :=
  str_replace (str_replace name (u ".JPG") (u ".json")) (u ".jpg") (u ".json").

Definition source_name_1212 (name : str) : str :=
  str_replace name (u ".jpg") (u ".json").

(** What a row loop finds for [row]: the file-name cell names the image
    [name]; [result_doc] is read from the first file listed in
    [result_dir] whose name starts with the item number and an underscore
    and ends in [.json]; the file [source_name name] exists in
    [source_dir] and [source_doc] is read from it; neither document is
    falsy. *)
Definition row_documents (py_repr : pyval -> str) (json_loads : str -> result pyval)
    (fs : FileSystem dir) (result_dir source_dir : dir) (source_name : str -> str)
    (row : Row) (name : str) (result_doc source_doc : pyval) : Prop :=
  extract_filename_from_csv json_loads (file_name row) = PStr name
  /\ name <> []
  /\ (exists files first_file others,
        os_listdir fs result_dir = Some files
        /\ filter (fun file => startswith file (py_str py_repr (data_idx row) ++ u "_")
                               && endswith file (u ".json")) files
           = first_file :: others
        /\ read_json fs result_dir first_file = Some result_doc)
  /\ exists_ fs source_dir (source_name name) = true
  /\ read_json fs source_dir (source_name name) = Some source_doc
  /\ truthy result_doc = true
  /\ truthy source_doc = true.

(** The directories of the tier a row is tagged with. *)
Definition tier_of (row : Row) (result_dir source_dir : dir) : Prop :=
  (difficulty row = PStr tier_mid
   /\ result_dir = result_json_dir_hard /\ source_dir = source_json_dir_hard)
  \/ (difficulty row = PStr tier_high
      /\ result_dir = result_json_dir_very_hard /\ source_dir = source_json_dir_very_hard).

(** One row, item 7 of image [a.jpg]; its result document has an empty
    [results] array. *)
Definition row_7 : Row :=
  {| data_idx := PInt 7; file_name := PStr (u "a.jpg"); difficulty := PStr tier_mid |}.

Definition disk_with_empty_results : FileSystem dir :=
  {| os_listdir := fun _ => Some [u "7_result.json"];
     exists_ := fun _ name => str_eqb name (u "a.json");
     read_json := fun _ name =>
       if str_eqb name (u "7_result.json")
       then Some (PDict [(u "results", PList [])])
       else if str_eqb name (u "a.json") then Some sample_source else None |}.

(** ** A two-row manifest with one result file missing *)

(** Row 0 is item 1 ([a.jpg]), row 1 is item 2 ([b.jpg]). *)
Definition two_rows : list Row :=
  [ {| data_idx := PInt 1; file_name := PStr (u "a.jpg"); difficulty := PStr tier_high |};
    {| data_idx := PInt 2; file_name := PStr (u "b.jpg"); difficulty := PStr tier_high |} ].

(** The result directory holds a document for item 2 only; the source
    directory holds [b.json]. *)
Definition disk_without_item_1 : FileSystem dir :=
  {| os_listdir := fun d =>
       match d with
       | result_json_dir => Some [u "2_result.json"]
       | _ => Some [u "b.json"]
       end;
     exists_ := fun d name =>
       match d with
       | source_json_dir => str_eqb name (u "b.json")
       | _ => false
       end;
     read_json := fun d name =>
       match d with
       | result_json_dir =>
           if str_eqb name (u "2_result.json")
           then Some (sample_result (u "name_5OJYEV") [])
           else None
       | source_json_dir =>
           if str_eqb name (u "b.json") then Some sample_source else None
       | _ => None
       end |}.

(** The [id] attributes of the [image] elements of a run, in output order. *)
Definition image_ids (st : RunState) : list (option str) :=
  map (fun e => elem_get e (u "id")) (images st).

(** ** Runs of characters of one class *)

(** The text left after the longest run of [p] characters in front. *)
Fixpoint drop_run (p : Re.cls) (s : str) : str :=
  match s with
  | c :: t => if p c then drop_run p t else s
  | [] => []
  end.

Fixpoint take_run (p : Re.cls) (s : str) : str :=
  match s with
  | c :: t => if p c then c :: take_run p t else []
  | [] => []
  end.

(** ** Geometry and number texts *)

(** What [d.get(k, default)] returns on the object [d]. *)
Definition entry (d : list (str * pyval)) (k : str) (default : pyval) : pyval :=
  match lookup k d with
  | Some v => v
  | None => default
  end.



(** A [BOX] record with [coords] and the box of [sample_box]. *)
Definition box_with_coords (coords : pyval) : pyval :=
  PDict [(u "annotation", PStr (u "BOX"));
         (u "coords", coords);
         (u "object", PDict [(u "left", PInt 0); (u "top", PInt 0);
                             (u "width", PInt 10); (u "height", PInt 20)])].




(** ** Instants *)

(** Days before 1 January of year [y], in the proleptic Gregorian
    calendar. *)
Definition days_before_year (y : Z) : Z :=
  (let p := y - 1 in p * 365 + p / 4 - p / 100 + p / 400)%Z.

(** Days of year [y] before the first of month [m]. *)
Definition days_before_month (y m : Z) : Z :=
  (nth (Z.to_nat (m - 1)) [0; 31; 59; 90; 120; 151; 181; 212; 243; 273; 304; 334] 0
   + (if (2 <? m) && is_leap y then 1 else 0))%Z.

(** The day number of a date, 0001-01-01 being day 1. *)
Definition toordinal (y m d : Z) : Z :=
  (days_before_year y + days_before_month y m + d)%Z.

(** Seconds from the start of day 0 to the instant [dt]. *)
Definition seconds_of (dt : datetime) : Z :=
  (((toordinal (year dt) (month dt) (day dt) * 24 + hour dt) * 60 + minute dt) * 60
   + second dt)%Z.

(** The instants before 0001-01-01 09:00:00, from which nine hours cannot
    be taken. *)
Definition too_early (dt : datetime) : bool :=
  ((year dt =? 1) && (month dt =? 1) && (day dt =? 1) && (hour dt <? 9))%Z.

(** An attempt that does not convert: the format does not parse, or the
    moment read lies before 0001-01-01 09:00:00. *)
Definition unconverted (attempt : result datetime) : Prop :=
  match attempt with
  | Ok dt => too_early dt = true
  | Raise _ => True
  end.

(** ** The self-closing pattern, read directly *)

(** The text up to the first "/>" of [r], and the text after it, when no
    ">" comes earlier: what the lazy group 2 and the closing "/>" of the
    pattern take. *)
Fixpoint find_close (r : str) : option (str * str) :=
  match r with
  | [] => None
  | c :: r' =>
      if chr_eqb c 62 then None
      else if chr_eqb c 47 && match r' with c' :: _ => chr_eqb c' 62 | [] => false end
      then Some ([], tl r')
      else match find_close r' with
           | Some (m, rest) => Some (c :: m, rest)
           | None => None
           end
  end.

(** A match of [<(\w+)([^>]*?)/>] at the front of [s]: group 1, group 2 and
    the text after the match. *)
Definition match_here (alnum : Re.cls) (s : str) : option (str * str * str) :=
  match s with
  | c :: s1 =>
      if chr_eqb c 60 then
        match take_run (Re.word alnum) s1 with
        | [] => None
        | w =>
            match find_close (drop_run (Re.word alnum) s1) with
            | Some (m, rest) => Some (w, m, rest)
            | None => None
            end
        end
      else None
  | [] => None
  end.

(** A scanner for the pattern: where the text read so far stands with
    respect to a possible match. *)
Inductive tag_state :=
| Outside        (* no "<" followed by a word character since the last ">" *)
| AfterLt        (* the last character is such a "<" candidate *)
| InTag          (* "<" and a word character seen since the last ">" *)
| InTagSlash.    (* the same, and the last character is "/" *)

Definition tag_step (alnum : Re.cls) (q : tag_state) (c : char) : tag_state :=
  if chr_eqb c 62 then Outside
  else if chr_eqb c 60 then
    match q with Outside | AfterLt => AfterLt | _ => InTag end
  else if chr_eqb c 47 then
    match q with InTag | InTagSlash => InTagSlash | _ => Outside end
  else if Re.word alnum c then
    match q with Outside => Outside | _ => InTag end
  else
    match q with Outside | AfterLt => Outside | _ => InTag end.

(** Whether a match of the pattern ends somewhere in [s], read from state
    [q]: a ">" arrives in state [InTagSlash]. *)
Fixpoint accepts (alnum : Re.cls) (q : tag_state) (s : str) : bool :=
  match s with
  | [] => false
  | c :: t =>
      (match q with InTagSlash => chr_eqb c 62 | _ => false end)
      || accepts alnum (tag_step alnum q c) t
  end.

(** [p in s] for a text [p]. *)
Fixpoint contains (p s : str) : bool :=
  startswith s p
  || match s with
     | [] => false
     | _ :: t => contains p t
     end.

(** The ways the lazy group splits [r], each with the text taken. *)
Fixpoint lazy_splits (p : Re.cls) (s : str) : list (str * str) :=
  ([], s) :: match s with
             | c :: t => if p c then map (fun at_ => (c :: fst at_, snd at_)) (lazy_splits p t)
                         else []
             | [] => []
             end.

(** The states inside a tag. *)
Definition in_tag (q : tag_state) : bool :=
  match q with InTag | InTagSlash => true | _ => false end.

(** What is known of the text [rest] still to be read when the scanner,
    run over the output, is in state [q]: the candidate it follows did not
    match in the input. *)
Definition pending (alnum : Re.cls) (q : tag_state) (rest : str) : Prop :=
  match q with
  | Outside => True
  | AfterLt => match_here alnum (60%N :: rest) = None
  | InTag => find_close rest = None
  | InTagSlash => find_close (47%N :: rest) = None
  end.

(** ** Lines *)

(** A line [remove_empty_lines] holds for empty. *)
Definition blank (l : str) : bool := Nat.eqb (length (strip l)) 0.

(** A line it holds for a tag: it starts, blanks apart, with "<?" or with
    "<" but not "<!--". *)
Definition tag_line (l : str) : bool :=
  let p := strip l in
  startswith p (u "<?") || (startswith p (u "<") && negb (startswith p (u "<!--"))).

(** The lines kept after a kept line [prev]. *)
Fixpoint rel_lines (prev : str) (ls : list str) : list str :=
  match ls with
  | [] => []
  | l :: ls' =>
      if blank l && (blank prev || tag_line prev)
      then rel_lines prev ls'
      else l :: rel_lines l ls'
  end.

(** The text of the lines after the first: each behind its line feed. *)
Definition join_tail (ls : list str) : str := flat_map (fun l => 10%N :: l) ls.

(** A line holds no line feed. *)
Definition one_line (l : str) : bool := forallb (fun c => negb (chr_eqb c 10)) l.

(** The state after a line feed. *)
Definition at_line_start (q : tag_state) : tag_state :=
  match q with Outside | AfterLt => Outside | _ => InTag end.

(** ** Escaping, character by character *)

(** What [escape_xml_text] writes for one character. *)
Definition escape_char (c : char) : str :=
  if chr_eqb c 38 then u "&amp;"
  else if chr_eqb c 60 then u "&lt;"
  else if chr_eqb c 62 then u "&gt;"
  else if chr_eqb c 34 then u "&quot;"
  else if chr_eqb c 39 then u "&apos;"
  else [c].

(** ** Polygons of an image *)

(** The [polygon] element written at [z_order] for the point texts
    [points]: its five attributes in the order they are set, and an
    [attribute] child named "text" exactly when the label is "text". *)
Definition polygon_shape (z_order : Z) (points : list str) (p : Element) : Prop :=
  exists label kids,
    p = mkElement (u "polygon")
          [(u "label", label); (u "source", u "file"); (u "occluded", u "0");
           (u "z_order", dec_Z z_order); (u "points", join [59%N] points)]
          None kids
    /\ ((label = u "text"
         /\ exists t, kids = [mkElement (u "attribute") [(u "name", u "text")] (Some t) []])
        \/ (label = u "empty" /\ kids = [])).

(** The records that yield at least one point. *)
Definition retained (items : list pyval) : list pyval :=
  filter (fun a => match annotation_points a with
                   | Ok (_ :: _) => true
                   | _ => false
                   end) items.

(** The [points] attribute a record is given. *)
Definition points_of (a : pyval) : option str :=
  match annotation_points a with
  | Ok pts => Some (join [59%N] pts)
  | Raise _ => None
  end.

(** The children of an [image]: as many polygons as records were
    retained, the k-th with [z_order] k and the points of the k-th
    retained record. *)
Definition polygons_of (items : list pyval) (image : Element) : Prop :=
  map (fun p => elem_get p (u "points")) (children image) = map points_of (retained items)
  /\ forall k p, nth_error (children image) k = Some p ->
       exists pts, polygon_shape (Z.of_nat k) pts p.

(** Three records: a box, one of a type the converters do not know, and
    a polygon of three points. *)
Definition sample_records : list pyval :=
  [sample_box (u "hi");
   PDict [(u "annotation", PStr (u "LINE")); (u "ocr", PStr (u "x"))];
   PDict [(u "annotation", PStr (u "POLYGONS"));
          (u "points",
           PList [PDict [(u "x", PFloat (S754_finite false 3 (-1))); (u "y", PInt 2)];
                  PDict [(u "x", PInt 3); (u "y", PFloat (S754_finite false 9 (-2)))];
                  PDict [(u "x", PInt 3); (u "y", PInt 4)]]);
          (u "ocr", PStr (u "empty"))]].

(** The payload cell [cell] offers no list under [key]: it is an object
    without that key, or no object at all. *)
Definition without_key (key : str) (cell : pyval) : Prop :=
  match cell with
  | PDict p => lookup key p = None
  | _ => True
  end.

(** ** Rows and what a run makes of them *)

(** The row at position [k] is tagged with one of the two tiers. *)
Definition tiered (df : list Row) (k : nat) : Prop :=
  exists row, nth_error df k = Some row
              /\ (difficulty row = PStr tier_mid \/ difficulty row = PStr tier_high).

(** What one row does to the state of a run: nothing, one more name in
    [missing_files], or one more image. *)
Inductive row_effect (idx : nat) (st st' : RunState) : Prop :=
| row_passed :
    st' = st -> row_effect idx st st'
| row_missing (name : str) :
    st' = add_missing st name -> row_effect idx st st'
| row_image (img : Element) :
    st' = add_image st img ->
    elem_get img (u "id") = Some (dec_Z (Z.of_nat idx)) ->
    row_effect idx st st'.

(** A row of a tier the two-tier conversion does not know. *)
Definition row_easy : Row :=
  {| data_idx := PInt 3; file_name := PStr (u "c.jpg"); difficulty := PStr (u "easy") |}.

(** ** Result files on disk *)

(** The name of a result file of item [m]: the item number, an
    underscore, and the rest of the name. *)
Definition result_file (m : N) (rest : str) : str := dec_N m ++ 95%N :: rest.

(** A listing of result files, given by item number and rest of name. *)
Definition result_files (l : list (N * str)) : list str :=
  map (fun mr => result_file (fst mr) (snd mr)) l.

(** A manifest row for item 1 whose file-name cell is the NaN that
    [read_csv] puts for a missing cell. *)
Definition row_without_name : Row :=
  {| data_idx := PInt 1; file_name := PFloat S754_nan; difficulty := PStr tier_high |}.

Definition disk_with_item_1 : FileSystem dir :=
  {| os_listdir := fun _ => Some [u "1_result.json"];
     exists_ := fun _ _ => true;
     read_json := fun _ _ => Some sample_source |}.

(** ** [int] on plain text *)

(** Digits, with single underscores between them. *)
Fixpoint read_digits (acc : Z) (s : str) : option Z :=
  match s with
  | [] => Some acc
  | c :: t =>
      if is_digit c then read_digits (10 * acc + Z.of_N (c - 48)) t
      else if chr_eqb c 95
           then match t with
                | d :: _ => if is_digit d then read_digits acc t else None
                | [] => None
                end
           else None
  end.

(** White space as [int] takes it: below U+007F the blanks of C (tab to
    carriage return, and the space), so not U+001C to U+001F; from there
    on the white space of the Unicode table. *)
Definition int_blank (c : char) : bool :=
  if (c <? 127)%N then ((9 <=? c) && (c <=? 13) || (c =? 32))%N else is_space c.

(** [int(s)] for a text without digits beyond ASCII: white space around
    is dropped, a sign may come first, then digits, at most 4300 of them
    (the interpreter's default limit). *)
Definition ascii_int (s : str) : result Z :=
  let body := rev (drop_run int_blank (rev (drop_run int_blank s))) in
  let '(negative, digits) :=
    match body with
    | 45%N :: t => (true, t)
    | 43%N :: t => (false, t)
    | _ => (false, body)
    end in
  match digits with
  | c :: _ =>
      if is_digit c && (length (filter is_digit digits) <=? 4300)%nat
      then match read_digits 0 digits with
           | Some z => Ok (if negative then (- z)%Z else z)
           | None => Raise ValueError
           end
      else Raise ValueError
  | [] => Raise ValueError
  end.

(** A source document whose image width is null. *)
Definition source_without_width : pyval :=
  PDict [(u "images",
          PList [PDict [(u "convertedImageInfo",
                         PDict [(u "width", PNone); (u "height", PInt 480)])]])].

Definition disk_without_width : FileSystem dir :=
  {| os_listdir := fun _ => Some [u "7_result.json"];
     exists_ := fun _ name => str_eqb name (u "a.json");
     read_json := fun _ name =>
       if str_eqb name (u "7_result.json")
       then Some (PDict [(u "results", PList [])])
       else if str_eqb name (u "a.json") then Some source_without_width else None |}.

(** ** Characters a pattern can read *)

(** Whether some class of the pattern [r] holds the character [c]. *)
Fixpoint may_read (r : Re.re) (c : char) : bool :=
  match r with
  | Re.Chr p | Re.Plus p | Re.StarLazy p => p c
  | Re.Seq a b | Re.Alt a b => may_read a c || may_read b c
  | Re.Group _ r' => may_read r' c
  end.

(** ** Cleaned names *)

(** A text without hyphens and without two dots in a row; [after_dot]
    tells that a dot stands right before it. *)
Fixpoint tidy (after_dot : bool) (s : str) : bool :=
  match s with
  | [] => true
  | c :: t =>
      if dot_or_hyphen c
      then chr_eqb c 46 && negb after_dot && tidy true t
      else tidy false t
  end.

(** ** Date texts *)

(** The characters a date text may hold to be read by one of the two
    formats: decimal digits, "-", ":", "T" or "t", and white space. *)
Definition date_char (uni_digit : char -> option N) (c : char) : bool :=
  match digit_value uni_digit c with Some _ => true | None => false end
  || chr_eqb c 45 || chr_eqb c 58 || chr_eqb c 84 || chr_eqb c 116 || is_space c.

(** ** Clean names *)

(** A name as [clean_filename] leaves it: word characters, Hangul
    syllables and dots only, never two dots in a row. *)
Definition clean_name (alnum : Re.cls) (s : str) : Prop :=
  forallb (kept_char alnum) s = true
  /\ str_contains 45 s = false
  /\ contains (u "..") s = false.

(** A JSON parser for closed examples: it knows one document, an object
    with both name keys. *)
Definition both_keys : str :=
  u "{" ++ dq ++ u "file_name" ++ dq ++ u ": " ++ dq ++ u "new-name.jpg" ++ dq ++ u ", "
  ++ dq ++ u "filename" ++ dq ++ u ": " ++ dq ++ u "old name.jpg" ++ dq ++ u "}".
Definition sample_loads (s : str) : result pyval :=
  if str_eqb s both_keys
  then Ok (PDict [(u "file_name", PStr (u "new-name.jpg"));
                  (u "filename", PStr (u "old name.jpg"))])
  else Raise JSONDecodeError.

(** ** Order within a list *)

(** [a] stands somewhere before [b] in [l]. *)
Definition precedes {A} (l : list A) (a b : A) : Prop :=
  exists l1 l2 l3, l = l1 ++ a :: l2 ++ b :: l3.

(** A parser for closed examples that reads the one text [{}] as the
    empty object. *)
Definition empty_object_loads (s : str) : result pyval :=
  if str_eqb s (u "{}") then Ok (PDict []) else Raise JSONDecodeError.

(** ** Transcriptions without spaces *)



(* ================================================================== *)
(** * Basic facts *)
(* ================================================================== *)

Unset Implicit Arguments.

Lemma chr_eqb_eq (a b : char) : chr_eqb a b = true <-> a = b.
Proof. unfold chr_eqb. apply N.eqb_eq. Qed.

Lemma chr_eqb_refl (a : char) : chr_eqb a a = true.
Proof. apply chr_eqb_eq. reflexivity. Qed.

Lemma str_eqb_eq (a b : str) : str_eqb a b = true <-> a = b.
Proof.
  revert b. induction a as [|x a IH]; intros [|y b]; simpl; split; intro H;
    try reflexivity; try discriminate.
  - apply andb_true_iff in H. destruct H as [H1 H2].
    apply chr_eqb_eq in H1. apply IH in H2. congruence.
  - injection H as -> ->. rewrite chr_eqb_refl. simpl. apply IH. reflexivity.
Qed.

Lemma str_eqb_refl (a : str) : str_eqb a a = true.
Proof. apply str_eqb_eq. reflexivity. Qed.

Lemma bind_ok {A B} (m : result A) (k : A -> result B) (b : B) :
  bind m k = Ok b -> exists a, m = Ok a /\ k a = Ok b.
Proof. destruct m as [a|e]; simpl; intro H; [eauto | discriminate]. Qed.

Lemma foldM_skip {A S} (f : S -> A -> result S) (a : A) (l1 l2 : list A) (s : S) :
  (forall s', f s' a = Ok s') ->
  foldM f (l1 ++ a :: l2) s = foldM f (l1 ++ l2) s.
Proof.
  intro Ha. revert s. induction l1 as [|x l1 IH]; intro s; simpl.
  - rewrite Ha. reflexivity.
  - destruct (f s x) as [s'|e]; simpl; [apply IH | reflexivity].
Qed.

(* ================================================================== *)
(** * C4: the self-closing collapse *)
(* ================================================================== *)

(** C4 (code against its own comment).  On the strict form
    [<tag attr="x"/>] the collapse yields [<tag attr="x"></tag>], as
    described; but the form with a blank before the slash,
    [<tag attr="x" />], does not pass through unchanged: the lazy group
    [[^>]*?] takes the blank too and the result is
    [<tag attr="x" ></tag>]. *)
Theorem C4_space_form_is_collapsed_too (alnum : Re.cls) :
  fix_empty_tags alnum (u "<tag attr=" ++ dq ++ u "x" ++ dq ++ u "/>")
    = u "<tag attr=" ++ dq ++ u "x" ++ dq ++ u "></tag>"
  /\ fix_empty_tags alnum (u "<tag attr=" ++ dq ++ u "x" ++ dq ++ u " />")
    = u "<tag attr=" ++ dq ++ u "x" ++ dq ++ u " ></tag>"
  /\ fix_empty_tags alnum (u "<tag attr=" ++ dq ++ u "x" ++ dq ++ u " />")
    <> u "<tag attr=" ++ dq ++ u "x" ++ dq ++ u " />".
Proof.
  split; [|split]; try (vm_compute; reflexivity).
  vm_compute. discriminate.
Qed.

(* ================================================================== *)
(** * C5: what the text normaliser removes *)
(* ================================================================== *)

Lemma startswith_nil (s : str) : startswith s [] = true.
Proof. destruct s; reflexivity. Qed.






(* ================================================================== *)
(** * C3: labels of retained records *)
(* ================================================================== *)

(** C3 (the single-tier variant misses the empty transcription).  On a
    retained record whose transcription is the empty string,
    [data_processing_1128.py] tests only [text_value == 'empty'], so the
    polygon is labelled "text" and gets an [attribute] child with empty
    text; [data_processing_1212_merged.py] labels the same record "empty"
    with no child.  Both label the token "empty" as "empty" with no child,
    and an ordinary transcription as "text" with its [attribute] child. *)
Theorem C3_empty_transcription_labelled_text_in_1128 (py_repr : pyval -> str) :
  let image := new_element (u "image") in
  V1128.annotation_step py_repr (image, 0%Z) (sample_box [])
    = Ok (append_child image (sample_polygon (u "text") [sample_attribute []]), 1%Z)
  /\ V1212.annotation_step py_repr (u "ocr") (image, 0%Z) (sample_box [])
    = Ok (append_child image (sample_polygon (u "empty") []), 1%Z)
  /\ V1128.annotation_step py_repr (image, 0%Z) (sample_box (u "empty"))
    = Ok (append_child image (sample_polygon (u "empty") []), 1%Z)
  /\ V1212.annotation_step py_repr (u "ocr") (image, 0%Z) (sample_box (u "empty"))
    = Ok (append_child image (sample_polygon (u "empty") []), 1%Z)
  /\ V1128.annotation_step py_repr (image, 0%Z) (sample_box (u "a<b"))
    = Ok (append_child image (sample_polygon (u "text") [sample_attribute (u "a&lt;b")]), 1%Z)
  /\ V1212.annotation_step py_repr (u "ocr") (image, 0%Z) (sample_box (u "a<b"))
    = Ok (append_child image (sample_polygon (u "text") [sample_attribute (u "a&lt;b")]), 1%Z).
Proof. repeat split; vm_compute; reflexivity. Qed.

(* ================================================================== *)
(** * C10: rows of unknown difficulty *)
(* ================================================================== *)

(** C10.  In the two-tier conversion a manifest row whose difficulty is
    neither U+C911 nor U+C0C1 leaves the state of the run as it was: no
    [image] element is appended, nothing joins [missing_files],
    [processed_count] keeps its value, and the step returns normally, so
    the loop goes on: wherever the row stands in the manifest, the run
    ends as the run over the other rows (with their own indices) does. *)
Theorem C10_unknown_difficulty_row_is_skipped
    (py_repr : pyval -> str) (json_loads : str -> result pyval)
    (int_of_str : str -> result Z) (fs : FileSystem dir)
    (st : RunState) (idx : nat) (row : Row)
    (Hmid : py_eq_str (difficulty row) tier_mid = false)
    (Hhigh : py_eq_str (difficulty row) tier_high = false) :
  V1212.process_row py_repr json_loads int_of_str fs st (idx, row) = Ok st
  /\ forall before after : list (nat * Row),
       foldM (V1212.process_row py_repr json_loads int_of_str fs)
             (before ++ (idx, row) :: after) initial_state
       = foldM (V1212.process_row py_repr json_loads int_of_str fs)
               (before ++ after) initial_state.
Proof.
  assert (Hstep : forall s,
             V1212.process_row py_repr json_loads int_of_str fs s (idx, row) = Ok s).
  { intro s. unfold V1212.process_row. rewrite Hmid, Hhigh.
    destruct (negb (truthy _)); reflexivity. }
  split; [apply Hstep|].
  intros before after. apply foldM_skip. exact Hstep.
Qed.

(** A row tagged "easy" between two rows whose files are not on disk. *)
Lemma C10_unknown_difficulty_row_is_skipped_witness :
  let fs := {| os_listdir := fun _ => Some []; exists_ := fun _ _ => false;
               read_json := fun _ _ => None |} in
  let row := {| data_idx := PInt 7; file_name := PStr (u "a.jpg");
                difficulty := PStr (u "easy") |} in
  V1212.process_row no_repr plain_names (fun _ => Ok 0%Z) fs initial_state (0, row)
    = Ok initial_state
  /\ forall before after : list (nat * Row),
       foldM (V1212.process_row no_repr plain_names (fun _ => Ok 0%Z) fs)
             (before ++ (0, row) :: after) initial_state
       = foldM (V1212.process_row no_repr plain_names (fun _ => Ok 0%Z) fs)
               (before ++ after) initial_state.
Proof.
  intros fs row.
  apply (C10_unknown_difficulty_row_is_skipped no_repr plain_names (fun _ => Ok 0%Z)
           fs initial_state 0 row); reflexivity.
Defined.

(* ================================================================== *)
(** * C7: result documents without annotations *)
(* ================================================================== *)

Lemma image_header_bare (py_repr : pyval -> str) (image_id : Z)
    (image_name source w h : pyval) :
  image_size source = Ok (w, h) ->
  image_header py_repr image_id image_name source
    = Ok (bare_image py_repr image_id image_name w h).
Proof. intro H. unfold image_header. rewrite H. reflexivity. Qed.

Lemma no_payload_loop (step : Element * Z -> pyval -> result (Element * Z))
    (key : str) (rs : list pyval) (image_elem : Element) :
  no_payload rs ->
  (short <- too_short (PList rs) 1 ;;
   if short then Ok image_elem
   else annotation_loop step key (PList rs) 1 image_elem) = Ok image_elem.
Proof.
  intros [Hlen | [cells Hcell]].
  - destruct rs as [|a [|b rs]]; simpl in *; try reflexivity; lia.
  - destruct rs as [|a [|b rs]]; simpl in *; try discriminate.
    injection Hcell as ->. reflexivity.
Qed.

Section Rows.

Variable py_repr : pyval -> str.
Variable json_loads : str -> result pyval.
Variable int_of_str : str -> result Z.
Variable fs : FileSystem dir.

Lemma V1128_row_reaches_converter (st : RunState) (idx : nat) (row : Row)
    (name : str) (result_doc source_doc : pyval) :
  row_documents py_repr json_loads fs result_json_dir source_json_dir source_name_1128
    row name result_doc source_doc ->
  V1128.process_row py_repr json_loads fs st (idx, row)
  = (image_elem <- V1128.convert_result_json_to_xml py_repr result_doc
                     (Z.of_nat idx + 1) (PStr name) source_doc ;;
     Ok (add_image st image_elem)).
Proof.
  intros (Hname & Hne & (files & first_file & others & Hdir & Hfiles & Hres)
          & Hex & Hsrc & Htr & Hts).
  unfold V1128.process_row, V1128.extract_filename_from_csv. rewrite Hname.
  assert (truthy (PStr name) = true) as -> by (destruct name; [congruence | reflexivity]).
  cbn [negb]. unfold listdir. rewrite Hdir. cbn [bind]. rewrite Hfiles.
  cbn [as_str bind]. fold (source_name_1128 name). rewrite Hex. cbn [negb].
  unfold load_json_data. rewrite Hres, Hsrc, Htr, Hts. reflexivity.
Qed.

Lemma V1212_row_reaches_converter (st : RunState) (idx : nat) (row : Row)
    (name : str) (result_doc source_doc : pyval) (result_dir source_dir : dir) :
  tier_of row result_dir source_dir ->
  row_documents py_repr json_loads fs result_dir source_dir source_name_1212
    row name result_doc source_doc ->
  V1212.process_row py_repr json_loads int_of_str fs st (idx, row)
  = (image_elem <- V1212.convert_result_json_to_xml py_repr result_doc
                     (Z.of_nat idx + 1) (PStr name) source_doc (difficulty row) ;;
     _ <- V1212.int_attr int_of_str image_elem (u "width") ;;
     _ <- V1212.int_attr int_of_str image_elem (u "height") ;;
     Ok (add_image st image_elem)).
Proof.
  intros Htier (Hname & Hne & (files & first_file & others & Hdir & Hfiles & Hres)
                & Hex & Hsrc & Htr & Hts).
  unfold V1212.process_row, V1212.extract_filename_from_csv. rewrite Hname.
  assert (truthy (PStr name) = true) as -> by (destruct name; [congruence | reflexivity]).
  cbn [negb].
  destruct Htier as [(Hd & -> & ->) | (Hd & -> & ->)]; rewrite Hd;
    change (py_eq_str (PStr tier_mid) tier_mid) with true;
    change (py_eq_str (PStr tier_high) tier_mid) with false;
    change (py_eq_str (PStr tier_high) tier_high) with true;
    cbv iota;
    unfold listdir; rewrite Hdir; cbn [bind]; rewrite Hfiles;
    cbn [as_str bind]; fold (source_name_1212 name); rewrite Hex; cbn [negb];
    unfold load_json_data; rewrite Hres, Hsrc, Htr, Hts; reflexivity.
Qed.

End Rows.

(** C7.  Let the size lookup on the source document succeed with [w] and
    [h], and let the result document be an object whose [results] (the
    empty list when the key is absent) is a list [rs] with fewer than 2
    entries, or with a list at index 1 whose first cell is null.  Then
    both converters return, without raising, the [image] element that
    carries id, name, width and height and has no child at all, hence no
    polygon.  A manifest row that leads the row loop to these documents is
    not dropped: the step returns normally with that element appended to
    the root and [processed_count] raised by one (in the two-tier loop,
    which reads the width and height back through [int], when [int]
    accepts their texts). *)
Theorem C7_no_payload_gives_bare_image
    (py_repr : pyval -> str) (d : list (str * pyval)) (rs : list pyval)
    (image_id : Z) (image_name source w h difficulty : pyval)
    (Hsize : image_size source = Ok (w, h))
    (Hresults : py_get (PDict d) (u "results") (PList []) = Ok (PList rs))
    (Hrs : no_payload rs) :
  let image := bare_image py_repr image_id image_name w h in
  V1128.convert_result_json_to_xml py_repr (PDict d) image_id image_name source
    = Ok image
  /\ V1212.convert_result_json_to_xml py_repr (PDict d) image_id image_name source
       difficulty = Ok image
  /\ polygons image = []
  /\ elem_get image (u "id") = Some (dec_Z (image_id - 1))
  /\ elem_get image (u "name") = Some (escape_xml_text py_repr image_name)
  /\ elem_get image (u "width") = Some (py_str py_repr w)
  /\ elem_get image (u "height") = Some (py_str py_repr h)
  /\ (forall json_loads fs st idx row name,
        row_documents py_repr json_loads fs result_json_dir source_json_dir
          source_name_1128 row name (PDict d) source ->
        V1128.process_row py_repr json_loads fs st (idx, row)
        = Ok (add_image st (bare_image py_repr (Z.of_nat idx + 1) (PStr name) w h)))
  /\ (forall json_loads int_of_str fs st idx row name result_dir source_dir zw zh,
        tier_of row result_dir source_dir ->
        row_documents py_repr json_loads fs result_dir source_dir
          source_name_1212 row name (PDict d) source ->
        int_of_str (py_str py_repr w) = Ok zw ->
        int_of_str (py_str py_repr h) = Ok zh ->
        V1212.process_row py_repr json_loads int_of_str fs st (idx, row)
        = Ok (add_image st (bare_image py_repr (Z.of_nat idx + 1) (PStr name) w h))).
Proof.
  assert (H1128 : forall image_id image_name,
             V1128.convert_result_json_to_xml py_repr (PDict d) image_id image_name source
             = Ok (bare_image py_repr image_id image_name w h)).
  { intros i n. unfold V1128.convert_result_json_to_xml.
    rewrite (@image_header_bare py_repr i n source w h Hsize), Hresults.
    cbn [bind]. apply no_payload_loop. exact Hrs. }
  assert (H1212 : forall image_id image_name difficulty,
             V1212.convert_result_json_to_xml py_repr (PDict d) image_id image_name source
               difficulty
             = Ok (bare_image py_repr image_id image_name w h)).
  { intros i n t. unfold V1212.convert_result_json_to_xml.
    rewrite (@image_header_bare py_repr i n source w h Hsize).
    cbn [bind]. destruct (py_eq_str t tier_mid);
      rewrite Hresults; cbn [bind]; apply no_payload_loop; exact Hrs. }
  intro image. repeat split; try reflexivity.
  - apply H1128.
  - apply H1212.
  - intros json_loads fs st idx row name Hrow.
    rewrite (@V1128_row_reaches_converter py_repr json_loads fs st idx row name
               (PDict d) source Hrow), H1128.
    reflexivity.
  - intros json_loads int_of_str fs st idx row name result_dir source_dir zw zh
           Htier Hrow Hw Hh.
    rewrite (@V1212_row_reaches_converter py_repr json_loads int_of_str fs st idx row name
               (PDict d) source result_dir source_dir Htier Hrow), H1212.
    cbn [bind]. unfold V1212.int_attr.
    change (elem_get (bare_image py_repr (Z.of_nat idx + 1) (PStr name) w h) (u "width"))
      with (Some (py_str py_repr w)).
    change (elem_get (bare_image py_repr (Z.of_nat idx + 1) (PStr name) w h) (u "height"))
      with (Some (py_str py_repr h)).
    cbv iota. rewrite Hw. cbn [bind]. rewrite Hh. reflexivity.
Qed.

(** The payload cell is null: [{"results": [[], [null]]}]. *)
Lemma C7_no_payload_gives_bare_image_witness :
  let d := [(u "results", PList [PList []; PList [PNone]])] in
  let image := bare_image no_repr 1 (PStr (u "a.jpg")) (PInt 640) (PInt 480) in
  V1128.convert_result_json_to_xml no_repr (PDict d) 1 (PStr (u "a.jpg")) sample_source
    = Ok image
  /\ V1212.convert_result_json_to_xml no_repr (PDict d) 1 (PStr (u "a.jpg")) sample_source
       (PStr tier_mid) = Ok image
  /\ polygons image = []
  /\ elem_get image (u "id") = Some (dec_Z (1 - 1))
  /\ elem_get image (u "name") = Some (escape_xml_text no_repr (PStr (u "a.jpg")))
  /\ elem_get image (u "width") = Some (py_str no_repr (PInt 640))
  /\ elem_get image (u "height") = Some (py_str no_repr (PInt 480))
  /\ (forall json_loads fs st idx row name,
        row_documents no_repr json_loads fs result_json_dir source_json_dir
          source_name_1128 row name (PDict d) sample_source ->
        V1128.process_row no_repr json_loads fs st (idx, row)
        = Ok (add_image st (bare_image no_repr (Z.of_nat idx + 1) (PStr name)
                              (PInt 640) (PInt 480))))
  /\ (forall json_loads int_of_str fs st idx row name result_dir source_dir zw zh,
        tier_of row result_dir source_dir ->
        row_documents no_repr json_loads fs result_dir source_dir
          source_name_1212 row name (PDict d) sample_source ->
        int_of_str (py_str no_repr (PInt 640)) = Ok zw ->
        int_of_str (py_str no_repr (PInt 480)) = Ok zh ->
        V1212.process_row no_repr json_loads int_of_str fs st (idx, row)
        = Ok (add_image st (bare_image no_repr (Z.of_nat idx + 1) (PStr name)
                              (PInt 640) (PInt 480)))).
Proof.
  intros d image.
  apply (@C7_no_payload_gives_bare_image no_repr d [PList []; PList [PNone]]
           1 (PStr (u "a.jpg")) sample_source (PInt 640) (PInt 480) (PStr tier_mid)).
  - reflexivity.
  - reflexivity.
  - right. exists []. reflexivity.
Defined.

(** Both row loops on the one-row manifest [row_7], whose result document
    is [{"results": []}]: the run ends with one [image] element, numbered
    0 and without polygons, and one processed row. *)
Example row_without_annotations_is_kept :
  let image := bare_image no_repr 1 (PStr (u "a.jpg")) (PInt 640) (PInt 480) in
  let kept := {| images := [image]; processed_count := 1; missing_files := [] |} in
  V1128.process_csv_to_xml no_repr plain_names disk_with_empty_results [row_7] = Ok kept
  /\ V1212.process_csv_to_xml no_repr plain_names (fun _ => Ok 0%Z)
       disk_with_empty_results [row_7] = Ok kept
  /\ polygons image = [].
Proof. repeat split; vm_compute; reflexivity. Qed.

(* ================================================================== *)
(** * C1: image elements follow the manifest *)
(* ================================================================== *)

Lemma attrib_append_child (e c : Element) : attrib (append_child e c) = attrib e.
Proof. destruct e; reflexivity. Qed.

Lemma V1128_step_attrib (py_repr : pyval -> str) (e e' : Element) (z z' : Z) (a : pyval) :
  V1128.annotation_step py_repr (e, z) a = Ok (e', z') -> attrib e' = attrib e.
Proof.
  unfold V1128.annotation_step. intro H.
  apply bind_ok in H. destruct H as [ps [_ H]].
  destruct ps as [|p ps].
  - injection H as <- _. reflexivity.
  - apply bind_ok in H. destruct H as [tv [_ H]].
    injection H as <- _. apply attrib_append_child.
Qed.

Lemma foldM_attrib (step : Element * Z -> pyval -> result (Element * Z)) :
  (forall e z a e' z', step (e, z) a = Ok (e', z') -> attrib e' = attrib e) ->
  forall items e z st, foldM step items (e, z) = Ok st -> attrib (fst st) = attrib e.
Proof.
  intros Hstep items. induction items as [|a items IH]; intros e z st H; simpl in H.
  - injection H as <-. reflexivity.
  - apply bind_ok in H. destruct H as [[e1 z1] [H1 H2]].
    apply IH in H2. apply Hstep in H1. congruence.
Qed.

Lemma annotation_loop_attrib (step : Element * Z -> pyval -> result (Element * Z))
    (key : str) (results : pyval) (i : nat) (e e' : Element) :
  (forall e z a e' z', step (e, z) a = Ok (e', z') -> attrib e' = attrib e) ->
  annotation_loop step key results i e = Ok e' -> attrib e' = attrib e.
Proof.
  intros Hstep H. unfold annotation_loop in H.
  apply bind_ok in H. destruct H as [data_row [_ H]].
  apply bind_ok in H. destruct H as [payload [_ H]].
  destruct payload; [|injection H as <-; reflexivity].
  apply bind_ok in H. destruct H as [annotations [_ H]].
  destruct annotations; try (injection H as <-; reflexivity).
  destruct (lookup key d); [|injection H as <-; reflexivity].
  apply bind_ok in H. destruct H as [items [_ H]].
  apply bind_ok in H. destruct H as [st [H1 H2]].
  injection H2 as <-. eapply foldM_attrib; eauto.
Qed.

Lemma V1128_convert_id (py_repr : pyval -> str) (r name s : pyval) (image_id : Z)
    (img : Element) :
  V1128.convert_result_json_to_xml py_repr r image_id name s = Ok img ->
  elem_get img (u "id") = Some (dec_Z (image_id - 1)).
Proof.
  unfold V1128.convert_result_json_to_xml. intro H.
  apply bind_ok in H. destruct H as [hd [Hhd H]].
  unfold image_header in Hhd. apply bind_ok in Hhd. destruct Hhd as [wh [_ Hhd]].
  injection Hhd as <-.
  apply bind_ok in H. destruct H as [results [_ H]].
  apply bind_ok in H. destruct H as [short [_ H]].
  destruct short.
  - injection H as <-. reflexivity.
  - apply annotation_loop_attrib in H.
    + unfold elem_get. rewrite H. reflexivity.
    + intros. eapply V1128_step_attrib; eauto.
Qed.

Section Run.

Variable py_repr : pyval -> str.
Variable json_loads : str -> result pyval.
Variable fs : FileSystem dir.

Lemma V1128_process_row_cases (st st' : RunState) (idx : nat) (row : Row) :
  V1128.process_row py_repr json_loads fs st (idx, row) = Ok st' ->
  (images st' = images st /\ processed_count st' = processed_count st)
  \/ exists img,
       images st' = images st ++ [img]
       /\ processed_count st' = S (processed_count st)
       /\ elem_get img (u "id") = Some (dec_Z (Z.of_nat idx)).
Proof.
  unfold V1128.process_row. intro H.
  destruct (negb (truthy _)); [injection H as <-; left; split; reflexivity|].
  apply bind_ok in H. destruct H as [files [_ H]].
  destruct (filter _ files) as [|first_file rest].
  { injection H as <-. left. split; reflexivity. }
  apply bind_ok in H. destruct H as [name [_ H]].
  destruct (negb (exists_ fs _ _)).
  { injection H as <-. left. split; reflexivity. }
  destruct (negb (truthy _) || negb (truthy _)).
  { injection H as <-. left. split; reflexivity. }
  apply bind_ok in H. destruct H as [img [Himg H]].
  injection H as <-. right. exists img. repeat split.
  apply V1128_convert_id in Himg. rewrite Himg. do 2 f_equal. lia.
Qed.

Lemma V1128_loop_invariant (rows : list Row) :
  forall (a : nat) (st st' : RunState),
    foldM (V1128.process_row py_repr json_loads fs)
          (combine (seq a (length rows)) rows) st = Ok st' ->
    exists (imgs : list Element) (ks : list nat),
      images st' = images st ++ imgs
      /\ processed_count st' = processed_count st + length ks
      /\ map (fun e => elem_get e (u "id")) imgs
         = map (fun k => Some (dec_Z (Z.of_nat k))) ks
      /\ StronglySorted lt ks
      /\ Forall (fun k => a <= k < a + length rows) ks.
Proof.
  induction rows as [|row rows IH]; intros a st st' H; simpl in H.
  - injection H as <-. exists [], []. rewrite app_nil_r. repeat split; auto; constructor.
  - apply bind_ok in H. destruct H as [st1 [H1 H2]].
    apply IH in H2. destruct H2 as (imgs & ks & Hi & Hc & Hm & Hs & Hf).
    assert (Hf' : Forall (fun k => a <= k < a + length (row :: rows)) ks).
    { eapply Forall_impl; [|exact Hf]. simpl. intros k Hk. lia. }
    apply V1128_process_row_cases in H1.
    destruct H1 as [[Hi1 Hc1] | (img & Hi1 & Hc1 & Hid)].
    + exists imgs, ks. rewrite Hi, Hi1, Hc, Hc1. repeat split; auto.
    + exists (img :: imgs), (a :: ks). rewrite Hi, Hi1, Hc, Hc1.
      repeat split.
      * rewrite <- app_assoc. reflexivity.
      * simpl. lia.
      * simpl. rewrite Hid, Hm. reflexivity.
      * constructor; [exact Hs|].
        eapply Forall_impl; [|exact Hf]. simpl. intros k Hk. lia.
      * constructor; [simpl; lia | exact Hf'].
Qed.
End Run.

Lemma sorted_length_bound (ks : list nat) :
  forall lo hi, StronglySorted lt ks -> Forall (fun k => lo <= k < hi) ks ->
    length ks <= hi - lo.
Proof.
  induction ks as [|k ks IH]; intros lo hi Hs Hf; simpl; [lia|].
  inversion Hs as [|? ? Hs' Hlt]; subst. inversion Hf as [|? ? Hk Hf']; subst.
  assert (length ks <= hi - S k).
  { apply IH; [exact Hs'|].
    rewrite Forall_forall in *. intros x Hx. specialize (Hlt x Hx). specialize (Hf' x Hx). lia. }
  lia.
Qed.

Lemma sorted_nth_ge (ks : list nat) :
  forall lo, StronglySorted lt ks -> Forall (fun k => lo <= k) ks ->
    forall n k, nth_error ks n = Some k -> lo + n <= k.
Proof.
  induction ks as [|x ks IH]; intros lo Hs Hf n k Hn.
  - destruct n; discriminate.
  - inversion Hs as [|? ? Hs' Hlt]; subst. inversion Hf as [|? ? Hx Hf']; subst.
    destruct n as [|n]; simpl in Hn.
    + injection Hn as <-. lia.
    + assert (S x + n <= k).
      { apply (IH (S x)); auto. }
      lia.
Qed.

Lemma sorted_full_is_seq (ks : list nat) :
  forall lo n, StronglySorted lt ks -> Forall (fun k => lo <= k < lo + n) ks ->
    length ks = n -> ks = seq lo n.
Proof.
  induction ks as [|k ks IH]; intros lo n Hs Hf Hlen; simpl in Hlen; subst n.
  - reflexivity.
  - inversion Hs as [|? ? Hs' Hlt]; subst. inversion Hf as [|? ? Hk Hf']; subst.
    assert (Hrest : Forall (fun x => S k <= x < lo + S (length ks)) ks).
    { rewrite Forall_forall in *. intros x Hx. specialize (Hlt x Hx). specialize (Hf' x Hx). lia. }
    pose proof (sorted_length_bound ks (S k) (lo + S (length ks)) Hs' Hrest) as Hb.
    assert (k = lo) by lia. subst k. simpl. f_equal.
    apply IH; auto.
    eapply Forall_impl; [|exact Hrest]. simpl. intros. lia.
Qed.

(** C1, as the code has it.  Whenever the row loop of the single-tier
    conversion completes, its [image] elements stand in manifest row
    order and each carries the zero-based position of its own row: there
    is a strictly increasing list [ks] of row positions, one per element
    and as many as [processed_count], with the Nth element's [id] the
    decimal text of the Nth position.  A row that is passed over (no file
    name, a missing or unreadable document) leaves a gap, so the Nth
    element's id is at least N-1, and it is N-1 for every N exactly when no
    row was passed over.  The converter itself writes [image_id - 1],
    that is the row position, whatever the documents hold. *)
Theorem C1_image_ids_are_row_positions
    (py_repr : pyval -> str) (json_loads : str -> result pyval)
    (fs : FileSystem dir) (df : list Row) (st : RunState)
    (Hrun : V1128.process_csv_to_xml py_repr json_loads fs df = Ok st) :
  exists ks : list nat,
    image_ids st = map (fun k => Some (dec_Z (Z.of_nat k))) ks
    /\ StronglySorted lt ks
    /\ Forall (fun k => k < length df) ks
    /\ processed_count st = length ks
    /\ (forall n k, nth_error ks n = Some k -> n <= k)
    /\ (length ks = length df -> ks = seq 0 (length df))
    /\ (forall r name s k img,
          V1128.convert_result_json_to_xml py_repr r (Z.of_nat k + 1) name s = Ok img ->
          elem_get img (u "id") = Some (dec_Z (Z.of_nat k))).
Proof.
  unfold V1128.process_csv_to_xml, enumerate in Hrun.
  apply V1128_loop_invariant in Hrun.
  destruct Hrun as (imgs & ks & Hi & Hc & Hm & Hs & Hf).
  simpl in Hi, Hc. exists ks. unfold image_ids. rewrite Hi.
  repeat split; auto.
  - eapply Forall_impl; [|exact Hf]. simpl. intros k Hk. lia.
  - intros n k Hn.
    apply (sorted_nth_ge ks 0 Hs) in Hn; [lia|].
    eapply Forall_impl; [|exact Hf]. simpl. intros. lia.
  - intro Hlen. apply sorted_full_is_seq; auto.
  - intros r name s k img Himg. apply V1128_convert_id in Himg.
    rewrite Himg. do 2 f_equal. lia.
Qed.

(** The two-row manifest, run to its end. *)
Lemma C1_image_ids_are_row_positions_witness :
  exists ks : list nat,
    image_ids {| images := [bare_image no_repr 2 (PStr (u "b.jpg")) (PInt 640) (PInt 480)];
                 processed_count := 1;
                 missing_files := [u "1_result"] |}
      = map (fun k => Some (dec_Z (Z.of_nat k))) ks
    /\ StronglySorted lt ks
    /\ Forall (fun k => k < length two_rows) ks
    /\ 1 = length ks
    /\ (forall n k, nth_error ks n = Some k -> n <= k)
    /\ (length ks = length two_rows -> ks = seq 0 (length two_rows))
    /\ (forall r name s k img,
          V1128.convert_result_json_to_xml no_repr r (Z.of_nat k + 1) name s = Ok img ->
          elem_get img (u "id") = Some (dec_Z (Z.of_nat k))).
Proof.
  apply (C1_image_ids_are_row_positions no_repr plain_names disk_without_item_1 two_rows).
  vm_compute. reflexivity.
Defined.

(** C1, counterexample.  With the result document of item 1 missing, the
    run over the two-row manifest completes with a single [image]
    element, built for row 1: the first output element carries id "1",
    not "0". *)
Lemma C1_first_image_can_carry_id_1 :
  V1128.process_csv_to_xml no_repr plain_names disk_without_item_1 two_rows
    = Ok {| images := [bare_image no_repr 2 (PStr (u "b.jpg")) (PInt 640) (PInt 480)];
            processed_count := 1;
            missing_files := [u "1_result"] |}
  /\ image_ids {| images := [bare_image no_repr 2 (PStr (u "b.jpg")) (PInt 640) (PInt 480)];
                  processed_count := 1;
                  missing_files := [u "1_result"] |}
     = [Some (u "1")]
  /\ u "1" <> dec_Z (1 - 1).
Proof.
  split; [vm_compute; reflexivity|].
  split; [vm_compute; reflexivity|].
  vm_compute. discriminate.
Qed.

(* ================================================================== *)
(** * Matching and substitution with the patterns used *)
(* ================================================================== *)

Lemma take_drop_run (p : Re.cls) (s : str) : take_run p s ++ drop_run p s = s.
Proof.
  induction s as [|c t IH]; simpl; [reflexivity|].
  destruct (p c); simpl; [rewrite IH|]; reflexivity.
Qed.

Lemma drop_run_length (p : Re.cls) (s : str) :
  length s = length (take_run p s) + length (drop_run p s).
Proof. rewrite <- (take_drop_run p s) at 1. apply length_app. Qed.

Lemma skipn_drop_run (p : Re.cls) (s : str) :
  skipn (length s - length (drop_run p s)) s = drop_run p s.
Proof.
  pose proof (drop_run_length p s) as H.
  replace (length s - length (drop_run p s)) with (length (take_run p s)) by lia.
  rewrite <- (take_drop_run p s) at 2.
  rewrite skipn_app, skipn_all, Nat.sub_diag. reflexivity.
Qed.

Lemma lazy_rests_last (p : Re.cls) (s : str) :
  exists front, Re.lazy_rests p s = front ++ [drop_run p s].
Proof.
  induction s as [|c t [front IH]]; simpl.
  - exists []. reflexivity.
  - destruct (p c).
    + exists ((c :: t) :: front). rewrite IH. reflexivity.
    + exists []. reflexivity.
Qed.

Lemma greedy_rests_head (p : Re.cls) (c : char) (t : str) :
  p c = true ->
  exists others, Re.greedy_rests p (c :: t) = drop_run p t :: others.
Proof.
  intro Hc. unfold Re.greedy_rests. simpl. rewrite Hc.
  destruct (lazy_rests_last p t) as [front ->].
  rewrite rev_app_distr. simpl. eauto.
Qed.

Lemma greedy_rests_none (p : Re.cls) (s : str) :
  match s with c :: _ => p c = false | [] => True end ->
  Re.greedy_rests p s = [].
Proof.
  unfold Re.greedy_rests. destruct s as [|c t]; simpl; [reflexivity|].
  intros ->. reflexivity.
Qed.

Lemma sub_from_skip (r : Re.re) (tpl : list Re.piece) (s : str) :
  forall k, Re.sub_from r tpl s k = Re.sub_from r tpl (skipn k s) 0.
Proof.
  induction s as [|c t IH]; intros [|k]; simpl; try reflexivity.
  apply IH.
Qed.

Lemma sub_from_cons (r : Re.re) (tpl : list Re.piece) (c : char) (t : str) :
  Re.sub_from r tpl (c :: t) 0
  = match Re.match_prefix r (c :: t) with
    | Some (caps, rest) =>
        Re.expand tpl caps ++ Re.sub_from r tpl t (length t - length rest)
    | None => c :: Re.sub_from r tpl t 0
    end.
Proof.
  cbn [Re.sub_from]. destruct (Re.match_prefix r (c :: t)) as [[caps rest]|]; [|reflexivity].
  do 2 f_equal. cbn [length]. lia.
Qed.

Lemma sub_chr (p : Re.cls) (s : str) :
  Re.sub (Re.Chr p) [] s = filter (fun c => negb (p c)) s.
Proof.
  unfold Re.sub. induction s as [|c t IH]; [reflexivity|].
  rewrite sub_from_cons. unfold Re.match_prefix. cbn [Re.exec filter hd_error].
  destruct (p c); cbn [hd_error negb Re.expand flat_map app].
  - rewrite Nat.sub_diag. exact IH.
  - f_equal. exact IH.
Qed.

Lemma sub_plus_step (p : Re.cls) (l : str) (c : char) (t : str) :
  Re.sub (Re.Plus p) [Re.Lit l] (c :: t)
  = if p c then l ++ Re.sub (Re.Plus p) [Re.Lit l] (drop_run p t)
    else c :: Re.sub (Re.Plus p) [Re.Lit l] t.
Proof.
  unfold Re.sub. rewrite sub_from_cons. unfold Re.match_prefix. cbn [Re.exec].
  destruct (p c) eqn:Hc.
  - destruct (greedy_rests_head p c t Hc) as [others ->].
    cbn [map hd_error Re.expand flat_map]. rewrite app_nil_r. f_equal.
    rewrite sub_from_skip, skipn_drop_run. reflexivity.
  - rewrite greedy_rests_none by exact Hc. reflexivity.
Qed.

(* ================================================================== *)
(** * C8: [clean_filename] *)
(* ================================================================== *)

Lemma collapse_in_run (s : str) :
  collapse_runs true s = collapse_runs false (drop_run dot_or_hyphen s).
Proof.
  induction s as [|c t IH]; simpl; [reflexivity|].
  destruct (dot_or_hyphen c) eqn:Hc; [exact IH|].
  simpl. rewrite Hc. reflexivity.
Qed.

Lemma drop_run_shorter (p : Re.cls) (s : str) : length (drop_run p s) <= length s.
Proof. pose proof (drop_run_length p s). lia. Qed.

Lemma sub_plus_collapses (s : str) :
  Re.sub (Re.Plus dot_or_hyphen) [Re.Lit [46%N]] s = collapse_runs false s.
Proof.
  remember (length s) as n eqn:Hn.
  revert s Hn. induction n as [n IH] using lt_wf_ind. intros s Hn.
  destruct s as [|c t]; [reflexivity|].
  rewrite sub_plus_step. simpl collapse_runs.
  destruct (dot_or_hyphen c).
  - rewrite collapse_in_run. simpl. f_equal.
    apply (IH (length (drop_run dot_or_hyphen t))); [|reflexivity].
    pose proof (drop_run_shorter dot_or_hyphen t). simpl in Hn. lia.
  - f_equal. apply (IH (length t)); [simpl in Hn; lia | reflexivity].
Qed.

(** C8.  On a non-empty name, [clean_filename] is the function its
    description spells out: keep the characters that are word characters,
    Hangul syllables (U+AC00 to U+D7A3), dots or hyphens and delete the
    others; then put one dot for every maximal run of dots and hyphens;
    then append ".jpg" exactly when the text holds no dot. *)
Theorem C8_clean_filename_as_described (alnum : Re.cls) (filename : str)
    (Hnonempty : filename <> []) :
  clean_filename alnum filename = described_clean_filename alnum filename.
Proof.
  unfold clean_filename, described_clean_filename.
  destruct filename as [|c t]; [congruence|].
  rewrite sub_chr, sub_plus_collapses.
  assert (Hf : forall s, filter (fun x => negb (negb (kept_char alnum x))) s
                         = filter (kept_char alnum) s).
  { intro s. apply filter_ext. intro x. apply negb_involutive. }
  rewrite Hf.
  destruct (str_contains 46 _); reflexivity.
Qed.

(** The name "my file (1)..--name-x" is cleaned to "myfile1.name.x". *)
Lemma C8_clean_filename_as_described_witness :
  clean_filename ascii_only (u "my file (1)..--name-x")
    = described_clean_filename ascii_only (u "my file (1)..--name-x").
Proof.
  apply (C8_clean_filename_as_described ascii_only (u "my file (1)..--name-x")).
  vm_compute. discriminate.
Defined.

(* ================================================================== *)
(** * C2: the geometry of a BOX record *)
(* ================================================================== *)

(** ** Rounding and the text of a coordinate *)

Local Open Scope Z_scope.










Local Close Scope Z_scope.

Lemma uint_digits_all (d : Decimal.uint) : forallb is_digit (uint_digits d) = true.
Proof. induction d; simpl; auto. Qed.









(** ** Whole numbers *)

Local Open Scope Z_scope.









Local Close Scope Z_scope.


(** ** The branches of the BOX case *)

Lemma py_get_entry (d : list (str * pyval)) (k : str) (default : pyval) :
  py_get (PDict d) k default = Ok (entry d k default).
Proof. reflexivity. Qed.





Section Box.

Variable d : list (str * pyval).
Let coords := entry d (u "coords") (PDict []).
Let obj := entry d (u "object") (PDict []).





End Box.

Lemma dropped_1128 (py_repr : pyval -> str) (a : pyval) (st : Element * Z) :
  annotation_points a = Ok [] -> V1128.annotation_step py_repr st a = Ok st.
Proof. intro H. unfold V1128.annotation_step. destruct st. rewrite H. reflexivity. Qed.

Lemma dropped_1212 (py_repr : pyval -> str) (key : str) (a : pyval) (st : Element * Z) :
  annotation_points a = Ok [] -> V1212.annotation_step py_repr key st a = Ok st.
Proof. intro H. unfold V1212.annotation_step. destruct st. rewrite H. reflexivity. Qed.





(** A box without area, and a box behind an empty [coords]. *)
Example box_without_area_is_dropped :
  annotation_points
    (PDict [(u "annotation", PStr (u "BOX"));
            (u "object", PDict [(u "left", PInt 0); (u "top", PInt 0);
                                (u "width", PInt 0); (u "height", PInt 20)])])
  = Ok []
  /\ annotation_points (box_with_coords (PDict []))
     = Ok [u "0.0000,0.0000"; u "10.0000,0.0000"; u "10.0000,20.0000"; u "0.0000,20.0000"]
  /\ annotation_points (box_with_coords PNone)
     = Ok [u "0.0000,0.0000"; u "10.0000,0.0000"; u "10.0000,20.0000"; u "0.0000,20.0000"].
Proof. repeat split; vm_compute; reflexivity. Qed.

(* ================================================================== *)
(** * C6: [add_timezone_to_datetime] *)
(* ================================================================== *)

Local Open Scope Z_scope.

Lemma valid_datetime_fields (dt : datetime) :
  valid_datetime dt = true ->
  1 <= year dt /\ 1 <= month dt <= 12
  /\ 1 <= day dt <= days_in_month (year dt) (month dt)
  /\ 0 <= hour dt <= 23.
Proof.
  unfold valid_datetime. intro H.
  repeat (apply andb_true_iff in H; destruct H as [H ?]).
  repeat match goal with
         | X : (_ <=? _) = true |- _ => apply Z.leb_le in X
         end.
  lia.
Qed.

Lemma days_before_year_step (y : Z) :
  1 < y ->
  days_before_year y = days_before_year (y - 1) + 365 + (if is_leap (y - 1) then 1 else 0).
Proof.
  intro Hy. unfold days_before_year, is_leap.
  replace (y - 1 - 1) with (y - 2) by lia.
  destruct ((y - 1) mod 4 =? 0) eqn:E4;
    destruct ((y - 1) mod 100 =? 0) eqn:E100;
    destruct ((y - 1) mod 400 =? 0) eqn:E400; cbn [andb orb negb];
    rewrite ?Z.eqb_eq, ?Z.eqb_neq in *;
    Z.div_mod_to_equations; lia.
Qed.

Lemma days_before_month_step (y m : Z) :
  2 <= m <= 12 ->
  days_before_month y m = days_before_month y (m - 1) + days_in_month y (m - 1).
Proof.
  intro Hm.
  assert (Hc : m = 2 \/ m = 3 \/ m = 4 \/ m = 5 \/ m = 6 \/ m = 7 \/ m = 8 \/ m = 9
               \/ m = 10 \/ m = 11 \/ m = 12) by lia.
  unfold days_before_month, days_in_month.
  repeat (destruct Hc as [-> | Hc]); try subst m; destruct (is_leap y); reflexivity.
Qed.

Lemma previous_day_ordinal (y m d y' m' d' : Z) :
  1 <= y -> 1 <= m <= 12 -> 1 <= d ->
  previous_day y m d = Ok (y', m', d') ->
  toordinal y' m' d' = toordinal y m d - 1.
Proof.
  intros Hy Hm Hd. unfold previous_day, toordinal.
  destruct (1 <? d) eqn:E1.
  { intro H. injection H as <- <- <-. lia. }
  apply Z.ltb_ge in E1. assert (d = 1) by lia. subst d.
  destruct (1 <? m) eqn:E2.
  { intro H. injection H as <- <- <-. apply Z.ltb_lt in E2.
    rewrite (days_before_month_step y m) by lia. lia. }
  apply Z.ltb_ge in E2. assert (m = 1) by lia. subst m.
  destruct (1 <? y) eqn:E3; [|discriminate].
  intro H. injection H as <- <- <-. apply Z.ltb_lt in E3.
  rewrite (days_before_year_step y E3).
  unfold days_before_month. cbn [Z.sub Z.to_nat nth Z.ltb Z.compare Pos.compare Pos.compare_cont andb].
  simpl. destruct (is_leap (y - 1)); lia.
Qed.

Lemma minus_9_hours_instant (dt : datetime) :
  valid_datetime dt = true ->
  if too_early dt then minus_9_hours dt = Raise OverflowError
  else exists dt', minus_9_hours dt = Ok dt'
                   /\ seconds_of dt' = seconds_of dt - 9 * 3600.
Proof.
  intro Hv. apply valid_datetime_fields in Hv.
  destruct Hv as (Hy & Hm & Hd & Hh).
  unfold too_early, minus_9_hours.
  destruct (9 <=? hour dt) eqn:E9.
  - apply Z.leb_le in E9.
    assert ((hour dt <? 9) = false) as -> by (apply Z.ltb_ge; lia).
    rewrite andb_false_r.
    eexists. split; [reflexivity|]. unfold seconds_of. simpl. lia.
  - apply Z.leb_gt in E9.
    assert ((hour dt <? 9) = true) as -> by (apply Z.ltb_lt; lia).
    rewrite andb_true_r.
    destruct (previous_day (year dt) (month dt) (day dt)) as [[[y' m'] d']|e] eqn:Ep.
    + assert ((year dt =? 1) && (month dt =? 1) && (day dt =? 1) = false) as ->.
      { unfold previous_day in Ep.
        destruct (1 <? day dt) eqn:E1;
          [apply Z.ltb_lt in E1; assert ((day dt =? 1) = false) as -> by (apply Z.eqb_neq; lia);
           apply andb_false_r|].
        destruct (1 <? month dt) eqn:E2;
          [apply Z.ltb_lt in E2; assert ((month dt =? 1) = false) as -> by (apply Z.eqb_neq; lia);
           rewrite andb_false_r; reflexivity|].
        destruct (1 <? year dt) eqn:E3; [|discriminate].
        apply Z.ltb_lt in E3. assert ((year dt =? 1) = false) as -> by (apply Z.eqb_neq; lia).
        reflexivity. }
      eexists. split; [reflexivity|].
      apply previous_day_ordinal in Ep; try lia.
      unfold seconds_of. simpl. rewrite Ep. lia.
    + assert ((year dt =? 1) && (month dt =? 1) && (day dt =? 1) = true) as ->.
      { unfold previous_day in Ep.
        destruct (1 <? day dt) eqn:E1; [discriminate|].
        destruct (1 <? month dt) eqn:E2; [discriminate|].
        destruct (1 <? year dt) eqn:E3; [discriminate|].
        apply Z.ltb_ge in E1, E2, E3.
        repeat (apply andb_true_iff; split); apply Z.eqb_eq; lia. }
      unfold previous_day in Ep.
      destruct (1 <? day dt); [discriminate|].
      destruct (1 <? month dt); [discriminate|].
      destruct (1 <? year dt); [discriminate|].
      injection Ep as <-. reflexivity.
Qed.

Lemma valid_datetime_spec (dt : datetime) :
  valid_datetime dt = true <->
  1 <= year dt <= 9999 /\ 1 <= month dt <= 12
  /\ 1 <= day dt <= days_in_month (year dt) (month dt)
  /\ 0 <= hour dt <= 23 /\ 0 <= minute dt <= 59 /\ 0 <= second dt <= 59.
Proof.
  unfold valid_datetime. rewrite !andb_true_iff, !Z.leb_le. lia.
Qed.

Lemma days_in_month_bounds (y m : Z) : 28 <= days_in_month y m <= 31.
Proof.
  unfold days_in_month.
  destruct (m =? 2); [destruct (is_leap y); lia|].
  destruct ((m =? 4) || (m =? 6) || (m =? 9) || (m =? 11)); lia.
Qed.

Lemma minus_9_hours_valid (dt dt' : datetime) :
  valid_datetime dt = true -> minus_9_hours dt = Ok dt' -> valid_datetime dt' = true.
Proof.
  rewrite !valid_datetime_spec. intros (Hy & Hm & Hd & Hh & Hmi & Hs).
  unfold minus_9_hours. destruct (9 <=? hour dt) eqn:E9.
  - apply Z.leb_le in E9. intro H. injection H as <-. cbn. lia.
  - apply Z.leb_gt in E9. unfold previous_day.
    destruct (1 <? day dt) eqn:E1; cbn [bind].
    { apply Z.ltb_lt in E1. intro H. injection H as <-. cbn. lia. }
    destruct (1 <? month dt) eqn:E2; cbn [bind].
    { apply Z.ltb_lt in E2. intro H. injection H as <-. cbn.
      pose proof (days_in_month_bounds (year dt) (month dt - 1)). lia. }
    destruct (1 <? year dt) eqn:E3; cbn [bind]; [|discriminate].
    apply Z.ltb_lt in E3. intro H. injection H as <-. cbn.
    change (days_in_month (year dt - 1) 12) with 31. lia.
Qed.

Lemma days_before_year_next (y y' : Z) :
  1 <= y < y' ->
  days_before_year y + 365 + (if is_leap y then 1 else 0) <= days_before_year y'.
Proof.
  intros Hy. unfold days_before_year, is_leap.
  destruct (y mod 4 =? 0) eqn:E4;
    destruct (y mod 100 =? 0) eqn:E100;
    destruct (y mod 400 =? 0) eqn:E400; cbn [andb orb negb];
    rewrite ?Z.eqb_eq, ?Z.eqb_neq in *;
    Z.div_mod_to_equations; lia.
Qed.

Lemma month_cases (m : Z) :
  1 <= m <= 12 ->
  m = 1 \/ m = 2 \/ m = 3 \/ m = 4 \/ m = 5 \/ m = 6 \/ m = 7 \/ m = 8 \/ m = 9
  \/ m = 10 \/ m = 11 \/ m = 12.
Proof. lia. Qed.

Ltac table_entry :=
  repeat match goal with
         | |- context [nth ?n ?l ?d] =>
             let v := eval vm_compute in (nth n l d) in change (nth n l d) with v
         end.

Ltac month_tests :=
  cbn [Z.ltb Z.eqb Z.compare Pos.compare Pos.compare_cont Pos.eqb andb orb].

Lemma day_of_year_bounds (y m d : Z) :
  1 <= m <= 12 -> 1 <= d <= days_in_month y m ->
  1 <= days_before_month y m + d <= 365 + (if is_leap y then 1 else 0).
Proof.
  intros Hm. apply month_cases in Hm.
  unfold days_before_month, days_in_month.
  repeat (destruct Hm as [-> | Hm]); try subst m; table_entry;
    destruct (is_leap y); month_tests; lia.
Qed.

Lemma days_before_month_next (y m m' : Z) :
  1 <= m -> m < m' -> m' <= 12 ->
  days_before_month y m + days_in_month y m <= days_before_month y m'.
Proof.
  intros H1 H2 H3.
  assert (Hm : 1 <= m <= 12) by lia. assert (Hm' : 1 <= m' <= 12) by lia.
  apply month_cases in Hm. apply month_cases in Hm'.
  unfold days_before_month, days_in_month.
  repeat (destruct Hm as [-> | Hm]); try subst m;
    repeat (destruct Hm' as [-> | Hm']); try subst m'; try lia;
    table_entry; destruct (is_leap y); month_tests; lia.
Qed.

Lemma toordinal_injective (y m d y' m' d' : Z) :
  1 <= y -> 1 <= m <= 12 -> 1 <= d <= days_in_month y m ->
  1 <= y' -> 1 <= m' <= 12 -> 1 <= d' <= days_in_month y' m' ->
  toordinal y m d = toordinal y' m' d' -> y = y' /\ m = m' /\ d = d'.
Proof.
  intros Hy Hm Hd Hy' Hm' Hd'. unfold toordinal. intro H.
  pose proof (day_of_year_bounds y m d Hm Hd) as B.
  pose proof (day_of_year_bounds y' m' d' Hm' Hd') as B'.
  assert (y = y').
  { destruct (Z.lt_trichotomy y y') as [L | [E | L]]; [|exact E|].
    - pose proof (days_before_year_next y y' (conj Hy L)). lia.
    - pose proof (days_before_year_next y' y (conj Hy' L)). lia. }
  subst y'. split; [reflexivity|].
  assert (m = m').
  { destruct (Z.lt_trichotomy m m') as [L | [E | L]]; [|exact E|].
    - pose proof (days_before_month_next y m m'). lia.
    - pose proof (days_before_month_next y m' m). lia. }
  subst m'. split; [reflexivity | lia].
Qed.

Lemma seconds_of_injective (a b : datetime) :
  valid_datetime a = true -> valid_datetime b = true ->
  seconds_of a = seconds_of b -> a = b.
Proof.
  rewrite !valid_datetime_spec.
  intros (Hy & Hm & Hd & Hh & Hmi & Hs) (Hy' & Hm' & Hd' & Hh' & Hmi' & Hs').
  unfold seconds_of. intro H.
  assert (Ho : toordinal (year a) (month a) (day a) = toordinal (year b) (month b) (day b)) by lia.
  apply toordinal_injective in Ho; try lia.
  destruct Ho as (E1 & E2 & E3).
  destruct a, b; cbn in *. subst.
  f_equal; lia.
Qed.

Local Close Scope Z_scope.

Lemma strptime_valid (uni_digit : char -> option N) (format : Re.re) (v : pyval)
    (dt : datetime) :
  strptime uni_digit format v = Ok dt -> valid_datetime dt = true.
Proof.
  unfold strptime. destruct v; try discriminate.
  destruct (Re.match_prefix format s) as [[caps rest]|]; [|discriminate].
  destruct rest; [|discriminate].
  destruct (valid_datetime _) eqn:E; [|discriminate].
  intro H. injection H as <-. exact E.
Qed.

Section Attempts.

Variable uni_digit : char -> option N.
Variable format : Re.re.
Variable v : pyval.

(** One [try] body of [add_timezone_to_datetime]. *)
Let attempt : result pyval :=
  dt <- strptime uni_digit format v ;;
  utc_dt <- minus_9_hours dt ;;
  Ok (PStr (strftime utc_dt)).

Lemma attempt_converts (dt : datetime) :
  strptime uni_digit format v = Ok dt -> too_early dt = false ->
  exists dt', attempt = Ok (PStr (strftime dt'))
              /\ valid_datetime dt' = true
              /\ seconds_of dt' = (seconds_of dt - 9 * 3600)%Z.
Proof.
  intros Hp He. unfold attempt. rewrite Hp. cbn [bind].
  pose proof (strptime_valid _ _ _ _ Hp) as Hv.
  pose proof (minus_9_hours_instant dt Hv) as H.
  rewrite He in H. destruct H as [dt' [Hm Hs]].
  exists dt'. rewrite Hm. split; [reflexivity|].
  split; [exact (minus_9_hours_valid dt dt' Hv Hm) | exact Hs].
Qed.

Lemma attempt_fails :
  unconverted (strptime uni_digit format v) -> exists e, attempt = Raise e.
Proof.
  unfold unconverted, attempt.
  destruct (strptime uni_digit format v) as [dt|e] eqn:Hp; cbn [bind].
  - intro He. pose proof (minus_9_hours_instant dt (strptime_valid _ _ _ _ Hp)) as H.
    rewrite He in H. rewrite H. cbn [bind]. eauto.
  - eauto.
Qed.

End Attempts.

(** C6, as the code has it.  On a string [s], with [first] and [second]
    the parses by '%Y-%m-%dT%H:%M:%S' and '%Y-%m-%d %H:%M:%S':
    - if [first] yields a moment not before 0001-01-01 09:00:00, the result
      is the text, in the layout '%Y-%m-%d %H:%M:%S+09:00', of the moment
      nine hours earlier;
    - if [first] does not convert and [second] yields such a moment, the
      same holds with it;
    - if neither converts (the string matches neither format, or the
      moment read lies before 0001-01-01 09:00:00, where the subtraction
      overflows and the bare [except] takes over), the result is [s]
      itself.
    On every input, string or not, the function returns its argument or
    such a text: it never raises.  The moment nine hours earlier is the
    one well-formed [datetime] that many seconds back: no two well-formed
    values stand for the same second. *)
Theorem C6_add_timezone_to_datetime (uni_digit : char -> option N) (s : str) :
  let r := add_timezone_to_datetime uni_digit (PStr s) in
  let first := strptime uni_digit (format_T uni_digit) (PStr s) in
  let second := strptime uni_digit (format_space uni_digit) (PStr s) in
  let nine_hours_before dt :=
    exists dt', r = PStr (strftime dt')
                /\ valid_datetime dt' = true
                /\ seconds_of dt' = (seconds_of dt - 9 * 3600)%Z in
  (forall dt, first = Ok dt -> too_early dt = false -> nine_hours_before dt)
  /\ (forall dt, unconverted first -> second = Ok dt -> too_early dt = false ->
         nine_hours_before dt)
  /\ (unconverted first -> unconverted second -> r = PStr s)
  /\ (forall v, add_timezone_to_datetime uni_digit v = v
                \/ exists dt', add_timezone_to_datetime uni_digit v = PStr (strftime dt'))
  /\ (forall a b, valid_datetime a = true -> valid_datetime b = true ->
                  seconds_of a = seconds_of b -> a = b).
Proof.
  intros r first second nine_hours_before.
  split; [|split; [|split; [|split]]].
  - intros dt Hp He.
    destruct (attempt_converts uni_digit _ (PStr s) dt Hp He) as [dt' [Ha Hs]].
    exists dt'. split; [|exact Hs].
    unfold r, add_timezone_to_datetime. rewrite Ha. reflexivity.
  - intros dt H1 Hp He.
    destruct (attempt_fails uni_digit _ (PStr s) H1) as [e1 Ha1].
    destruct (attempt_converts uni_digit _ (PStr s) dt Hp He) as [dt' [Ha Hs]].
    exists dt'. split; [|exact Hs].
    unfold r, add_timezone_to_datetime. rewrite Ha1, Ha. reflexivity.
  - intros H1 H2.
    destruct (attempt_fails uni_digit _ (PStr s) H1) as [e1 Ha1].
    destruct (attempt_fails uni_digit _ (PStr s) H2) as [e2 Ha2].
    unfold r, add_timezone_to_datetime. rewrite Ha1, Ha2. reflexivity.
  - intro v. unfold add_timezone_to_datetime.
    destruct (strptime uni_digit (format_T uni_digit) v) as [dt1|e1]; cbn [bind try_except].
    + destruct (minus_9_hours dt1) as [u1|e]; cbn [bind try_except]; [right; eauto|].
      destruct (strptime uni_digit (format_space uni_digit) v) as [dt2|e2];
        cbn [bind try_except]; [|left; reflexivity].
      destruct (minus_9_hours dt2) as [u2|e']; cbn [bind try_except]; [right; eauto | left; reflexivity].
    + destruct (strptime uni_digit (format_space uni_digit) v) as [dt2|e2];
        cbn [bind try_except]; [|left; reflexivity].
      destruct (minus_9_hours dt2) as [u2|e']; cbn [bind try_except]; [right; eauto | left; reflexivity].
  - exact seconds_of_injective.
Qed.

(** C6, counterexample.  "0001-01-01T00:00:00" is parsed by the first
    format, as midnight of 1 January of year 1, yet the function returns
    it unchanged: nine hours earlier there is no [datetime]. *)
Lemma C6_midnight_of_year_1_is_left_unchanged :
  strptime ascii_digits (format_T ascii_digits) (PStr (u "0001-01-01T00:00:00"))
    = Ok {| year := 1; month := 1; day := 1; hour := 0; minute := 0; second := 0 |}
  /\ add_timezone_to_datetime ascii_digits (PStr (u "0001-01-01T00:00:00"))
     = PStr (u "0001-01-01T00:00:00")
  /\ endswith (u "0001-01-01T00:00:00") (u "+09:00") = false.
Proof. repeat split; vm_compute; reflexivity. Qed.

(** "2024-03-01 08:30:15" is read by the second format and moved to the
    evening of 29 February. *)
Lemma C6_add_timezone_to_datetime_witness :
  exists dt',
    add_timezone_to_datetime ascii_digits (PStr (u "2024-03-01 08:30:15"))
      = PStr (strftime dt')
    /\ valid_datetime dt' = true
    /\ seconds_of dt'
       = (seconds_of {| year := 2024; month := 3; day := 1;
                        hour := 8; minute := 30; second := 15 |} - 9 * 3600)%Z.
Proof.
  destruct (C6_add_timezone_to_datetime ascii_digits (u "2024-03-01 08:30:15"))
    as (_ & H & _).
  apply H.
  - vm_compute. exact I.
  - vm_compute. reflexivity.
  - vm_compute. reflexivity.
Defined.

Lemma leap_day_example :
    add_timezone_to_datetime ascii_digits (PStr (u "2024-03-01 08:30:15"))
      = PStr (u "2024-02-29 23:30:15+09:00").
Proof. vm_compute. reflexivity. Qed.

(* ================================================================== *)
(** * C9: the formatter applied to its own output *)
(* ================================================================== *)

(** ** The pattern [<(\w+)([^>]*?)/>] as a direct reading of the text *)

Lemma last_any_default {A} (l : list A) (d d' : A) :
  l <> [] -> last l d = last l d'.
Proof.
  induction l as [|a l IH]; intro H; [congruence|].
  destruct l as [|b l]; [reflexivity|].
  cbn [last] in *. apply IH. discriminate.
Qed.
Lemma contains_tail (p : str) (c : char) (t : str) :
  contains p (c :: t) = false -> contains p t = false.
Proof. cbn [contains]. intro H. apply orb_false_iff in H. apply H. Qed.

Lemma contains_suffix (p x y : str) :
  contains p (x ++ y) = false -> contains p y = false.
Proof.
  induction x as [|c x IH]; intro H; [exact H|].
  apply IH. apply (contains_tail p c). exact H.
Qed.

Lemma startswith_app (p y : str) : startswith (p ++ y) p = true.
Proof.
  induction p as [|c p IH]; [apply startswith_nil|].
  cbn [app startswith]. rewrite chr_eqb_refl. exact IH.
Qed.

Lemma contains_mid (p x y : str) : contains p (x ++ p ++ y) = true.
Proof.
  induction x as [|c x IH].
  - cbn [app]. destruct (p ++ y) eqn:E; cbn [contains]; rewrite <- E, startswith_app;
      reflexivity.
  - cbn [app contains]. rewrite IH. apply orb_true_r.
Qed.

Lemma no_slash_before_close (x m rest : str) :
  contains (u "//>") (x ++ m ++ 47%N :: 62%N :: rest) = false -> last m 0%N <> 47%N.
Proof.
  intros H Hlast.
  destruct m as [|c m'] using rev_ind; [cbn [last] in Hlast; discriminate|].
  rewrite last_last in Hlast. subst c.
  rewrite <- !app_assoc in H. rewrite app_assoc in H.
  change (contains (u "//>") ((x ++ m') ++ u "//>" ++ rest) = false) in H.
  rewrite contains_mid in H. discriminate.
Qed.

Section SelfClosing.

Variable alnum : Re.cls.
Let word := Re.word alnum.

Let tail_re : Re.re :=
  Re.Seq (Re.Group 2 (Re.StarLazy (Re.except 62)))
         (Re.Seq (Re.Chr (Re.just 47)) (Re.Chr (Re.just 62))).

Lemma word_not_special (c : char) :
  word c = true -> chr_eqb c 62 = false /\ chr_eqb c 47 = false /\ chr_eqb c 60 = false.
Proof.
  unfold word, Re.word, chr_eqb. intro H.
  destruct (N.eqb_spec c 62) as [->|]; [discriminate|].
  destruct (N.eqb_spec c 47) as [->|]; [discriminate|].
  destruct (N.eqb_spec c 60) as [->|]; [discriminate|].
  auto.
Qed.

Lemma exec_seq (a b : Re.re) (s : str) (caps : Re.captures) :
  Re.exec (Re.Seq a b) s caps
  = flat_map (fun m => Re.exec b (snd m) (fst m)) (Re.exec a s caps).
Proof. reflexivity. Qed.

Lemma exec_slash_gt (t : str) (caps : Re.captures) :
  Re.exec (Re.Seq (Re.Chr (Re.just 47)) (Re.Chr (Re.just 62))) t caps
  = if match t with
       | c :: t' => chr_eqb c 47 && match t' with c' :: _ => chr_eqb c' 62 | [] => false end
       | [] => false
       end
    then [(caps, tl (tl t))] else [].
Proof.
  destruct t as [|c [|c' t']]; cbn [Re.exec flat_map fst snd app]; try reflexivity.
  - unfold Re.just. destruct (chr_eqb c 47); reflexivity.
  - unfold Re.just. destruct (chr_eqb c 47); cbn [flat_map fst snd Re.exec andb app];
      [|reflexivity].
    destruct (chr_eqb c' 62); reflexivity.
Qed.

Lemma lazy_rests_shorter (p : Re.cls) (s : str) :
  Forall (fun t => length t <= length s) (Re.lazy_rests p s).
Proof.
  induction s as [|c t IH]; cbn [Re.lazy_rests].
  - constructor; [lia | constructor].
  - constructor; [lia|]. destruct (p c); [|constructor].
    eapply Forall_impl; [|exact IH]. cbn [length]. intros. lia.
Qed.

Lemma lazy_rests_splits (p : Re.cls) (s : str) :
  map (fun t => (firstn (length s - length t) s, t)) (Re.lazy_rests p s) = lazy_splits p s.
Proof.
  induction s as [|c t IH]; cbn [Re.lazy_rests lazy_splits map].
  - reflexivity.
  - rewrite Nat.sub_diag. cbn [firstn]. f_equal.
    destruct (p c); [|reflexivity].
    rewrite <- IH, map_map.
    apply map_ext_Forall.
    eapply Forall_impl; [|apply lazy_rests_shorter].
    intros t' Hle. cbv beta in Hle. cbn [fst snd length].
    replace (S (length t) - length t') with (S (length t - length t')) by lia.
    reflexivity.
Qed.

Lemma exec_tail_splits (r : str) (caps : Re.captures) :
  Re.exec tail_re r caps
  = flat_map (fun mt =>
               if match snd mt with
                  | c :: t' => chr_eqb c 47
                               && match t' with c' :: _ => chr_eqb c' 62 | [] => false end
                  | [] => false
                  end
               then [((2, fst mt) :: caps, tl (tl (snd mt)))] else [])
             (lazy_splits (Re.except 62) r).
Proof.
  unfold tail_re. cbn [Re.exec]. rewrite <- lazy_rests_splits.
  rewrite map_map, !flat_map_concat_map, !map_map. f_equal.
  apply map_ext. intro t. cbn [fst snd]. apply exec_slash_gt.
Qed.

Lemma find_first_close (r : str) :
  forall (pre : str) (caps : Re.captures),
    hd_error
      (flat_map (fun mt =>
                   if match snd mt with
                      | c :: t' => chr_eqb c 47
                                   && match t' with c' :: _ => chr_eqb c' 62 | [] => false end
                      | [] => false
                      end
                   then [((2, pre ++ fst mt) :: caps, tl (tl (snd mt)))] else [])
                (lazy_splits (Re.except 62) r))
    = match find_close r with
      | Some (m, rest) => Some ((2, pre ++ m) :: caps, rest)
      | None => None
      end.
Proof.
  induction r as [|c r' IH]; intros pre caps; cbn [lazy_splits flat_map fst snd find_close].
  - reflexivity.
  - unfold Re.except at 1.
    destruct (chr_eqb c 62) eqn:E62.
    + cbn [negb flat_map app].
      assert (chr_eqb c 47 = false) as ->.
      { apply chr_eqb_eq in E62. subst c. reflexivity. }
      reflexivity.
    + cbn [negb].
      destruct (chr_eqb c 47 && match r' with c' :: _ => chr_eqb c' 62 | [] => false end).
      * cbn [app hd_error tl]. reflexivity.
      * cbn [app].
        transitivity
          (hd_error
             (flat_map (fun mt =>
                          if match snd mt with
                             | c0 :: t' =>
                                 chr_eqb c0 47
                                 && match t' with c' :: _ => chr_eqb c' 62 | [] => false end
                             | [] => false
                             end
                          then [((2, (pre ++ [c]) ++ fst mt) :: caps, tl (tl (snd mt)))] else [])
                       (lazy_splits (Re.except 62) r'))).
        { f_equal. rewrite flat_map_concat_map, map_map, <- flat_map_concat_map.
          apply flat_map_ext. intros [a b]. cbn [fst snd].
          rewrite <- app_assoc. reflexivity. }
        rewrite (IH (pre ++ [c]) caps).
        destruct (find_close r') as [[m rest]|]; [rewrite <- app_assoc|]; reflexivity.
Qed.

Lemma exec_tail_head (r : str) (caps : Re.captures) :
  hd_error (Re.exec tail_re r caps)
  = match find_close r with
    | Some (m, rest) => Some ((2, m) :: caps, rest)
    | None => None
    end.
Proof. rewrite exec_tail_splits. apply (find_first_close r [] caps). Qed.

Lemma exec_tail_none (r : str) (caps : Re.captures) :
  find_close r = None -> Re.exec tail_re r caps = [].
Proof.
  intro H. pose proof (exec_tail_head r caps) as Hh. rewrite H in Hh.
  destruct (Re.exec tail_re r caps); [reflexivity | discriminate].
Qed.

Lemma find_close_word (c : char) (t : str) :
  word c = true ->
  find_close (c :: t)
  = match find_close t with
    | Some (m, rest) => Some (c :: m, rest)
    | None => None
    end.
Proof.
  intro Hc. apply word_not_special in Hc. destruct Hc as (H62 & H47 & _).
  cbn [find_close]. rewrite H62, H47. reflexivity.
Qed.

Lemma find_close_after_run (t : str) :
  find_close t
  = match find_close (drop_run word t) with
    | Some (m, rest) => Some (take_run word t ++ m, rest)
    | None => None
    end.
Proof.
  induction t as [|c t IH]; cbn [drop_run take_run].
  - reflexivity.
  - fold word. destruct (word c) eqn:Hc.
    + rewrite (find_close_word c t Hc), IH.
      destruct (find_close (drop_run word t)) as [[m rest]|]; reflexivity.
    + destruct (find_close (c :: t)) as [[m rest]|]; reflexivity.
Qed.

Lemma lazy_rests_same_run (p : Re.cls) (s : str) :
  Forall (fun t => drop_run p t = drop_run p s) (Re.lazy_rests p s).
Proof.
  induction s as [|c t IH]; cbn [Re.lazy_rests].
  - constructor; [reflexivity | constructor].
  - constructor; [reflexivity|].
    destruct (p c) eqn:Hc; [|constructor].
    cbn [drop_run]. rewrite Hc. exact IH.
Qed.

Lemma greedy_rests_same_run (p : Re.cls) (s : str) :
  Forall (fun t => drop_run p t = drop_run p s) (Re.greedy_rests p s).
Proof.
  unfold Re.greedy_rests. apply Forall_rev.
  pose proof (lazy_rests_same_run p s) as H.
  destruct (Re.lazy_rests p s); [constructor|]. inversion H. assumption.
Qed.

Lemma take_run_firstn (p : Re.cls) (s : str) :
  firstn (length s - length (drop_run p s)) s = take_run p s.
Proof.
  pose proof (drop_run_length p s) as H.
  replace (length s - length (drop_run p s)) with (length (take_run p s)) by lia.
  rewrite <- (take_drop_run p s) at 2.
  rewrite firstn_app, Nat.sub_diag, firstn_all. cbn [firstn]. apply app_nil_r.
Qed.

Lemma take_run_nil (p : Re.cls) (s : str) :
  take_run p s = [] -> match s with c :: _ => p c = false | [] => True end.
Proof.
  destruct s as [|c t]; cbn [take_run]; [auto|].
  destruct (p c); [discriminate | reflexivity].
Qed.

Lemma match_prefix_self_closing (s : str) :
  Re.match_prefix (self_closing alnum) s
  = match match_here alnum s with
    | Some (w, m, rest) => Some ([(2, m); (1, w)], rest)
    | None => None
    end.
Proof.
  unfold Re.match_prefix, match_here.
  change (self_closing alnum)
    with (Re.Seq (Re.Chr (Re.just 60)) (Re.Seq (Re.Group 1 (Re.Plus word)) tail_re)).
  destruct s as [|c s1]; [reflexivity|].
  rewrite exec_seq.
  change (Re.exec (Re.Chr (Re.just 60)) (c :: s1) [])
    with (if chr_eqb c 60 then [(@nil (nat * str), s1)] else []).
  destruct (chr_eqb c 60); [|reflexivity].
  cbn [flat_map fst snd]. rewrite app_nil_r.
  rewrite exec_seq.
  change (Re.exec (Re.Group 1 (Re.Plus word)) s1 [])
    with (map (fun m : Re.captures * str =>
                 ((1, firstn (length s1 - length (snd m)) s1) :: fst m, snd m))
              (map (fun t => (@nil (nat * str), t)) (Re.greedy_rests word s1))).
  rewrite flat_map_concat_map, !map_map, <- flat_map_concat_map. cbn [fst snd].
  fold word.
  destruct (take_run word s1) as [|c1 w'] eqn:Hw.
  - apply take_run_nil in Hw. rewrite (greedy_rests_none word s1 Hw). reflexivity.
  - assert (Hc1 : exists t1, s1 = c1 :: t1 /\ word c1 = true).
    { destruct s1 as [|x t1]; [discriminate|]. cbn [take_run] in Hw.
      destruct (word x) eqn:Hx; [|discriminate]. injection Hw as <- _. eauto. }
    destruct Hc1 as (t1 & -> & Hc1).
    pose proof (greedy_rests_same_run word (c1 :: t1)) as Hsame.
    destruct (greedy_rests_head word c1 t1 Hc1) as [others Hg].
    rewrite Hg in Hsame |- *. cbn [flat_map].
    assert (Hrun : drop_run word t1 = drop_run word (c1 :: t1)).
    { cbn [drop_run]. rewrite Hc1. reflexivity. }
    destruct (find_close (drop_run word (c1 :: t1))) as [[m rest]|] eqn:Hf.
    + pose proof (exec_tail_head (drop_run word t1)
                    [(1, firstn (length (c1 :: t1) - length (drop_run word t1)) (c1 :: t1))])
        as Hh.
      rewrite Hrun, Hf in Hh. rewrite Hrun.
      rewrite take_run_firstn, Hw in Hh |- *.
      destruct (Re.exec tail_re _ _) as [|y ys]; [discriminate|].
      cbn [app hd_error] in *. exact Hh.
    + assert (Hall : forall t caps, In t (drop_run word t1 :: others) ->
                                    Re.exec tail_re t caps = []).
      { intros t caps Hin. apply exec_tail_none.
        rewrite Forall_forall in Hsame. specialize (Hsame t Hin).
        rewrite find_close_after_run, Hsame, Hf. reflexivity. }
      rewrite (Hall (drop_run word t1)) by (left; reflexivity).
      cbn [app].
      match goal with
      | |- context [flat_map ?f others] => assert (Hnil : flat_map f others = [])
      end.
      { rewrite flat_map_concat_map. apply concat_nil_Forall.
        apply Forall_forall. intros l Hl. apply in_map_iff in Hl.
        destruct Hl as (t & <- & Hin). apply Hall. right. exact Hin. }
      rewrite Hnil. reflexivity.
Qed.

Lemma find_close_decomp (r m rest : str) :
  find_close r = Some (m, rest) ->
  r = m ++ 47%N :: 62%N :: rest /\ forallb (fun c => negb (chr_eqb c 62)) m = true.
Proof.
  revert m rest. induction r as [|c r' IH]; intros m rest; cbn [find_close]; [discriminate|].
  destruct (chr_eqb c 62) eqn:E62; [discriminate|].
  destruct (chr_eqb c 47 && match r' with c' :: _ => chr_eqb c' 62 | [] => false end) eqn:E.
  - intro H. injection H as <- <-.
    apply andb_true_iff in E. destruct E as [E47 E'].
    destruct r' as [|c' r'']; [discriminate|].
    apply chr_eqb_eq in E47, E'. subst. split; reflexivity.
  - destruct (find_close r') as [[m' rest']|]; [|discriminate].
    intro H. injection H as <- <-.
    destruct (IH m' rest' eq_refl) as [-> Hm]. split; [reflexivity|].
    cbn [forallb]. rewrite E62, Hm. reflexivity.
Qed.

Lemma take_run_all (p : Re.cls) (s : str) : forallb p (take_run p s) = true.
Proof.
  induction s as [|c t IH]; cbn [take_run]; [reflexivity|].
  destruct (p c) eqn:Hc; [|reflexivity]. cbn [forallb]. rewrite Hc, IH. reflexivity.
Qed.

Lemma match_here_decomp (s w m rest : str) :
  match_here alnum s = Some (w, m, rest) ->
  s = 60%N :: w ++ m ++ 47%N :: 62%N :: rest
  /\ w <> [] /\ forallb word w = true
  /\ forallb (fun c => negb (chr_eqb c 62)) m = true.
Proof.
  unfold match_here. destruct s as [|c s1]; [discriminate|].
  destruct (chr_eqb c 60) eqn:E60; [|discriminate].
  apply chr_eqb_eq in E60. subst c. fold word.
  pose proof (take_run_all word s1) as Hall.
  pose proof (take_drop_run word s1) as Htd.
  destruct (take_run word s1) as [|c1 w'] eqn:Hw; [discriminate|].
  destruct (find_close (drop_run word s1)) as [[m' rest']|] eqn:Hf; [|discriminate].
  intro H. injection H as <- <- <-.
  apply find_close_decomp in Hf. destruct Hf as [Hr Hm].
  repeat split; auto; [|discriminate].
  rewrite <- Htd, Hr. reflexivity.
Qed.

Lemma fix_empty_tags_cons (c : char) (t : str) :
  fix_empty_tags alnum (c :: t)
  = match match_here alnum (c :: t) with
    | Some (w, m, rest) =>
        60%N :: w ++ m ++ u "></" ++ w ++ 62%N :: fix_empty_tags alnum rest
    | None => c :: fix_empty_tags alnum t
    end.
Proof.
  unfold fix_empty_tags, Re.sub. rewrite sub_from_cons, match_prefix_self_closing.
  destruct (match_here alnum (c :: t)) as [[[w m] rest]|] eqn:Hm; [|reflexivity].
  apply match_here_decomp in Hm. destruct Hm as (Hs & _).
  injection Hs as -> ->.
  rewrite sub_from_skip.
  assert (Hskip : skipn (length (w ++ m ++ 47%N :: 62%N :: rest) - length rest)
                    (w ++ m ++ 47%N :: 62%N :: rest) = rest).
  { replace (w ++ m ++ 47%N :: 62%N :: rest) with ((w ++ m ++ [47%N; 62%N]) ++ rest)
      by (rewrite <- !app_assoc; reflexivity).
    rewrite length_app, Nat.add_sub, skipn_app, skipn_all, Nat.sub_diag. reflexivity. }
  rewrite Hskip. unfold open_close, Re.expand.
  cbn [flat_map Re.group Nat.eqb]. rewrite app_nil_r, <- !app_assoc. reflexivity.
Qed.

(** ** The scanner finds every match *)

Let step := tag_step alnum.
Let acc := accepts alnum.

Lemma accepts_find_close (r : str) :
  forall q m rest, in_tag q = true -> find_close r = Some (m, rest) -> acc q r = true.
Proof.
  induction r as [|c r' IH]; intros q m rest Hq; cbn [find_close]; [discriminate|].
  destruct (chr_eqb c 62) eqn:E62; [discriminate|].
  destruct (chr_eqb c 47 && match r' with c' :: _ => chr_eqb c' 62 | [] => false end) eqn:E.
  - intros _. apply andb_true_iff in E. destruct E as [E47 E'].
    destruct r' as [|c' r'']; [discriminate|].
    unfold acc. cbn [accepts]. unfold tag_step at 1. rewrite E62.
    assert (chr_eqb c 60 = false) as ->.
    { apply chr_eqb_eq in E47. subst c. reflexivity. }
    rewrite E47.
    destruct q; try discriminate; cbn [accepts]; rewrite E';
      rewrite ?orb_true_r; reflexivity.
  - destruct (find_close r') as [[m' rest']|] eqn:Hf; [|discriminate].
    intros _. unfold acc. cbn [accepts]. apply orb_true_iff. right.
    apply (IH _ m' rest'); [|reflexivity].
    unfold tag_step. rewrite E62.
    destruct q; try discriminate;
      destruct (chr_eqb c 60); destruct (chr_eqb c 47); destruct (Re.word alnum c); reflexivity.
Qed.

Lemma accepts_after_word (w : str) :
  forall q r, q <> Outside -> w <> [] -> forallb word w = true ->
    acc InTag r = true -> acc q (w ++ r) = true.
Proof.
  induction w as [|c w IH]; intros q r Hq Hne Hw Hr; [congruence|].
  cbn [forallb] in Hw. apply andb_true_iff in Hw. destruct Hw as [Hc Hw].
  destruct (word_not_special c Hc) as (E62 & E47 & E60).
  cbn [app]. unfold acc. cbn [accepts]. apply orb_true_iff. right.
  assert (Hstep : tag_step alnum q c = InTag).
  { unfold tag_step. rewrite E62, E60, E47. fold word. rewrite Hc.
    destruct q; congruence. }
  rewrite Hstep. destruct w as [|c' w'].
  - exact Hr.
  - apply IH; [discriminate | discriminate | exact Hw | exact Hr].
Qed.

Lemma accepts_match_here (s : str) (q : tag_state) :
  match_here alnum s <> None -> acc q s = true.
Proof.
  intro H. destruct (match_here alnum s) as [[[w m] rest]|] eqn:Hm; [|congruence].
  pose proof Hm as Hd. apply match_here_decomp in Hd.
  destruct Hd as (-> & Hne & Hw & _).
  unfold match_here in Hm. cbn [chr_eqb N.eqb Pos.eqb] in Hm. fold word in Hm.
  set (s1 := w ++ m ++ 47%N :: 62%N :: rest) in *.
  destruct (take_run word s1) as [|c1 w1] eqn:Ht; [discriminate|].
  destruct (find_close (drop_run word s1)) as [[m' rest']|] eqn:Hf; [|discriminate].
  unfold acc. cbn [accepts]. apply orb_true_iff. right.
  rewrite <- (take_drop_run word s1), Ht.
  apply accepts_after_word.
  - unfold tag_step. cbn. destruct q; discriminate.
  - discriminate.
  - rewrite <- Ht. apply take_run_all.
  - apply (accepts_find_close _ InTag m' rest'); [reflexivity | exact Hf].
Qed.

Lemma fix_empty_tags_fixed (s : str) :
  forall q, acc q s = false -> fix_empty_tags alnum s = s.
Proof.
  induction s as [|c t IH]; intros q Hq; [reflexivity|].
  rewrite fix_empty_tags_cons.
  destruct (match_here alnum (c :: t)) as [x|] eqn:Hm.
  - rewrite (accepts_match_here (c :: t) q) in Hq; [discriminate|].
    rewrite Hm. discriminate.
  - unfold acc in Hq. cbn [accepts] in Hq. apply orb_false_iff in Hq.
    destruct Hq as [_ Hq]. f_equal. apply (IH _ Hq).
Qed.

(** ** What the collapse writes holds no further match *)

Lemma find_close_cons_none (c : char) (t : str) :
  chr_eqb c 62 = false -> find_close (c :: t) = None ->
  chr_eqb c 47 && match t with c' :: _ => chr_eqb c' 62 | [] => false end = false
  /\ find_close t = None.
Proof.
  intros E62. cbn [find_close]. rewrite E62.
  destruct (chr_eqb c 47 && match t with c' :: _ => chr_eqb c' 62 | [] => false end);
    [discriminate|].
  destruct (find_close t) as [[m rest]|]; [discriminate|]. auto.
Qed.

Lemma pending_step (q : tag_state) (c : char) (t : str) :
  pending alnum q (c :: t) -> match_here alnum (c :: t) = None ->
  match q with InTagSlash => chr_eqb c 62 | _ => false end = false
  /\ pending alnum (tag_step alnum q c) t.
Proof.
  intros Hp Hm. unfold tag_step.
  destruct (chr_eqb c 62) eqn:E62.
  { split; [|exact I]. destruct q; try reflexivity.
    cbn [pending find_close chr_eqb N.eqb Pos.eqb andb] in Hp. rewrite E62 in Hp.
    discriminate. }
  assert (Hslash : q = InTagSlash -> find_close (c :: t) = None).
  { intros ->. cbn [pending] in Hp.
    apply find_close_cons_none in Hp; [|reflexivity]. apply Hp. }
  split; [destruct q; reflexivity|].
  destruct (chr_eqb c 60) eqn:E60.
  { apply chr_eqb_eq in E60. subst c.
    destruct q; cbn [pending] in *; try exact Hm.
    - apply find_close_cons_none in Hp; [apply Hp | reflexivity].
    - specialize (Hslash eq_refl).
      apply find_close_cons_none in Hslash; [apply Hslash | reflexivity]. }
  destruct (chr_eqb c 47) eqn:E47.
  { apply chr_eqb_eq in E47. subst c.
    destruct q; cbn [pending] in *; try exact I; try exact Hp.
    apply Hslash. reflexivity. }
  fold word. destruct (word c) eqn:Hw.
  - destruct q; cbn [pending] in *; try exact I.
    + unfold match_here in Hp. cbn [chr_eqb N.eqb Pos.eqb take_run drop_run] in Hp.
      fold word in Hp. rewrite Hw in Hp.
      rewrite find_close_after_run.
      destruct (find_close (drop_run word t)) as [[m rest]|]; [discriminate | reflexivity].
    + apply find_close_cons_none in Hp; [apply Hp | exact E62].
    + specialize (Hslash eq_refl).
      apply find_close_cons_none in Hslash; [apply Hslash | exact E62].
  - destruct q; cbn [pending] in *; try exact I.
    + apply find_close_cons_none in Hp; [apply Hp | exact E62].
    + specialize (Hslash eq_refl).
      apply find_close_cons_none in Hslash; [apply Hslash | exact E62].
Qed.

Lemma pending_match_outside (q : tag_state) (t : str) :
  pending alnum q (60%N :: t) -> match_here alnum (60%N :: t) <> None -> in_tag q = false.
Proof.
  intros Hp Hm. destruct q; try reflexivity; exfalso; apply Hm; cbn [pending] in Hp.
  - apply find_close_cons_none in Hp; [|reflexivity]. destruct Hp as [_ Hp].
    unfold match_here. cbn [chr_eqb N.eqb Pos.eqb]. fold word.
    rewrite find_close_after_run in Hp.
    destruct (find_close (drop_run word t)) as [[m rest]|]; [discriminate|].
    destruct (take_run word t); reflexivity.
  - apply find_close_cons_none in Hp; [|reflexivity]. destruct Hp as [_ Hp].
    apply find_close_cons_none in Hp; [|reflexivity]. destruct Hp as [_ Hp].
    unfold match_here. cbn [chr_eqb N.eqb Pos.eqb]. fold word.
    rewrite find_close_after_run in Hp.
    destruct (find_close (drop_run word t)) as [[m rest]|]; [discriminate|].
    destruct (take_run word t); reflexivity.
Qed.

Lemma accepts_word_run (w : str) :
  forall q r, q <> Outside -> w <> [] -> forallb word w = true ->
    acc q (w ++ r) = acc InTag r.
Proof.
  induction w as [|c w IH]; intros q r Hq Hne Hw; [congruence|].
  cbn [forallb] in Hw. apply andb_true_iff in Hw. destruct Hw as [Hc Hw].
  destruct (word_not_special c Hc) as (E62 & E47 & E60).
  cbn [app]. unfold acc. cbn [accepts].
  assert (Hstep : tag_step alnum q c = InTag).
  { unfold tag_step. rewrite E62, E60, E47. fold word. rewrite Hc.
    destruct q; congruence. }
  rewrite Hstep, E62.
  assert (match q with InTagSlash => false | _ => false end = false) as ->
      by (destruct q; reflexivity).
  cbn [orb]. destruct w as [|c' w'].
  - reflexivity.
  - apply IH; [discriminate | discriminate | exact Hw].
Qed.

Lemma accepts_outside_word (w : str) :
  forall r, forallb word w = true -> acc Outside (w ++ r) = acc Outside r.
Proof.
  induction w as [|c w IH]; intros r Hw; [reflexivity|].
  cbn [forallb] in Hw. apply andb_true_iff in Hw. destruct Hw as [Hc Hw].
  destruct (word_not_special c Hc) as (E62 & E47 & E60).
  cbn [app]. unfold acc. cbn [accepts orb]. unfold tag_step.
  rewrite E62, E60, E47. fold word. rewrite Hc. apply IH. exact Hw.
Qed.

Lemma accepts_attrs (m : str) :
  forall q z, in_tag q = true ->
    forallb (fun c => negb (chr_eqb c 62)) m = true ->
    last m (match q with InTagSlash => 47 | _ => 0 end)%N <> 47%N ->
    acc q (m ++ 62%N :: z) = acc Outside z.
Proof.
  induction m as [|c m IH]; intros q z Hq Hm Hlast.
  - cbn [last] in Hlast. destruct q; try discriminate; [|congruence]. reflexivity.
  - cbn [forallb] in Hm. apply andb_true_iff in Hm. destruct Hm as [Hc Hm].
    apply negb_true_iff in Hc.
    cbn [app]. unfold acc. cbn [accepts]. rewrite Hc.
    assert (match q with InTagSlash => false | _ => false end = false) as ->
        by (destruct q; reflexivity).
    cbn [orb]. apply IH.
    + unfold tag_step. rewrite Hc.
      destruct q; try discriminate;
        destruct (chr_eqb c 60); destruct (chr_eqb c 47); destruct (Re.word alnum c); reflexivity.
    + exact Hm.
    + destruct m as [|c' m'].
      * cbn [last] in *. unfold tag_step. rewrite Hc.
        destruct (chr_eqb c 60) eqn:E60.
        { destruct q; discriminate. }
        destruct (chr_eqb c 47) eqn:E47.
        { apply chr_eqb_eq in E47. congruence. }
        destruct (Re.word alnum c); destruct q; discriminate.
      * rewrite (last_any_default (c' :: m') _ (match q with InTagSlash => 47 | _ => 0 end)%N)
          by discriminate.
        exact Hlast.
Qed.

Lemma fix_output_unaccepted (n : nat) :
  forall s, length s <= n -> contains (u "//>") s = false ->
    forall q, pending alnum q s -> acc q (fix_empty_tags alnum s) = false.
Proof.
  induction n as [|n IH]; intros s Hlen Hno q Hp.
  - destruct s; [reflexivity | cbn [length] in Hlen; lia].
  - destruct s as [|c t]; [reflexivity|].
    rewrite fix_empty_tags_cons.
    destruct (match_here alnum (c :: t)) as [[[w m] rest]|] eqn:Hm.
    + pose proof Hm as Hd. apply match_here_decomp in Hd.
      destruct Hd as (Hs & Hne & Hw & Hm62).
      injection Hs as -> ->.
      assert (Hq : in_tag q = false).
      { apply (pending_match_outside q _ Hp). intro Hc.
        assert (Hsome : Some (w, m, rest) = None) by (rewrite <- Hm; exact Hc).
        discriminate Hsome. }
      assert (Hrest : acc Outside (fix_empty_tags alnum rest) = false).
      { apply IH; [| |exact I].
        - cbn [length] in Hlen. rewrite !length_app in Hlen. cbn [length] in Hlen. lia.
        - apply (contains_suffix (u "//>") (60%N :: w ++ m ++ [47%N; 62%N]) rest).
          cbn [app]. rewrite <- !app_assoc. exact Hno. }
      assert (Hlast : last m 0%N <> 47%N).
      { apply (no_slash_before_close (60%N :: w) m rest). exact Hno. }
      unfold acc at 1. cbn [accepts].
      assert (match q with InTagSlash => chr_eqb 60 62 | _ => false end = false) as ->
          by (destruct q; reflexivity).
      cbn [orb]. fold acc.
      rewrite accepts_word_run; [| destruct q; discriminate | exact Hne | exact Hw].
      change (u "></") with [62%N; 60%N; 47%N]. cbn [app].
      rewrite (accepts_attrs m InTag _ eq_refl Hm62 Hlast).
      unfold acc at 1. cbn [accepts orb tag_step chr_eqb N.eqb Pos.eqb]. fold acc.
      rewrite accepts_outside_word by exact Hw.
      unfold acc at 1. cbn [accepts orb tag_step chr_eqb N.eqb Pos.eqb]. fold acc.
      exact Hrest.
    + destruct (pending_step q c t Hp Hm) as [Hacc Hp'].
      unfold acc. cbn [accepts]. rewrite Hacc. cbn [orb].
      apply IH; [cbn [length] in Hlen; lia | apply (contains_tail _ c); exact Hno | exact Hp'].
Qed.

(** The collapse is stable on a text without "//>". *)
Lemma fix_empty_tags_stable (s : str) :
  contains (u "//>") s = false ->
  acc Outside (fix_empty_tags alnum s) = false.
Proof.
  intro H. apply (fix_output_unaccepted (length s) s (le_n _) H Outside I).
Qed.
End SelfClosing.

(** ** Lines *)

Lemma str_eqb_nil (x : str) : str_eqb x [] = Nat.eqb (length x) 0.
Proof. destruct x; reflexivity. Qed.

Lemma remove_empty_lines_step_later (acc : list str) (prev line : str) (i : nat) :
  remove_empty_lines_step (acc ++ [prev]) (S i, line)
  = if blank line && (blank prev || tag_line prev)
    then acc ++ [prev]
    else (acc ++ [prev]) ++ [line].
Proof.
  unfold remove_empty_lines_step. cbn [Nat.eqb].
  rewrite last_last, str_eqb_nil. fold (blank line). fold (blank prev). fold (tag_line prev).
  destruct (acc ++ [prev]) as [|x xs] eqn:E.
  { destruct acc; discriminate. }
  cbn [andb]. destruct (blank line); cbn [andb]; [|reflexivity].
  destruct (blank prev); cbn [orb]; [reflexivity|].
  destruct (tag_line prev); reflexivity.
Qed.

Lemma remove_empty_lines_fold (ls : list str) :
  forall (a : nat) (acc : list str) (prev : str),
    fold_left remove_empty_lines_step (combine (seq (S a) (length ls)) ls) (acc ++ [prev])
    = acc ++ prev :: rel_lines prev ls.
Proof.
  induction ls as [|l ls IH]; intros a acc prev; cbn [length seq combine fold_left rel_lines].
  - reflexivity.
  - rewrite remove_empty_lines_step_later.
    destruct (blank l && (blank prev || tag_line prev)).
    + apply IH.
    + rewrite IH, <- app_assoc. reflexivity.
Qed.

Lemma split_lines_cons (s : str) : exists l0 ls, split_lines s = l0 :: ls.
Proof.
  induction s as [|c t [l0 [ls IH]]]; cbn [split_lines]; [eauto|].
  destruct (chr_eqb c 10); [eauto|]. rewrite IH. eauto.
Qed.

Lemma remove_empty_lines_lines (s : str) (l0 : str) (ls : list str) :
  split_lines s = l0 :: ls ->
  remove_empty_lines s = join_lines (l0 :: rel_lines l0 ls).
Proof.
  intro H. unfold remove_empty_lines, enumerate. rewrite H.
  cbn [length seq combine fold_left].
  change (remove_empty_lines_step [] (0, l0)) with ([] ++ [l0]).
  rewrite remove_empty_lines_fold. reflexivity.
Qed.

Lemma join_lines_cons (l0 : str) (ls : list str) :
  join_lines (l0 :: ls) = l0 ++ join_tail ls.
Proof.
  revert l0. induction ls as [|l ls IH]; intro l0.
  - cbn [join_lines join_tail flat_map]. rewrite app_nil_r. reflexivity.
  - change (join_lines (l0 :: l :: ls)) with (l0 ++ 10%N :: join_lines (l :: ls)).
    rewrite IH. reflexivity.
Qed.

Lemma join_split (s : str) : join_lines (split_lines s) = s.
Proof.
  induction s as [|c t IH]; [reflexivity|].
  cbn [split_lines]. destruct (chr_eqb c 10) eqn:E.
  - apply chr_eqb_eq in E. subst c.
    destruct (split_lines_cons t) as [l0 [ls Hs]]. rewrite Hs in *.
    change (join_lines ([] :: l0 :: ls)) with ([] ++ 10%N :: join_lines (l0 :: ls)).
    rewrite IH. reflexivity.
  - destruct (split_lines_cons t) as [l0 [ls Hs]]. rewrite Hs in *.
    rewrite join_lines_cons in *. cbn [app]. rewrite IH. reflexivity.
Qed.

Lemma split_lines_one_line (s : str) : forallb one_line (split_lines s) = true.
Proof.
  induction s as [|c t IH]; [reflexivity|].
  cbn [split_lines]. destruct (chr_eqb c 10) eqn:E.
  - cbn [forallb one_line]. exact IH.
  - destruct (split_lines t) as [|l0 ls]; cbn [forallb one_line] in *.
    + rewrite E. reflexivity.
    + rewrite E. exact IH.
Qed.

Lemma split_join (ls : list str) (l0 : str) :
  forallb one_line (l0 :: ls) = true -> split_lines (join_lines (l0 :: ls)) = l0 :: ls.
Proof.
  revert l0. induction ls as [|l ls IH]; intros l0 H.
  - cbn [join_lines]. cbn [forallb] in H. rewrite andb_true_r in H.
    induction l0 as [|c t IHt]; [reflexivity|].
    cbn [one_line forallb] in H. apply andb_true_iff in H. destruct H as [Hc Ht].
    apply negb_true_iff in Hc. cbn [split_lines]. rewrite Hc, (IHt Ht). reflexivity.
  - change (join_lines (l0 :: l :: ls)) with (l0 ++ 10%N :: join_lines (l :: ls)).
    cbn [forallb] in H. apply andb_true_iff in H. destruct H as [H0 H].
    specialize (IH l H).
    induction l0 as [|c t IHt].
    + cbn [app split_lines chr_eqb N.eqb Pos.eqb]. rewrite IH. reflexivity.
    + cbn [one_line forallb] in H0. apply andb_true_iff in H0. destruct H0 as [Hc Ht].
      apply negb_true_iff in Hc. cbn [app split_lines]. rewrite Hc, (IHt Ht). reflexivity.
Qed.

Lemma rel_lines_one_line (ls : list str) :
  forall prev, forallb one_line ls = true -> forallb one_line (rel_lines prev ls) = true.
Proof.
  induction ls as [|l ls IH]; intros prev H; [reflexivity|].
  cbn [forallb] in H. apply andb_true_iff in H. destruct H as [Hl H].
  cbn [rel_lines]. destruct (blank l && (blank prev || tag_line prev)).
  - apply IH. exact H.
  - cbn [forallb]. rewrite Hl. apply IH. exact H.
Qed.

Lemma rel_lines_idempotent (ls : list str) :
  forall prev, rel_lines prev (rel_lines prev ls) = rel_lines prev ls.
Proof.
  induction ls as [|l ls IH]; intro prev; [reflexivity|].
  cbn [rel_lines]. destruct (blank l && (blank prev || tag_line prev)) eqn:E.
  - apply IH.
  - cbn [rel_lines]. rewrite E, IH. reflexivity.
Qed.

Lemma remove_empty_lines_idempotent (s : str) :
  remove_empty_lines (remove_empty_lines s) = remove_empty_lines s.
Proof.
  destruct (split_lines_cons s) as [l0 [ls Hs]].
  rewrite (remove_empty_lines_lines s l0 ls Hs).
  assert (Hone : forallb one_line (l0 :: rel_lines l0 ls) = true).
  { pose proof (split_lines_one_line s) as H. rewrite Hs in H.
    cbn [forallb] in *. apply andb_true_iff in H. destruct H as [H0 H].
    rewrite H0. apply rel_lines_one_line. exact H. }
  rewrite (remove_empty_lines_lines _ l0 (rel_lines l0 ls) (split_join _ _ Hone)).
  rewrite rel_lines_idempotent. reflexivity.
Qed.

(** ** Dropping blank lines creates no match *)

Lemma lstrip_head (l : str) :
  match lstrip l with c :: _ => is_space c = false | [] => True end.
Proof.
  induction l as [|c t IH]; cbn [lstrip]; [exact I|].
  destruct (is_space c) eqn:E; [exact IH | exact E].
Qed.

Lemma lstrip_nil (l : str) : lstrip l = [] -> forallb is_space l = true.
Proof.
  induction l as [|c t IH]; cbn [lstrip forallb]; [reflexivity|].
  destruct (is_space c); [exact IH | discriminate].
Qed.

Lemma blank_all_space (l : str) : blank l = true -> forallb is_space l = true.
Proof.
  unfold blank, strip. intro H. apply Nat.eqb_eq in H.
  rewrite length_rev in H. apply length_zero_iff_nil in H.
  apply lstrip_nil in H. rewrite forallb_forall in H.
  pose proof (lstrip_head l) as Hh.
  destruct (lstrip l) as [|c t] eqn:E.
  - apply lstrip_nil. exact E.
  - rewrite (H c) in Hh; [discriminate|].
    apply in_rev. rewrite rev_involutive. left. reflexivity.
Qed.

Section BlankLines.

Variable alnum : Re.cls.
Let step := tag_step alnum.
Let acc := accepts alnum.

Lemma step_line_feed (q : tag_state) : tag_step alnum q 10 = at_line_start q.
Proof. destruct q; reflexivity. Qed.

Lemma accepts_line_feed (q : tag_state) (z : str) :
  acc q (10%N :: z) = acc (at_line_start q) z.
Proof.
  unfold acc. cbn [accepts]. rewrite step_line_feed.
  destruct q; reflexivity.
Qed.

Lemma accepts_join_tail_start (ls : list str) (q : tag_state) :
  acc (at_line_start q) (join_tail ls) = acc q (join_tail ls).
Proof.
  destruct ls as [|l ls]; [reflexivity|].
  cbn [join_tail flat_map app]. rewrite !accepts_line_feed.
  destruct q; reflexivity.
Qed.

Lemma accepts_blank (l z : str) (q : tag_state) :
  forallb is_space l = true ->
  acc (at_line_start q) (l ++ z) = acc (at_line_start q) z.
Proof.
  induction l as [|c l IH]; intro H; [reflexivity|].
  cbn [forallb] in H. apply andb_true_iff in H. destruct H as [Hc H].
  cbn [app]. unfold acc. cbn [accepts]. fold acc.
  assert (E62 : chr_eqb c 62 = false).
  { destruct (chr_eqb c 62) eqn:E; [|reflexivity].
    apply chr_eqb_eq in E. subst c. discriminate. }
  assert (E60 : chr_eqb c 60 = false).
  { destruct (chr_eqb c 60) eqn:E; [|reflexivity].
    apply chr_eqb_eq in E. subst c. discriminate. }
  assert (E47 : chr_eqb c 47 = false).
  { destruct (chr_eqb c 47) eqn:E; [|reflexivity].
    apply chr_eqb_eq in E. subst c. discriminate. }
  assert (Hstep : tag_step alnum (at_line_start q) c = at_line_start q).
  { unfold tag_step. rewrite E62, E60, E47.
    destruct (Re.word alnum c); destruct q; reflexivity. }
  rewrite Hstep.
  assert (match at_line_start q with InTagSlash => chr_eqb c 62 | _ => false end = false)
    as -> by (destruct q; reflexivity).
  cbn [orb]. apply IH. exact H.
Qed.

Lemma accepts_app (x : str) :
  forall q y, acc q (x ++ y) = acc q x || acc (fold_left step x q) y.
Proof.
  induction x as [|c x IH]; intros q y; [reflexivity|].
  cbn [app fold_left]. unfold acc. cbn [accepts]. fold acc.
  rewrite IH, orb_assoc. reflexivity.
Qed.

Lemma accepts_kept_lines (ls : list str) :
  forall prev q,
    acc q (join_tail (rel_lines prev ls)) = true -> acc q (join_tail ls) = true.
Proof.
  induction ls as [|l ls IH]; intros prev q H; [exact H|].
  cbn [rel_lines] in H.
  change (join_tail (l :: ls)) with (10%N :: l ++ join_tail ls).
  rewrite accepts_line_feed.
  destruct (blank l && (blank prev || tag_line prev)) eqn:E.
  - apply andb_true_iff in E. destruct E as [Hb _].
    rewrite (accepts_blank l _ q (blank_all_space l Hb)).
    rewrite accepts_join_tail_start. apply (IH prev). exact H.
  - change (join_tail (l :: rel_lines l ls)) with (10%N :: l ++ join_tail (rel_lines l ls))
      in H.
    rewrite accepts_line_feed, accepts_app in H. rewrite accepts_app.
    apply orb_true_iff in H. apply orb_true_iff.
    destruct H as [H | H]; [left; exact H | right; apply (IH l); exact H].
Qed.

Lemma remove_empty_lines_unaccepted (t : str) :
  acc Outside t = false -> acc Outside (remove_empty_lines t) = false.
Proof.
  intro H. destruct (split_lines_cons t) as [l0 [ls Hs]].
  rewrite (remove_empty_lines_lines t l0 ls Hs), join_lines_cons, accepts_app.
  rewrite <- (join_split t), Hs, join_lines_cons, accepts_app in H.
  apply orb_false_iff in H. destruct H as [H0 H]. rewrite H0. cbn [orb].
  destruct (acc (fold_left step l0 Outside) (join_tail (rel_lines l0 ls))) eqn:E;
    [|reflexivity].
  apply accepts_kept_lines in E. unfold acc in *. congruence.
Qed.

End BlankLines.

(** C9, as the code has it.  On a text that holds no "//>", the formatter
    (the self-closing collapse followed by the removal of blank lines) is
    idempotent: applied to its own output it returns that output, with no
    further collapse and no line removed or added.  The serialiser whose
    output the formatter is given writes "/>" behind a tag name or the
    closing quote of an attribute value, and escapes ">" in text and in
    attribute values. *)
Theorem C9_formatter_idempotent (alnum : Re.cls) (s : str)
    (Hno : contains (u "//>") s = false) :
  let format x := remove_empty_lines (fix_empty_tags alnum x) in
  format (format s) = format s.
Proof.
  intro format. unfold format.
  pose proof (fix_empty_tags_stable alnum s Hno) as Hst.
  apply (remove_empty_lines_unaccepted alnum) in Hst.
  rewrite (fix_empty_tags_fixed alnum _ Outside Hst).
  apply remove_empty_lines_idempotent.
Qed.

(** C9, counterexample.  On "<a//>" the lazy group takes the first slash;
    the collapse writes "<a/></a>", in which a strict self-closing tag
    stands, and a second run collapses that one too. *)
Lemma C9_doubled_slash_is_collapsed_twice :
  let format x := remove_empty_lines (fix_empty_tags ascii_only x) in
  format (u "<a//>") = u "<a/></a>"
  /\ format (format (u "<a//>")) = u "<a></a></a>"
  /\ format (format (u "<a//>")) <> format (u "<a//>").
Proof.
  split; [vm_compute; reflexivity|].
  split; [vm_compute; reflexivity|].
  vm_compute. discriminate.
Qed.

(** A pretty-printed fragment with an empty element and blank lines. *)
Lemma C9_formatter_idempotent_witness :
  let format x := remove_empty_lines (fix_empty_tags ascii_only x) in
  format (format (u "<image id=" ++ dq ++ u "0" ++ dq ++ u "/>" ++ [10; 10]%N ++ u "<b> </b>"))
  = format (u "<image id=" ++ dq ++ u "0" ++ dq ++ u "/>" ++ [10; 10]%N ++ u "<b> </b>").
Proof.
  apply (C9_formatter_idempotent ascii_only).
  vm_compute. reflexivity.
Defined.

(* ================================================================== *)
(** * [escape_xml_text] *)
(* ================================================================== *)

Lemma replace_char (c : char) (new s : str) :
  str_replace s [c] new = flat_map (fun x => if chr_eqb x c then new else [x]) s.
Proof.
  unfold str_replace. induction s as [|x s IH]; [reflexivity|].
  cbn [replace_from startswith length Nat.sub flat_map].
  rewrite startswith_nil, andb_true_r.
  destruct (chr_eqb c x) eqn:E.
  - apply chr_eqb_eq in E. subst x. rewrite chr_eqb_refl. f_equal. exact IH.
  - assert (chr_eqb x c = false) as ->.
    { destruct (chr_eqb x c) eqn:E'; [|reflexivity].
      apply chr_eqb_eq in E'. subst x. rewrite chr_eqb_refl in E. discriminate. }
    cbn [app]. f_equal. exact IH.
Qed.

Lemma flat_map_flat_map {A B C} (f : A -> list B) (g : B -> list C) (l : list A) :
  flat_map g (flat_map f l) = flat_map (fun a => flat_map g (f a)) l.
Proof.
  induction l as [|a l IH]; [reflexivity|].
  cbn [flat_map]. rewrite flat_map_app, IH. reflexivity.
Qed.

Lemma chr_eqb_neq (a b : char) : chr_eqb a b = false <-> a <> b.
Proof. unfold chr_eqb. apply N.eqb_neq. Qed.

(** The five replacements, run one after the other on one character. *)
Lemma escape_one (c : char) :
  flat_map (fun x => if chr_eqb x 39 then u "&apos;" else [x])
    (flat_map (fun x => if chr_eqb x 34 then u "&quot;" else [x])
       (flat_map (fun x => if chr_eqb x 62 then u "&gt;" else [x])
          (flat_map (fun x => if chr_eqb x 60 then u "&lt;" else [x])
             (if chr_eqb c 38 then u "&amp;" else [c]))))
  = escape_char c.
Proof.
  unfold escape_char.
  destruct (chr_eqb c 38); [reflexivity|].
  cbn [flat_map]. rewrite !app_nil_r.
  destruct (chr_eqb c 60); [reflexivity|].
  cbn [flat_map]. rewrite !app_nil_r.
  destruct (chr_eqb c 62); [reflexivity|].
  cbn [flat_map]. rewrite !app_nil_r.
  destruct (chr_eqb c 34); [reflexivity|].
  cbn [flat_map]. rewrite !app_nil_r.
  destruct (chr_eqb c 39); reflexivity.
Qed.

Lemma escape_xml_text_str (py_repr : pyval -> str) (s : str) :
  escape_xml_text py_repr (PStr s) = flat_map escape_char s.
Proof.
  unfold escape_xml_text. destruct s as [|c s]; [reflexivity|].
  cbn [truthy negb py_str]. rewrite !replace_char, !flat_map_flat_map.
  apply flat_map_ext. intro x. rewrite <- escape_one.
  rewrite !flat_map_flat_map. reflexivity.
Qed.

Lemma escape_char_plain (c x : char) :
  In x (escape_char c) -> x <> 60%N /\ x <> 62%N /\ x <> 34%N /\ x <> 39%N.
Proof.
  unfold escape_char.
  destruct (chr_eqb c 38) eqn:E38;
    [|destruct (chr_eqb c 60) eqn:E60;
      [|destruct (chr_eqb c 62) eqn:E62;
        [|destruct (chr_eqb c 34) eqn:E34;
          [|destruct (chr_eqb c 39) eqn:E39]]]];
    cbn; intro H;
    repeat (destruct H as [<- | H]; [repeat split; discriminate|]);
    try contradiction.
  destruct H as [<- | []].
  apply chr_eqb_neq in E60, E62, E34, E39. auto.
Qed.

(** X1.  [escape_xml_text] on a string replaces each of [&], [<], [>], the
    double quote and the apostrophe by its entity, once: the [&] of an
    entity it has written is not escaped again.  The text returned holds
    no [<], [>], double quote or apostrophe.  A falsy value ([None], the
    empty string, 0, [False], an empty container) gives the empty text. *)
Theorem escape_xml_text_entities (py_repr : pyval -> str) :
  (forall s, escape_xml_text py_repr (PStr s) = flat_map escape_char s)
  /\ (forall s c, In c (escape_xml_text py_repr (PStr s)) ->
        c <> 60%N /\ c <> 62%N /\ c <> 34%N /\ c <> 39%N)
  /\ (forall v, truthy v = false -> escape_xml_text py_repr v = []).
Proof.
  split; [apply escape_xml_text_str|]. split.
  - intros s c. rewrite escape_xml_text_str, in_flat_map.
    intros [x [_ Hx]]. exact (escape_char_plain x c Hx).
  - intros v Hv. unfold escape_xml_text. rewrite Hv. reflexivity.
Qed.

Lemma escape_injective_step (c d : char) (x y : str) :
  escape_char c ++ x = escape_char d ++ y -> c = d /\ x = y.
Proof.
  unfold escape_char.
  destruct (chr_eqb c 38) eqn:C38; [apply chr_eqb_eq in C38|];
    [|destruct (chr_eqb c 60) eqn:C60; [apply chr_eqb_eq in C60|];
      [|destruct (chr_eqb c 62) eqn:C62; [apply chr_eqb_eq in C62|];
        [|destruct (chr_eqb c 34) eqn:C34; [apply chr_eqb_eq in C34|];
          [|destruct (chr_eqb c 39) eqn:C39; [apply chr_eqb_eq in C39|]]]]];
    (destruct (chr_eqb d 38) eqn:D38; [apply chr_eqb_eq in D38|];
     [|destruct (chr_eqb d 60) eqn:D60; [apply chr_eqb_eq in D60|];
       [|destruct (chr_eqb d 62) eqn:D62; [apply chr_eqb_eq in D62|];
         [|destruct (chr_eqb d 34) eqn:D34; [apply chr_eqb_eq in D34|];
           [|destruct (chr_eqb d 39) eqn:D39; [apply chr_eqb_eq in D39|]]]]]);
    cbn; intro H; try discriminate H;
    try (injection H; intros; subst; split; reflexivity);
    try (injection H; intros; subst; rewrite ?chr_eqb_refl in *; discriminate).
Qed.

Lemma escape_injective (s t : str) :
  flat_map escape_char s = flat_map escape_char t -> s = t.
Proof.
  revert t. induction s as [|c s IH]; intros [|d t] H.
  - reflexivity.
  - cbn [flat_map] in H. unfold escape_char in H.
    destruct (chr_eqb d 38); [discriminate|].
    destruct (chr_eqb d 60); [discriminate|].
    destruct (chr_eqb d 62); [discriminate|].
    destruct (chr_eqb d 34); [discriminate|].
    destruct (chr_eqb d 39); discriminate.
  - cbn [flat_map] in H. unfold escape_char in H.
    destruct (chr_eqb c 38); [discriminate|].
    destruct (chr_eqb c 60); [discriminate|].
    destruct (chr_eqb c 62); [discriminate|].
    destruct (chr_eqb c 34); [discriminate|].
    destruct (chr_eqb c 39); discriminate.
  - cbn [flat_map] in H. apply escape_injective_step in H.
    destruct H as [-> H]. f_equal. apply IH. exact H.
Qed.

(** X2.  Escaping loses nothing: two texts are escaped to the same text only
    when they are the same text. *)
Theorem escape_xml_text_injective (py_repr : pyval -> str) (s t : str) :
  escape_xml_text py_repr (PStr s) = escape_xml_text py_repr (PStr t) <-> s = t.
Proof.
  rewrite !escape_xml_text_str. split.
  - apply escape_injective.
  - intros ->. reflexivity.
Qed.

(* ================================================================== *)
(** * [remove_empty_lines] *)
(* ================================================================== *)

Lemma remove_empty_lines_split (s l0 : str) (ls : list str) :
  split_lines s = l0 :: ls ->
  split_lines (remove_empty_lines s) = l0 :: rel_lines l0 ls.
Proof.
  intro Hs. rewrite (remove_empty_lines_lines s l0 ls Hs).
  apply split_join.
  pose proof (split_lines_one_line s) as H. rewrite Hs in H.
  cbn [forallb] in *. apply andb_true_iff in H. destruct H as [H0 H].
  rewrite H0. apply rel_lines_one_line. exact H.
Qed.

Lemma rel_lines_keeps_text (ls : list str) :
  forall prev,
    filter (fun l => negb (blank l)) (rel_lines prev ls)
    = filter (fun l => negb (blank l)) ls.
Proof.
  induction ls as [|l ls IH]; intro prev; [reflexivity|].
  cbn [rel_lines filter]. destruct (blank l) eqn:B; cbn [andb negb].
  - destruct (blank prev || tag_line prev); [apply IH|].
    cbn [filter]. rewrite B. cbn [negb]. apply IH.
  - cbn [filter]. rewrite B. cbn [negb]. f_equal. apply IH.
Qed.

Lemma rel_lines_length (ls : list str) :
  forall prev, length (rel_lines prev ls) <= length ls.
Proof.
  induction ls as [|l ls IH]; intro prev; [apply le_n|].
  cbn [rel_lines]. destruct (blank l && (blank prev || tag_line prev)); cbn [length].
  - specialize (IH prev). lia.
  - specialize (IH l). lia.
Qed.

Lemma rel_lines_adjacent (ls : list str) :
  forall prev pre a b post,
    prev :: rel_lines prev ls = pre ++ a :: b :: post ->
    blank b = true -> blank a = false /\ tag_line a = false.
Proof.
  induction ls as [|l ls IH]; intros prev pre a b post H Hb.
  - cbn [rel_lines] in H. destruct pre as [|p [|q pre]]; discriminate.
  - cbn [rel_lines] in H.
    destruct (blank l && (blank prev || tag_line prev)) eqn:E.
    + exact (IH prev pre a b post H Hb).
    + destruct pre as [|p pre].
      * cbn [app] in H. injection H as <- <- _.
        rewrite Hb in E. cbn [andb] in E. apply orb_false_iff in E. exact E.
      * cbn [app] in H. injection H as _ H.
        exact (IH l pre a b post H Hb).
Qed.

(** X3.  [remove_empty_lines] drops blank lines only.  The first line of the
    text is always kept, even a blank one; every line that is not blank
    is kept, in its place among the others; no line is added. *)
Theorem remove_empty_lines_keeps_text (s : str) :
  let kept := split_lines (remove_empty_lines s) in
  hd_error kept = hd_error (split_lines s)
  /\ filter (fun l => negb (blank l)) kept
     = filter (fun l => negb (blank l)) (split_lines s)
  /\ length kept <= length (split_lines s).
Proof.
  destruct (split_lines_cons s) as [l0 [ls Hs]].
  intro kept. unfold kept.
  rewrite (remove_empty_lines_split s l0 ls Hs), Hs.
  split; [reflexivity|]. split.
  - cbn [filter]. rewrite rel_lines_keeps_text. reflexivity.
  - cbn [length]. pose proof (rel_lines_length ls l0). lia.
Qed.

(** X4.  In the text [remove_empty_lines] returns, a blank line never comes
    right after a blank line, nor right after a line that starts (blanks
    apart) with "<?" or with "<" other than "<!--": a blank line is left
    only behind a line of text or a comment. *)
Theorem remove_empty_lines_blank_lines (s : str) (pre post : list str) (a b : str) :
  split_lines (remove_empty_lines s) = pre ++ a :: b :: post ->
  blank b = true ->
  blank a = false /\ tag_line a = false.
Proof.
  destruct (split_lines_cons s) as [l0 [ls Hs]].
  rewrite (remove_empty_lines_split s l0 ls Hs).
  apply rel_lines_adjacent.
Qed.

(** A blank line kept behind a comment line. *)
Lemma remove_empty_lines_blank_lines_witness :
  blank (u "<!-- note -->") = false /\ tag_line (u "<!-- note -->") = false.
Proof.
  apply (remove_empty_lines_blank_lines
           (u "<a>" ++ [10; 10]%N ++ u "<!-- note -->" ++ [10; 10; 10]%N ++ u "<b>")
           [u "<a>"] [u "<b>"] (u "<!-- note -->") []).
  - vm_compute. reflexivity.
  - reflexivity.
Defined.

(** X5.  [remove_empty_lines] is idempotent on every text: a second pass
    removes nothing more. *)
Theorem remove_empty_lines_second_pass (s : str) :
  remove_empty_lines (remove_empty_lines s) = remove_empty_lines s.
Proof. apply remove_empty_lines_idempotent. Qed.

(* ================================================================== *)
(** * [fix_empty_tags] *)
(* ================================================================== *)

Lemma accepts_needs_close (alnum : Re.cls) (s : str) :
  forall q, contains (u "/>") s = false ->
    (q = InTagSlash -> startswith s [62%N] = false) ->
    accepts alnum q s = false.
Proof.
  induction s as [|c t IH]; intros q Hno Hq; [reflexivity|].
  cbn [accepts]. apply orb_false_iff. split.
  - destruct q; try reflexivity. specialize (Hq eq_refl).
    cbn [startswith] in Hq. rewrite startswith_nil, andb_true_r in Hq.
    destruct (chr_eqb c 62) eqn:E; [|reflexivity].
    apply chr_eqb_eq in E. subst c. discriminate.
  - apply IH; [exact (contains_tail _ _ _ Hno)|].
    intro Hstep. cbn [contains] in Hno. apply orb_false_iff in Hno. destruct Hno as [Hno _].
    unfold tag_step in Hstep.
    destruct (chr_eqb c 62); [discriminate|].
    destruct (chr_eqb c 60); [destruct q; discriminate|].
    destruct (chr_eqb c 47) eqn:E47.
    + apply chr_eqb_eq in E47. subst c.
      change (startswith (47%N :: t) (u "/>")) with (startswith t [62%N]) in Hno.
      exact Hno.
    + destruct (Re.word alnum c); destruct q; discriminate.
Qed.

(** X6.  A text that holds no "/>" goes through [fix_empty_tags] unchanged:
    the collapse touches nothing but self-closing tags. *)
Theorem fix_empty_tags_leaves_other_text (alnum : Re.cls) (s : str) :
  contains (u "/>") s = false -> fix_empty_tags alnum s = s.
Proof.
  intro H. apply (fix_empty_tags_fixed alnum s Outside).
  apply accepts_needs_close; [exact H | discriminate].
Qed.

(** An element with text and an end tag. *)
Lemma fix_empty_tags_leaves_other_text_witness :
  fix_empty_tags ascii_only (u "<name>a / b > c</name>") = u "<name>a / b > c</name>".
Proof.
  apply (fix_empty_tags_leaves_other_text ascii_only (u "<name>a / b > c</name>")).
  vm_compute. reflexivity.
Defined.

Lemma find_close_first (m rest : str) :
  forallb (fun c => negb (chr_eqb c 62)) m = true ->
  find_close (m ++ 47%N :: 62%N :: rest) = Some (m, rest).
Proof.
  induction m as [|c m IH]; intro H.
  - reflexivity.
  - cbn [forallb] in H. apply andb_true_iff in H. destruct H as [Hc Hm].
    apply negb_true_iff in Hc. cbn [app find_close]. rewrite Hc, (IH Hm).
    destruct (chr_eqb c 47); [|reflexivity]. cbn [andb].
    destruct m as [|d m'].
    + reflexivity.
    + cbn [forallb] in Hm. apply andb_true_iff in Hm. destruct Hm as [Hd _].
      apply negb_true_iff in Hd. cbn [app]. rewrite Hd. reflexivity.
Qed.

Lemma take_run_prefix (p : Re.cls) (w t : str) :
  forallb p w = true -> (match t with c :: _ => p c = false | [] => True end) ->
  take_run p (w ++ t) = w /\ drop_run p (w ++ t) = t.
Proof.
  intros Hw Ht. induction w as [|c w IH].
  - destruct t as [|c t]; [split; reflexivity|]. cbn [app take_run drop_run].
    rewrite Ht. split; reflexivity.
  - cbn [forallb] in Hw. apply andb_true_iff in Hw. destruct Hw as [Hc Hw].
    cbn [app take_run drop_run]. rewrite Hc. destruct (IH Hw) as [-> ->].
    split; reflexivity.
Qed.

(** X7.  Every strict self-closing tag is opened out.  Let [w] be a tag name
    (word characters, at least one) and [m] what stands between the name
    and "/>": any text without ">" that does not go on with a word
    character.  Then "<w m/>" becomes "<w m></w>": the end tag repeats the
    name alone, what stood before the slash (a blank included) stays
    where it was, and the scan goes on behind the tag. *)
Theorem fix_empty_tags_opens_out (alnum : Re.cls) (w m rest : str) :
  w <> [] -> forallb (Re.word alnum) w = true ->
  forallb (fun c => negb (chr_eqb c 62)) m = true ->
  (match m with c :: _ => Re.word alnum c = false | [] => True end) ->
  fix_empty_tags alnum (60%N :: w ++ m ++ 47%N :: 62%N :: rest)
  = 60%N :: w ++ m ++ u "></" ++ w ++ 62%N :: fix_empty_tags alnum rest.
Proof.
  intros Hne Hw Hm Hhead.
  rewrite fix_empty_tags_cons.
  assert (Hrun : take_run (Re.word alnum) (w ++ m ++ 47%N :: 62%N :: rest) = w
                 /\ drop_run (Re.word alnum) (w ++ m ++ 47%N :: 62%N :: rest)
                    = m ++ 47%N :: 62%N :: rest).
  { apply take_run_prefix; [exact Hw|].
    destruct m as [|c m']; [|exact Hhead].
    cbn [app]. unfold Re.word. reflexivity. }
  destruct Hrun as [Ht Hd].
  unfold match_here. rewrite chr_eqb_refl, Ht, Hd, (find_close_first m rest Hm).
  destruct w as [|c w']; [congruence|]. reflexivity.
Qed.

(** The tag [<image id="0" />], written with a blank before the slash. *)
Lemma fix_empty_tags_opens_out_witness :
  fix_empty_tags ascii_only
    (60%N :: u "image" ++ (u " id=" ++ dq ++ u "0" ++ dq ++ u " ") ++ 47%N :: 62%N :: [])
  = 60%N :: u "image" ++ (u " id=" ++ dq ++ u "0" ++ dq ++ u " ") ++ u "></" ++ u "image"
      ++ 62%N :: fix_empty_tags ascii_only [].
Proof.
  apply (fix_empty_tags_opens_out ascii_only (u "image")
           (u " id=" ++ dq ++ u "0" ++ dq ++ u " ") []).
  - discriminate.
  - reflexivity.
  - reflexivity.
  - reflexivity.
Defined.

(* ================================================================== *)
(** * The polygons of an image *)
(* ================================================================== *)

Section Polygons.

Variable step : Element * Z -> pyval -> result (Element * Z).

(** What both loop bodies do with one record. *)
Hypothesis step_cases :
  forall e z a e' z', step (e, z) a = Ok (e', z') ->
    (annotation_points a = Ok [] /\ e' = e /\ z' = z)
    \/ exists c pts poly,
         annotation_points a = Ok (c :: pts)
         /\ e' = append_child e poly /\ z' = (z + 1)%Z
         /\ polygon_shape z (c :: pts) poly.

Lemma children_append_child (e c : Element) :
  children (append_child e c) = children e ++ [c].
Proof. destruct e; reflexivity. Qed.

Lemma polygon_shape_points (z : Z) (pts : list str) (p : Element) :
  polygon_shape z pts p -> elem_get p (u "points") = Some (join [59%N] pts).
Proof. intros (label & kids & -> & _). reflexivity. Qed.

Lemma loop_polygons (items : list pyval) :
  forall e z e' z', foldM step items (e, z) = Ok (e', z') ->
    exists new,
      children e' = children e ++ new
      /\ z' = (z + Z.of_nat (length new))%Z
      /\ map (fun p => elem_get p (u "points")) new = map points_of (retained items)
      /\ forall k p, nth_error new k = Some p ->
           exists pts, polygon_shape (z + Z.of_nat k) pts p.
Proof.
  induction items as [|a items IH]; intros e z e' z' H; cbn [foldM] in H.
  - injection H as <- <-. exists []. rewrite app_nil_r.
    repeat split; [cbn; lia|]. intros [|k] p Hk; discriminate.
  - apply bind_ok in H. destruct H as [[e1 z1] [H1 H2]].
    apply IH in H2. destruct H2 as (new & Hc & Hz & Hp & Hs).
    apply step_cases in H1.
    destruct H1 as [(Ha & -> & ->) | (c & pts & poly & Ha & -> & -> & Hpoly)].
    + exists new. unfold retained in *. cbn [filter]. rewrite Ha. auto.
    + exists (poly :: new). rewrite children_append_child, <- app_assoc in Hc.
      split; [exact Hc|]. split; [cbn [length]; lia|]. split.
      * unfold retained in *. cbn [filter]. rewrite Ha. cbn [map].
        unfold points_of at 1. rewrite Ha, (polygon_shape_points _ _ _ Hpoly), Hp.
        reflexivity.
      * intros [|k] p Hk; cbn [nth_error] in Hk.
        -- injection Hk as <-. exists (c :: pts). rewrite Z.add_0_r. exact Hpoly.
        -- destruct (Hs k p Hk) as [q Hq]. exists q.
           replace (z + Z.of_nat (S k))%Z with (z + 1 + Z.of_nat k)%Z by lia. exact Hq.
Qed.

Lemma annotation_loop_polygons (key : str) (rs : list pyval) (p : list (str * pyval))
    (cells items : list pyval) (image_elem e' : Element) :
  nth_error rs 1 = Some (PList (PDict p :: cells)) ->
  lookup key p = Some (PList items) ->
  children image_elem = [] ->
  (short <- too_short (PList rs) 1 ;;
   if short then Ok image_elem
   else annotation_loop step key (PList rs) 1 image_elem) = Ok e' ->
  polygons_of items e'.
Proof.
  intros Hrow Hkey Hnone H.
  destruct rs as [|r0 [|r1 rs]]; try discriminate.
  cbn [nth_error] in Hrow. injection Hrow as ->.
  cbn in H. rewrite Hkey in H. cbn [py_iter bind] in H.
  apply bind_ok in H. destruct H as [[e1 z1] [H1 H2]]. injection H2 as <-.
  apply loop_polygons in H1. destruct H1 as (new & Hc & _ & Hp & Hs).
  rewrite Hnone in Hc. cbn [app] in Hc. unfold polygons_of. cbn [fst].
  rewrite Hc. split; [exact Hp|]. intros k q Hk. apply (Hs k q Hk).
Qed.

End Polygons.

Lemma V1128_step_cases (py_repr : pyval -> str) :
  forall e z a e' z', V1128.annotation_step py_repr (e, z) a = Ok (e', z') ->
    (annotation_points a = Ok [] /\ e' = e /\ z' = z)
    \/ exists c pts poly,
         annotation_points a = Ok (c :: pts)
         /\ e' = append_child e poly /\ z' = (z + 1)%Z
         /\ polygon_shape z (c :: pts) poly.
Proof.
  intros e z a e' z' H. unfold V1128.annotation_step in H.
  apply bind_ok in H. destruct H as [ps [Hps H]].
  destruct ps as [|c pts].
  { injection H as <- <-. left. auto. }
  apply bind_ok in H. destruct H as [tv [_ H]].
  injection H as <- <-. right. exists c, pts. eexists. split; [exact Hps|].
  split; [reflexivity|]. split; [reflexivity|].
  unfold polygon_shape.
  destruct (py_eq_str (remove_spaces tv) (u "empty")); cbn [negb].
  - exists (u "empty"), []. split; [reflexivity|]. right. split; reflexivity.
  - exists (u "text"). eexists. split; [reflexivity|]. left. split; [reflexivity|].
    eexists. reflexivity.
Qed.

Lemma V1212_step_cases (py_repr : pyval -> str) (text_key : str) :
  forall e z a e' z', V1212.annotation_step py_repr text_key (e, z) a = Ok (e', z') ->
    (annotation_points a = Ok [] /\ e' = e /\ z' = z)
    \/ exists c pts poly,
         annotation_points a = Ok (c :: pts)
         /\ e' = append_child e poly /\ z' = (z + 1)%Z
         /\ polygon_shape z (c :: pts) poly.
Proof.
  intros e z a e' z' H. unfold V1212.annotation_step in H.
  apply bind_ok in H. destruct H as [ps [Hps H]].
  destruct ps as [|c pts].
  { injection H as <- <-. left. auto. }
  apply bind_ok in H. destruct H as [tv [_ H]].
  apply bind_ok in H. destruct H as [labelled [_ H]].
  injection H as <- <-. right. exists c, pts. eexists. split; [exact Hps|].
  split; [reflexivity|]. split; [reflexivity|].
  unfold polygon_shape. destruct labelled.
  - exists (u "text"). eexists. split; [reflexivity|]. left. split; [reflexivity|].
    eexists. reflexivity.
  - exists (u "empty"), []. split; [reflexivity|]. right. split; reflexivity.
Qed.

(** X8.  One polygon per retained record.  Let the result document hold, in
    the payload cell (the first cell of [results[1]]), an object with a
    list [items] under the converter's coordinate key.  Whenever a
    converter returns an image for it, the image's children are polygons
    only, as many as records of [items] yield points and in the order of
    those records: the k-th carries [z_order] k (a record that yields no
    point takes no number) and, as [points], the point texts of the k-th
    such record joined by ";".  Each polygon has the attributes label,
    source "file", occluded "0", z_order and points, in this order, and an
    [attribute] child named "text" exactly when its label is "text". *)
Theorem one_polygon_per_retained_record
    (py_repr : pyval -> str) (r : pyval) (image_id : Z) (image_name source : pyval)
    (rs : list pyval) (p : list (str * pyval)) (cells : list pyval) :
  py_get r (u "results") (PList []) = Ok (PList rs) ->
  nth_error rs 1 = Some (PList (PDict p :: cells)) ->
  (forall items image,
      lookup (u "name_5OJYEV") p = Some (PList items) ->
      V1128.convert_result_json_to_xml py_repr r image_id image_name source = Ok image ->
      polygons_of items image)
  /\ (forall difficulty items image,
        lookup (if py_eq_str difficulty tier_mid then u "name_RRMP0X" else u "name_5OJYEV") p
          = Some (PList items) ->
        V1212.convert_result_json_to_xml py_repr r image_id image_name source difficulty
          = Ok image ->
        polygons_of items image).
Proof.
  intros Hresults Hrow. split.
  - intros items image Hkey H. unfold V1128.convert_result_json_to_xml in H.
    apply bind_ok in H. destruct H as [hd [Hhd H]].
    rewrite Hresults in H. cbn [bind] in H.
    unfold image_header in Hhd. apply bind_ok in Hhd. destruct Hhd as [wh [_ Hhd]].
    injection Hhd as <-.
    eapply annotation_loop_polygons; [apply V1128_step_cases | exact Hrow | exact Hkey | | exact H].
    reflexivity.
  - intros difficulty items image Hkey H. unfold V1212.convert_result_json_to_xml in H.
    apply bind_ok in H. destruct H as [hd [Hhd H]].
    unfold image_header in Hhd. apply bind_ok in Hhd. destruct Hhd as [wh [_ Hhd]].
    injection Hhd as <-.
    destruct (py_eq_str difficulty tier_mid);
      rewrite Hresults in H; cbn [bind] in H;
      (eapply annotation_loop_polygons;
       [apply V1212_step_cases | exact Hrow | exact Hkey | | exact H]); reflexivity.
Qed.

(** A box, a record of a type the converters do not know, and a
    three-point polygon: two polygons are written, numbered 0 and 1. *)
Lemma one_polygon_per_retained_record_witness :
  (forall items image,
      lookup (u "name_5OJYEV") [(u "name_5OJYEV", PList sample_records)]
        = Some (PList items) ->
      V1128.convert_result_json_to_xml no_repr
        (sample_result (u "name_5OJYEV") sample_records) 1 (PStr (u "a.jpg")) sample_source
        = Ok image ->
      polygons_of items image)
  /\ (forall difficulty items image,
        lookup (if py_eq_str difficulty tier_mid then u "name_RRMP0X" else u "name_5OJYEV")
          [(u "name_5OJYEV", PList sample_records)] = Some (PList items) ->
        V1212.convert_result_json_to_xml no_repr
          (sample_result (u "name_5OJYEV") sample_records) 1 (PStr (u "a.jpg")) sample_source
          difficulty = Ok image ->
        polygons_of items image).
Proof.
  apply (one_polygon_per_retained_record no_repr
           (sample_result (u "name_5OJYEV") sample_records) 1 (PStr (u "a.jpg"))
           sample_source
           [PList []; PList [PDict [(u "name_5OJYEV", PList sample_records)]]]
           [(u "name_5OJYEV", PList sample_records)] []); reflexivity.
Defined.

Example sample_records_polygons :
  option_map (fun image => map (fun p => (elem_get p (u "z_order"), elem_get p (u "points")))
                               (children image))
    (match V1128.convert_result_json_to_xml no_repr
             (sample_result (u "name_5OJYEV") sample_records) 1 (PStr (u "a.jpg"))
             sample_source with
     | Ok image => Some image
     | Raise _ => None
     end)
  = Some [(Some (u "0"), Some sample_box_points);
          (Some (u "1"), Some (u "1.5000,2.0000;3.0000,2.2500;3.0000,4.0000"))].
Proof. vm_compute. reflexivity. Qed.

(* ================================================================== *)
(** * Payload cells without the coordinate key *)
(* ================================================================== *)

(** X9.  No list of records for the converter.  When the payload cell is an
    object without the converter's coordinate key, or is no object at all,
    both converters return the bare [image] element, without polygons and
    without raising.  The two-tier converter looks under "name_RRMP0X"
    for a row of the middle tier and under "name_5OJYEV" for any other:
    records filed under the other key are not read. *)
Theorem no_coordinate_key_gives_bare_image
    (py_repr : pyval -> str) (d : list (str * pyval)) (rs cells : list pyval)
    (cell : pyval) (image_id : Z) (image_name source w h : pyval) :
  image_size source = Ok (w, h) ->
  py_get (PDict d) (u "results") (PList []) = Ok (PList rs) ->
  nth_error rs 1 = Some (PList (cell :: cells)) ->
  let image := bare_image py_repr image_id image_name w h in
  (without_key (u "name_5OJYEV") cell ->
   V1128.convert_result_json_to_xml py_repr (PDict d) image_id image_name source = Ok image)
  /\ (forall difficulty,
        without_key (if py_eq_str difficulty tier_mid
                     then u "name_RRMP0X" else u "name_5OJYEV") cell ->
        V1212.convert_result_json_to_xml py_repr (PDict d) image_id image_name source
          difficulty = Ok image).
Proof.
  intros Hsize Hresults Hrow image.
  destruct rs as [|r0 [|r1 rs]]; try discriminate.
  cbn [nth_error] in Hrow. injection Hrow as ->.
  assert (Hloop : forall step key, without_key key cell ->
            (short <- too_short (PList (r0 :: PList (cell :: cells) :: rs)) 1 ;;
             if short then Ok image
             else annotation_loop step key (PList (r0 :: PList (cell :: cells) :: rs)) 1 image)
            = Ok image).
  { intros step key Hk. cbn.
    destruct cell; try reflexivity.
    cbn in Hk. rewrite Hk. reflexivity. }
  split.
  - intro Hk. unfold V1128.convert_result_json_to_xml.
    rewrite (image_header_bare py_repr image_id image_name source w h Hsize), Hresults.
    cbn [bind]. apply Hloop. exact Hk.
  - intros difficulty Hk. unfold V1212.convert_result_json_to_xml.
    rewrite (image_header_bare py_repr image_id image_name source w h Hsize).
    cbn [bind]. destruct (py_eq_str difficulty tier_mid);
      rewrite Hresults; cbn [bind]; apply Hloop; exact Hk.
Qed.

(** Records filed under "name_5OJYEV", converted for a row of the middle
    tier. *)
Lemma no_coordinate_key_gives_bare_image_witness :
  let image := bare_image no_repr 1 (PStr (u "a.jpg")) (PInt 640) (PInt 480) in
  (without_key (u "name_5OJYEV") (PDict [(u "name_5OJYEV", PList sample_records)]) ->
   V1128.convert_result_json_to_xml no_repr
     (PDict [(u "results",
              PList [PList []; PList [PDict [(u "name_5OJYEV", PList sample_records)]]])])
     1 (PStr (u "a.jpg")) sample_source = Ok image)
  /\ (forall difficulty,
        without_key (if py_eq_str difficulty tier_mid
                     then u "name_RRMP0X" else u "name_5OJYEV")
          (PDict [(u "name_5OJYEV", PList sample_records)]) ->
        V1212.convert_result_json_to_xml no_repr
          (PDict [(u "results",
                   PList [PList []; PList [PDict [(u "name_5OJYEV", PList sample_records)]]])])
          1 (PStr (u "a.jpg")) sample_source difficulty = Ok image).
Proof.
  apply (no_coordinate_key_gives_bare_image no_repr
           [(u "results",
             PList [PList []; PList [PDict [(u "name_5OJYEV", PList sample_records)]]])]
           [PList []; PList [PDict [(u "name_5OJYEV", PList sample_records)]]] []
           (PDict [(u "name_5OJYEV", PList sample_records)])
           1 (PStr (u "a.jpg")) sample_source (PInt 640) (PInt 480)); reflexivity.
Defined.

Example middle_tier_row_skips_other_key :
  V1212.convert_result_json_to_xml no_repr
    (sample_result (u "name_5OJYEV") sample_records) 1 (PStr (u "a.jpg")) sample_source
    (PStr tier_mid)
  = Ok (bare_image no_repr 1 (PStr (u "a.jpg")) (PInt 640) (PInt 480)).
Proof. vm_compute. reflexivity. Qed.

(* ================================================================== *)
(** * The row loops: what every row adds *)
(* ================================================================== *)

Lemma py_eq_str_eq (v : pyval) (s : str) : py_eq_str v s = true -> v = PStr s.
Proof.
  destruct v; try discriminate. cbn [py_eq_str]. intro H.
  apply str_eqb_eq in H. subst. reflexivity.
Qed.

Lemma V1212_step_attrib (py_repr : pyval -> str) (key : str) (e e' : Element) (z z' : Z)
    (a : pyval) :
  V1212.annotation_step py_repr key (e, z) a = Ok (e', z') -> attrib e' = attrib e.
Proof.
  intro H. apply V1212_step_cases in H.
  destruct H as [(_ & -> & _) | (c & pts & poly & _ & -> & _)];
    [reflexivity | apply attrib_append_child].
Qed.

Lemma V1212_convert_id (py_repr : pyval -> str) (r name s t : pyval) (image_id : Z)
    (img : Element) :
  V1212.convert_result_json_to_xml py_repr r image_id name s t = Ok img ->
  elem_get img (u "id") = Some (dec_Z (image_id - 1)).
Proof.
  unfold V1212.convert_result_json_to_xml. intro H.
  apply bind_ok in H. destruct H as [hd [Hhd H]].
  unfold image_header in Hhd. apply bind_ok in Hhd. destruct Hhd as [wh [_ Hhd]].
  injection Hhd as <-.
  destruct (py_eq_str t tier_mid);
    (apply bind_ok in H; destruct H as [results [_ H]];
     apply bind_ok in H; destruct H as [short [_ H]];
     destruct short;
     [injection H as <-; reflexivity|];
     apply annotation_loop_attrib in H;
     [unfold elem_get; rewrite H; reflexivity|];
     intros; eapply V1212_step_attrib; eauto).
Qed.

Lemma V1128_row_effect (py_repr : pyval -> str) (json_loads : str -> result pyval)
    (fs : FileSystem dir) (st st' : RunState) (idx : nat) (row : Row) :
  V1128.process_row py_repr json_loads fs st (idx, row) = Ok st' -> row_effect idx st st'.
Proof.
  unfold V1128.process_row. intro H.
  destruct (negb (truthy _)); [injection H as <-; apply row_passed; reflexivity|].
  apply bind_ok in H. destruct H as [files [_ H]].
  destruct (filter _ files) as [|first_file rest].
  { injection H as <-. eapply row_missing. reflexivity. }
  apply bind_ok in H. destruct H as [name [_ H]].
  destruct (negb (exists_ fs _ _)).
  { injection H as <-. eapply row_missing. reflexivity. }
  destruct (negb (truthy _) || negb (truthy _)).
  { injection H as <-. apply row_passed. reflexivity. }
  apply bind_ok in H. destruct H as [img [Himg H]].
  injection H as <-. apply (@row_image idx st _ img); [reflexivity|].
  apply V1128_convert_id in Himg. rewrite Himg. do 2 f_equal. lia.
Qed.

Lemma V1212_row_effect (py_repr : pyval -> str) (json_loads : str -> result pyval)
    (int_of_str : str -> result Z) (fs : FileSystem dir)
    (st st' : RunState) (idx : nat) (row : Row) :
  V1212.process_row py_repr json_loads int_of_str fs st (idx, row) = Ok st' ->
  row_effect idx st st'
  /\ (images st' <> images st ->
      difficulty row = PStr tier_mid \/ difficulty row = PStr tier_high).
Proof.
  unfold V1212.process_row. intro H.
  destruct (negb (truthy _)).
  { injection H as <-. split; [apply row_passed; reflexivity | congruence]. }
  assert (Htier : forall dirs,
             (if py_eq_str (difficulty row) tier_mid
              then Some (result_json_dir_hard, source_json_dir_hard)
              else if py_eq_str (difficulty row) tier_high
                   then Some (result_json_dir_very_hard, source_json_dir_very_hard)
                   else None) = Some dirs ->
             difficulty row = PStr tier_mid \/ difficulty row = PStr tier_high).
  { intros dirs. destruct (py_eq_str (difficulty row) tier_mid) eqn:Em.
    - intros _. left. apply py_eq_str_eq. exact Em.
    - destruct (py_eq_str (difficulty row) tier_high) eqn:Eh; [|discriminate].
      intros _. right. apply py_eq_str_eq. exact Eh. }
  destruct (if py_eq_str (difficulty row) tier_mid then _ else _) as [[result_dir source_dir]|].
  2:{ injection H as <-. split; [apply row_passed; reflexivity | congruence]. }
  specialize (Htier _ eq_refl).
  apply bind_ok in H. destruct H as [files [_ H]].
  destruct (filter _ files) as [|first_file rest].
  { injection H as <-. split; [eapply row_missing; reflexivity | intros _; exact Htier]. }
  apply bind_ok in H. destruct H as [name [_ H]].
  destruct (negb (exists_ fs _ _)).
  { injection H as <-. split; [eapply row_missing; reflexivity | intros _; exact Htier]. }
  destruct (negb (truthy _) || negb (truthy _)).
  { injection H as <-. split; [apply row_passed; reflexivity | congruence]. }
  apply bind_ok in H. destruct H as [img [Himg H]].
  apply bind_ok in H. destruct H as [zw [_ H]].
  apply bind_ok in H. destruct H as [zh [_ H]].
  injection H as <-. split; [|intros _; exact Htier].
  apply (@row_image idx st _ img); [reflexivity|].
  apply V1212_convert_id in Himg. rewrite Himg. do 2 f_equal. lia.
Qed.

Section Loop.

Variable step : RunState -> nat * Row -> result RunState.
Variable selected : Row -> Prop.

Hypothesis step_effect :
  forall st st' idx row, step st (idx, row) = Ok st' ->
    row_effect idx st st' /\ (images st' <> images st -> selected row).

Lemma loop_effect (rows : list Row) :
  forall (a : nat) (st st' : RunState),
    foldM step (combine (seq a (length rows)) rows) st = Ok st' ->
    exists (imgs : list Element) (ks : list nat) (names : list str),
      images st' = images st ++ imgs
      /\ processed_count st' = processed_count st + length imgs
      /\ missing_files st' = missing_files st ++ names
      /\ length imgs + length names <= length rows
      /\ map (fun e => elem_get e (u "id")) imgs
         = map (fun k => Some (dec_Z (Z.of_nat k))) ks
      /\ StronglySorted lt ks
      /\ Forall (fun k => a <= k < a + length rows) ks
      /\ Forall (fun k => exists row, nth_error rows (k - a) = Some row /\ selected row) ks.
Proof.
  induction rows as [|row rows IH]; intros a st st' H; cbn [length seq combine foldM] in H.
  - injection H as <-. exists [], [], []. rewrite !app_nil_r.
    repeat split; auto; constructor.
  - apply bind_ok in H. destruct H as [st1 [H1 H2]].
    apply IH in H2. destruct H2 as (imgs & ks & names & Hi & Hc & Hm & Hl & Hid & Hs & Hf & Hsel).
    assert (Hf' : Forall (fun k => a <= k < a + length (row :: rows)) ks).
    { eapply Forall_impl; [|exact Hf]. cbn [length]. intros k Hk. lia. }
    assert (Hsel' : Forall (fun k => exists r, nth_error (row :: rows) (k - a) = Some r
                                               /\ selected r) ks).
    { rewrite Forall_forall in *. intros k Hk. specialize (Hf k Hk).
      destruct (Hsel k Hk) as [r [Hr Hr']]. exists r. split; [|exact Hr'].
      replace (k - a) with (S (k - S a)) by lia. exact Hr. }
    apply step_effect in H1. destruct H1 as [[E | name E | img E Himg] Hrow]; subst st1.
    + exists imgs, ks, names. cbn [length]. repeat split; auto; lia.
    + exists imgs, ks, (name :: names). cbn [add_missing images processed_count missing_files] in *.
      rewrite <- app_assoc in Hm. cbn [length]. repeat split; auto; lia.
    + exists (img :: imgs), (a :: ks), names.
      cbn [add_image images processed_count missing_files] in *.
      rewrite <- app_assoc in Hi. cbn [length map]. rewrite Himg, Hid.
      repeat split; auto; try lia.
      * constructor; [exact Hs|].
        eapply Forall_impl; [|exact Hf]. cbn beta. intros k Hk. lia.
      * constructor; [lia | exact Hf'].
      * constructor; [|exact Hsel'].
        exists row. rewrite Nat.sub_diag. split; [reflexivity|].
        apply Hrow. intro Heq. apply (f_equal (@length Element)) in Heq.
        rewrite length_app in Heq. cbn [length] in Heq. lia.
Qed.

End Loop.

(** X10.  The two-tier loop numbers images by manifest row, too.  Whenever the
    row loop of the two-tier conversion completes, its [image] elements
    stand in manifest row order, each with the zero-based position of its
    own row as [id]; the positions are strictly increasing, there are as
    many as [processed_count], and every one of them is the position of a
    row tagged with one of the two tiers. *)
Theorem two_tier_image_ids_are_row_positions
    (py_repr : pyval -> str) (json_loads : str -> result pyval)
    (int_of_str : str -> result Z) (fs : FileSystem dir) (df : list Row) (st : RunState) :
  V1212.process_csv_to_xml py_repr json_loads int_of_str fs df = Ok st ->
  exists ks : list nat,
    image_ids st = map (fun k => Some (dec_Z (Z.of_nat k))) ks
    /\ StronglySorted lt ks
    /\ processed_count st = length ks
    /\ Forall (tiered df) ks.
Proof.
  unfold V1212.process_csv_to_xml, enumerate. intro Hrun.
  apply (loop_effect _ (fun row => difficulty row = PStr tier_mid
                                   \/ difficulty row = PStr tier_high)) in Hrun.
  2:{ intros s s' idx row Hs. apply (V1212_row_effect _ _ _ _ _ _ _ _ Hs). }
  destruct Hrun as (imgs & ks & names & Hi & Hc & _ & _ & Hid & Hs & _ & Hsel).
  cbn [initial_state images processed_count app] in Hi, Hc.
  exists ks. unfold image_ids. rewrite Hi, Hid, Hc.
  repeat split; auto.
  - rewrite <- (length_map (fun e => elem_get e (u "id")) imgs), Hid, length_map. reflexivity.
  - eapply Forall_impl; [|exact Hsel]. cbn beta. intro k. rewrite Nat.sub_0_r. auto.
Qed.

(** A row of an unknown tier, then a row of the middle tier: one image,
    with id 1. *)
Lemma two_tier_image_ids_are_row_positions_witness :
  exists ks : list nat,
    image_ids {| images := [bare_image no_repr 2 (PStr (u "a.jpg")) (PInt 640) (PInt 480)];
                 processed_count := 1;
                 missing_files := [] |}
      = map (fun k => Some (dec_Z (Z.of_nat k))) ks
    /\ StronglySorted lt ks
    /\ 1 = length ks
    /\ Forall (tiered [row_easy; row_7]) ks.
Proof.
  apply (two_tier_image_ids_are_row_positions no_repr plain_names (fun _ => Ok 0%Z)
           disk_with_empty_results [row_easy; row_7]).
  vm_compute. reflexivity.
Defined.

(** X11.  The accounts of a run.  When a row loop completes, the root has got
    exactly [processed_count] images, and images and entries of
    [missing_files] together are no more than the rows of the manifest:
    each row adds one image, or one missing-file name, or nothing. *)
Theorem run_accounts
    (py_repr : pyval -> str) (json_loads : str -> result pyval)
    (int_of_str : str -> result Z) (fs : FileSystem dir) (df : list Row) :
  (forall st, V1128.process_csv_to_xml py_repr json_loads fs df = Ok st ->
     length (images st) = processed_count st
     /\ processed_count st + length (missing_files st) <= length df)
  /\ (forall st, V1212.process_csv_to_xml py_repr json_loads int_of_str fs df = Ok st ->
        length (images st) = processed_count st
        /\ processed_count st + length (missing_files st) <= length df).
Proof.
  split; intros st Hrun.
  - unfold V1128.process_csv_to_xml, enumerate in Hrun.
    apply (loop_effect _ (fun _ => True)) in Hrun.
    2:{ intros s s' idx row Hs. split; [exact (V1128_row_effect _ _ _ _ _ _ _ Hs) | auto]. }
    destruct Hrun as (imgs & ks & names & Hi & Hc & Hm & Hl & _).
    cbn [initial_state images processed_count missing_files app] in Hi, Hc, Hm.
    rewrite Hi, Hc, Hm. split; [reflexivity | exact Hl].
  - unfold V1212.process_csv_to_xml, enumerate in Hrun.
    apply (loop_effect _ (fun _ => True)) in Hrun.
    2:{ intros s s' idx row Hs. split; [|auto].
        exact (proj1 (V1212_row_effect _ _ _ _ _ _ _ _ Hs)). }
    destruct Hrun as (imgs & ks & names & Hi & Hc & Hm & Hl & _).
    cbn [initial_state images processed_count missing_files app] in Hi, Hc, Hm.
    rewrite Hi, Hc, Hm. split; [reflexivity | exact Hl].
Qed.

(* ================================================================== *)
(** * Result files are matched by the whole item number *)
(* ================================================================== *)

Lemma uint_digits_injective (a b : Decimal.uint) : uint_digits a = uint_digits b -> a = b.
Proof.
  revert b. induction a; intros [] H; cbn in H; try discriminate H; try reflexivity;
    injection H as H; f_equal; apply IHa; exact H.
Qed.

Lemma dec_N_injective (n m : N) : dec_N n = dec_N m -> n = m.
Proof.
  unfold dec_N. intro H. apply uint_digits_injective in H.
  apply DecimalN.Unsigned.to_uint_inj. exact H.
Qed.

Lemma dec_N_digits (n : N) : forallb is_digit (dec_N n) = true.
Proof. apply uint_digits_all. Qed.

Lemma startswith_number (a b rest : str) :
  forallb is_digit a = true -> forallb is_digit b = true ->
  startswith (b ++ 95%N :: rest) (a ++ [95%N]) = true -> a = b.
Proof.
  revert b. induction a as [|c a IH]; intros [|d b] Ha Hb H.
  - reflexivity.
  - cbn [app startswith] in H. apply andb_true_iff in H. destruct H as [H _].
    apply chr_eqb_eq in H. subst d. discriminate.
  - cbn [app startswith] in H. apply andb_true_iff in H. destruct H as [H _].
    apply chr_eqb_eq in H. subst c. discriminate.
  - cbn [forallb] in Ha, Hb. apply andb_true_iff in Ha, Hb.
    cbn [app startswith] in H. apply andb_true_iff in H. destruct H as [Hc H].
    apply chr_eqb_eq in Hc. subst d. f_equal. apply IH; tauto.
Qed.

Lemma other_items_filtered (py_repr : pyval -> str) (n : N) (others : list (N * str)) :
  Forall (fun mr => fst mr <> n) others ->
  filter (fun file => startswith file (py_str py_repr (PInt (Z.of_N n)) ++ u "_")
                      && endswith file (u ".json")) (result_files others) = [].
Proof.
  intro H. induction H as [|[m rest] others Hm _ IH]; [reflexivity|].
  change (result_files ((m, rest) :: others))
    with (result_file m rest :: result_files others).
  cbn [filter]. rewrite IH.
  destruct (startswith (result_file m rest) _) eqn:E; [|reflexivity].
  exfalso. apply Hm. cbn [fst]. symmetry. apply dec_N_injective.
  apply (startswith_number _ _ rest (dec_N_digits n) (dec_N_digits m)).
  unfold result_file in E. cbn [py_str] in E.
  destruct n; exact E.
Qed.

(** X12.  A result file is taken for a row only if its name begins with the
    whole item number of the row and an underscore.  A row for item [n]
    (with a file name) that finds in the result directory only files of
    other items, such as "12_..." for item 1, is recorded as missing,
    under the name "<n>_result" (and the tier, in the two-tier loop): no
    file of another item is read for it. *)
Theorem result_file_of_another_item_is_not_taken
    (py_repr : pyval -> str) (json_loads : str -> result pyval)
    (int_of_str : str -> result Z) (fs : FileSystem dir)
    (st : RunState) (idx : nat) (row : Row) (n : N) (others : list (N * str)) :
  data_idx row = PInt (Z.of_N n) ->
  truthy (extract_filename_from_csv json_loads (file_name row)) = true ->
  Forall (fun mr => fst mr <> n) others ->
  (os_listdir fs result_json_dir = Some (result_files others) ->
   V1128.process_row py_repr json_loads fs st (idx, row)
   = Ok (add_missing st (dec_N n ++ u "_result")))
  /\ (forall result_dir source_dir,
        tier_of row result_dir source_dir ->
        os_listdir fs result_dir = Some (result_files others) ->
        V1212.process_row py_repr json_loads int_of_str fs st (idx, row)
        = Ok (add_missing st (dec_N n ++ u "_result_" ++ py_str py_repr (difficulty row)))).
Proof.
  intros Hidx Hname Hothers.
  assert (Hdec : py_str py_repr (PInt (Z.of_N n)) = dec_N n) by (destruct n; reflexivity).
  split.
  - intro Hdir. unfold V1128.process_row, V1128.extract_filename_from_csv.
    rewrite Hname. cbn [negb]. unfold listdir. rewrite Hdir. cbn [bind].
    rewrite Hidx, (other_items_filtered py_repr n others Hothers), Hdec. reflexivity.
  - intros result_dir source_dir Htier Hdir.
    unfold V1212.process_row, V1212.extract_filename_from_csv.
    rewrite Hname. cbn [negb].
    destruct Htier as [(Hd & -> & ->) | (Hd & -> & ->)]; rewrite Hd;
      change (py_eq_str (PStr tier_mid) tier_mid) with true;
      change (py_eq_str (PStr tier_high) tier_mid) with false;
      change (py_eq_str (PStr tier_high) tier_high) with true;
      cbv iota; unfold listdir; rewrite Hdir; cbn [bind];
      rewrite Hidx, (other_items_filtered py_repr n others Hothers), Hdec; reflexivity.
Qed.

(** Item 1, with the files of items 12 and 21 on disk. *)
Lemma result_file_of_another_item_is_not_taken_witness :
  let fs := {| os_listdir := fun _ => Some [u "12_result.json"; u "21_1_result.json"];
               exists_ := fun _ _ => true;
               read_json := fun _ _ => Some sample_source |} in
  let row := {| data_idx := PInt 1; file_name := PStr (u "a.jpg");
                difficulty := PStr tier_high |} in
  (os_listdir fs result_json_dir
   = Some (result_files [(12%N, u "result.json"); (21%N, u "1_result.json")]) ->
   V1128.process_row no_repr plain_names fs initial_state (0, row)
   = Ok (add_missing initial_state (dec_N 1 ++ u "_result")))
  /\ (forall result_dir source_dir,
        tier_of row result_dir source_dir ->
        os_listdir fs result_dir
        = Some (result_files [(12%N, u "result.json"); (21%N, u "1_result.json")]) ->
        V1212.process_row no_repr plain_names (fun _ => Ok 0%Z) fs initial_state (0, row)
        = Ok (add_missing initial_state
                (dec_N 1 ++ u "_result_" ++ py_str no_repr (difficulty row)))).
Proof.
  intros fs row.
  apply (result_file_of_another_item_is_not_taken no_repr plain_names (fun _ => Ok 0%Z) fs
           initial_state 0 row 1%N [(12%N, u "result.json"); (21%N, u "1_result.json")]).
  - reflexivity.
  - reflexivity.
  - repeat constructor; discriminate.
Defined.

(* ================================================================== *)
(** * A file-name cell that is not a string *)
(* ================================================================== *)

Lemma foldM_raise {A S} (f : S -> A -> result S) (a : A) (l1 l2 : list A) (s s1 : S)
    (e : exn) :
  foldM f l1 s = Ok s1 -> f s1 a = Raise e -> foldM f (l1 ++ a :: l2) s = Raise e.
Proof.
  revert s. induction l1 as [|x l1 IH]; intros s H1 Ha; cbn [app foldM] in *.
  - injection H1 as ->. rewrite Ha. reflexivity.
  - destruct (f s x) as [s'|e']; cbn [bind] in *; [apply IH; assumption | discriminate].
Qed.

(** X13.  A file-name cell that holds no string but is truthy (the NaN of a
    missing cell, a number) is handed on as it is by
    [extract_filename_from_csv]; as soon as the row's result file is
    found, the row loop calls [.replace] on it and [AttributeError] ends
    the run at that row: no later row is converted. *)
Theorem non_string_file_name_stops_the_run
    (py_repr : pyval -> str) (json_loads : str -> result pyval)
    (int_of_str : str -> result Z) (fs : FileSystem dir)
    (idx : nat) (row : Row) (files others : list str) (first_file : str) :
  (match file_name row with PStr _ => False | _ => True end) ->
  truthy (file_name row) = true ->
  filter (fun file => startswith file (py_str py_repr (data_idx row) ++ u "_")
                      && endswith file (u ".json")) files = first_file :: others ->
  (os_listdir fs result_json_dir = Some files ->
   forall before after st,
     foldM (V1128.process_row py_repr json_loads fs) before initial_state = Ok st ->
     foldM (V1128.process_row py_repr json_loads fs) (before ++ (idx, row) :: after)
       initial_state = Raise AttributeError)
  /\ (forall result_dir source_dir,
        tier_of row result_dir source_dir ->
        os_listdir fs result_dir = Some files ->
        forall before after st,
          foldM (V1212.process_row py_repr json_loads int_of_str fs) before initial_state
            = Ok st ->
          foldM (V1212.process_row py_repr json_loads int_of_str fs)
            (before ++ (idx, row) :: after) initial_state = Raise AttributeError).
Proof.
  intros Hnot Htruthy Hfiles.
  assert (Hname : extract_filename_from_csv json_loads (file_name row) = file_name row).
  { unfold extract_filename_from_csv. destruct (file_name row); try reflexivity. contradiction. }
  assert (Hstr : as_str (file_name row) = Raise AttributeError).
  { destruct (file_name row); try reflexivity. contradiction. }
  split.
  - intros Hdir before after st Hbefore.
    apply (foldM_raise _ _ _ _ _ st _ Hbefore).
    unfold V1128.process_row, V1128.extract_filename_from_csv.
    rewrite Hname, Htruthy. cbn [negb]. unfold listdir. rewrite Hdir. cbn [bind].
    rewrite Hfiles, Hstr. reflexivity.
  - intros result_dir source_dir Htier Hdir before after st Hbefore.
    apply (foldM_raise _ _ _ _ _ st _ Hbefore).
    unfold V1212.process_row, V1212.extract_filename_from_csv.
    rewrite Hname, Htruthy. cbn [negb].
    destruct Htier as [(Hd & -> & ->) | (Hd & -> & ->)]; rewrite Hd;
      change (py_eq_str (PStr tier_mid) tier_mid) with true;
      change (py_eq_str (PStr tier_high) tier_mid) with false;
      change (py_eq_str (PStr tier_high) tier_high) with true;
      cbv iota; unfold listdir; rewrite Hdir; cbn [bind];
      rewrite Hfiles, Hstr; reflexivity.
Qed.

(** Item 1 with a missing file-name cell and its result file on disk. *)
Lemma non_string_file_name_stops_the_run_witness :
  (os_listdir disk_with_item_1 result_json_dir = Some [u "1_result.json"] ->
   forall before after st,
     foldM (V1128.process_row no_repr plain_names disk_with_item_1) before initial_state
       = Ok st ->
     foldM (V1128.process_row no_repr plain_names disk_with_item_1)
       (before ++ (0, row_without_name) :: after) initial_state = Raise AttributeError)
  /\ (forall result_dir source_dir,
        tier_of row_without_name result_dir source_dir ->
        os_listdir disk_with_item_1 result_dir = Some [u "1_result.json"] ->
        forall before after st,
          foldM (V1212.process_row no_repr plain_names (fun _ => Ok 0%Z) disk_with_item_1)
            before initial_state = Ok st ->
          foldM (V1212.process_row no_repr plain_names (fun _ => Ok 0%Z) disk_with_item_1)
            (before ++ (0, row_without_name) :: after) initial_state = Raise AttributeError).
Proof.
  apply (non_string_file_name_stops_the_run no_repr plain_names (fun _ => Ok 0%Z)
           disk_with_item_1 0 row_without_name [u "1_result.json"] [] (u "1_result.json")).
  - exact I.
  - reflexivity.
  - reflexivity.
Defined.

Example missing_file_name_cell_stops_both_loops :
  V1128.process_csv_to_xml no_repr plain_names disk_with_item_1 [row_without_name]
    = Raise AttributeError
  /\ V1212.process_csv_to_xml no_repr plain_names (fun _ => Ok 0%Z) disk_with_item_1
       [row_without_name] = Raise AttributeError.
Proof. split; vm_compute; reflexivity. Qed.

(* ================================================================== *)
(** * The name of the source document *)
(* ================================================================== *)

Lemma replace_skips (old new stem rest : str) (c : char) (old' : str) :
  old = c :: old' -> str_contains c stem = false ->
  replace_from old new (stem ++ rest) 0 = stem ++ replace_from old new rest 0.
Proof.
  intros -> H. induction stem as [|x stem IH]; [reflexivity|].
  cbn [str_contains existsb] in H. apply orb_false_iff in H. destruct H as [Hx H].
  cbn [app replace_from startswith]. rewrite Hx. cbn [andb]. f_equal. apply IH. exact H.
Qed.

(** X14.  From image name to source document.  For a name whose stem holds no
    dot, the single-tier loop turns both "stem.jpg" and "stem.JPG" into
    "stem.json"; the two-tier loop turns "stem.jpg" into "stem.json" but
    leaves "stem.JPG" as it is, so that it looks for the source document
    under the image's own name.  A name with another extension is left
    unchanged by both. *)
Theorem source_document_name (stem : str) :
  str_contains 46 stem = false ->
  source_name_1128 (stem ++ u ".jpg") = stem ++ u ".json"
  /\ source_name_1128 (stem ++ u ".JPG") = stem ++ u ".json"
  /\ source_name_1212 (stem ++ u ".jpg") = stem ++ u ".json"
  /\ source_name_1212 (stem ++ u ".JPG") = stem ++ u ".JPG"
  /\ source_name_1128 (stem ++ u ".png") = stem ++ u ".png"
  /\ source_name_1212 (stem ++ u ".png") = stem ++ u ".png".
Proof.
  intro H. unfold source_name_1128, source_name_1212, str_replace.
  repeat split;
    repeat (erewrite (replace_skips _ _ stem _ 46%N); [|reflexivity|exact H]);
    reflexivity.
Qed.

Lemma source_document_name_witness :
  source_name_1128 (u "page_01" ++ u ".jpg") = u "page_01" ++ u ".json"
  /\ source_name_1128 (u "page_01" ++ u ".JPG") = u "page_01" ++ u ".json"
  /\ source_name_1212 (u "page_01" ++ u ".jpg") = u "page_01" ++ u ".json"
  /\ source_name_1212 (u "page_01" ++ u ".JPG") = u "page_01" ++ u ".JPG"
  /\ source_name_1128 (u "page_01" ++ u ".png") = u "page_01" ++ u ".png"
  /\ source_name_1212 (u "page_01" ++ u ".png") = u "page_01" ++ u ".png".
Proof. apply (source_document_name (u "page_01")). reflexivity. Defined.

(* ================================================================== *)
(** * The two-tier loop reads the image size back *)
(* ================================================================== *)

Lemma V1212_convert_size (py_repr : pyval -> str) (r name s t w h : pyval) (image_id : Z)
    (img : Element) :
  image_size s = Ok (w, h) ->
  V1212.convert_result_json_to_xml py_repr r image_id name s t = Ok img ->
  elem_get img (u "width") = Some (py_str py_repr w)
  /\ elem_get img (u "height") = Some (py_str py_repr h).
Proof.
  intros Hsize H. unfold V1212.convert_result_json_to_xml in H.
  rewrite (image_header_bare py_repr image_id name s w h Hsize) in H. cbn [bind] in H.
  assert (Hattr : attrib img = attrib (bare_image py_repr image_id name w h)).
  { destruct (py_eq_str t tier_mid);
      (apply bind_ok in H; destruct H as [results [_ H]];
       apply bind_ok in H; destruct H as [short [_ H]];
       destruct short;
       [injection H as <-; reflexivity|];
       apply annotation_loop_attrib in H; [exact H|];
       intros; eapply V1212_step_attrib; eauto). }
  unfold elem_get. rewrite Hattr. split; reflexivity.
Qed.

(** X15.  After building the image of a row, the two-tier loop reads its width
    and height back through [int].  For a row whose documents are found
    and converted, the step appends the image when [int] accepts both
    texts, and otherwise raises what [int] raises (on the width first):
    a size the source document gives as null, as a string or as a float
    with decimals ends the run at that row. *)
Theorem two_tier_loop_reads_size_back
    (py_repr : pyval -> str) (json_loads : str -> result pyval)
    (int_of_str : str -> result Z) (fs : FileSystem dir)
    (st : RunState) (idx : nat) (row : Row) (name : str)
    (result_doc source_doc w h : pyval) (result_dir source_dir : dir) (image : Element) :
  tier_of row result_dir source_dir ->
  row_documents py_repr json_loads fs result_dir source_dir source_name_1212
    row name result_doc source_doc ->
  image_size source_doc = Ok (w, h) ->
  V1212.convert_result_json_to_xml py_repr result_doc (Z.of_nat idx + 1) (PStr name)
    source_doc (difficulty row) = Ok image ->
  V1212.process_row py_repr json_loads int_of_str fs st (idx, row)
  = match int_of_str (py_str py_repr w), int_of_str (py_str py_repr h) with
    | Ok _, Ok _ => Ok (add_image st image)
    | Ok _, Raise e => Raise e
    | Raise e, _ => Raise e
    end.
Proof.
  intros Htier Hrow Hsize Himage.
  rewrite (V1212_row_reaches_converter py_repr json_loads int_of_str fs st idx row name
             result_doc source_doc result_dir source_dir Htier Hrow), Himage.
  cbn [bind]. unfold V1212.int_attr.
  destruct (V1212_convert_size _ _ _ _ _ _ _ _ _ Hsize Himage) as [-> ->].
  destruct (int_of_str (py_str py_repr w)); cbn [bind]; [|reflexivity].
  destruct (int_of_str (py_str py_repr h)); reflexivity.
Qed.

(** A source document with a null width: [int("None")] raises. *)
Lemma two_tier_loop_reads_size_back_witness :
  V1212.process_row no_repr plain_names ascii_int disk_without_width initial_state (0, row_7)
  = match ascii_int (py_str no_repr PNone), ascii_int (py_str no_repr (PInt 480)) with
    | Ok _, Ok _ => Ok (add_image initial_state
                          (bare_image no_repr 1 (PStr (u "a.jpg")) PNone (PInt 480)))
    | Ok _, Raise e => Raise e
    | Raise e, _ => Raise e
    end.
Proof.
  apply (two_tier_loop_reads_size_back no_repr plain_names ascii_int disk_without_width
           initial_state 0 row_7 (u "a.jpg") (PDict [(u "results", PList [])])
           source_without_width PNone (PInt 480)
           result_json_dir_hard source_json_dir_hard).
  - left. repeat split.
  - unfold row_documents. repeat split; try reflexivity; try discriminate.
    exists [u "7_result.json"], (u "7_result.json"), []. repeat split.
  - reflexivity.
  - reflexivity.
Defined.

Example null_width_stops_the_two_tier_loop :
  V1212.process_csv_to_xml no_repr plain_names ascii_int disk_without_width [row_7]
    = Raise ValueError
  /\ V1128.process_csv_to_xml no_repr plain_names disk_without_width [row_7]
     = Ok {| images := [bare_image no_repr 1 (PStr (u "a.jpg")) PNone (PInt 480)];
             processed_count := 1; missing_files := [] |}.
Proof. split; vm_compute; reflexivity. Qed.

(* ================================================================== *)
(** * [add_timezone_to_datetime], applied twice *)
(* ================================================================== *)

Lemma lazy_rests_reads (p : Re.cls) (s t : str) :
  In t (Re.lazy_rests p s) ->
  exists read, s = read ++ t /\ forallb p read = true.
Proof.
  revert t. induction s as [|c s IH]; intros t H; cbn [Re.lazy_rests] in H.
  - destruct H as [<- | []]. exists []. split; reflexivity.
  - destruct H as [<- | H]; [exists []; split; reflexivity|].
    destruct (p c) eqn:E; [|contradiction].
    destruct (IH t H) as [read [-> Hr]]. exists (c :: read).
    split; [reflexivity|]. cbn [forallb]. rewrite E, Hr. reflexivity.
Qed.

Lemma forallb_weaken {A} (p q : A -> bool) (l : list A) :
  (forall x, p x = true -> q x = true) -> forallb p l = true -> forallb q l = true.
Proof.
  intros Hpq H. rewrite forallb_forall in *. intros x Hx. apply Hpq, H, Hx.
Qed.

Lemma exec_reads (r : Re.re) :
  forall s caps caps' rest, In (caps', rest) (Re.exec r s caps) ->
    exists read, s = read ++ rest /\ forallb (may_read r) read = true.
Proof.
  induction r as [p | a IHa b IHb | a IHa b IHb | p | p | n r IH];
    intros s caps caps' rest H; cbn [Re.exec may_read] in *.
  - destruct s as [|c t]; [contradiction|].
    destruct (p c) eqn:E; [|contradiction].
    destruct H as [H | []]. injection H as _ <-.
    exists [c]. split; [reflexivity|]. cbn [forallb]. rewrite E. reflexivity.
  - apply in_flat_map in H. destruct H as [[caps1 rest1] [H1 H2]]. cbn [fst snd] in H2.
    destruct (IHa _ _ _ _ H1) as [r1 [-> Hr1]].
    destruct (IHb _ _ _ _ H2) as [r2 [-> Hr2]].
    exists (r1 ++ r2). rewrite <- app_assoc. split; [reflexivity|].
    rewrite forallb_app. apply andb_true_iff. split.
    + apply (forallb_weaken _ _ _ (fun x Hx => orb_true_intro _ _ (or_introl Hx)) Hr1).
    + apply (forallb_weaken _ _ _ (fun x Hx => orb_true_intro _ _ (or_intror Hx)) Hr2).
  - apply in_app_or in H. destruct H as [H | H].
    + destruct (IHa _ _ _ _ H) as [r1 [-> Hr1]]. exists r1. split; [reflexivity|].
      apply (forallb_weaken _ _ _ (fun x Hx => orb_true_intro _ _ (or_introl Hx)) Hr1).
    + destruct (IHb _ _ _ _ H) as [r2 [-> Hr2]]. exists r2. split; [reflexivity|].
      apply (forallb_weaken _ _ _ (fun x Hx => orb_true_intro _ _ (or_intror Hx)) Hr2).
  - apply in_map_iff in H. destruct H as [t [Ht H]]. injection Ht as _ <-.
    unfold Re.greedy_rests in H. apply in_rev in H.
    apply (lazy_rests_reads p s t).
    destruct (Re.lazy_rests p s) as [|x l]; [contradiction | right; exact H].
  - apply in_map_iff in H. destruct H as [t [Ht H]]. injection Ht as _ <-.
    apply (lazy_rests_reads p s t H).
  - apply in_map_iff in H. destruct H as [[caps1 rest1] [Ht H]]. cbn [fst snd] in Ht.
    injection Ht as _ <-. apply (IH _ _ _ _ H).
Qed.

Lemma strptime_unreadable (uni_digit : char -> option N) (format : Re.re) (s : str)
    (c : char) :
  In c s -> may_read format c = false ->
  strptime uni_digit format (PStr s) = Raise ValueError.
Proof.
  intros Hc Hno. unfold strptime, Re.match_prefix.
  destruct (Re.exec format s []) as [|[caps rest] others] eqn:E; [reflexivity|].
  cbn [hd_error]. destruct rest as [|x rest]; [|reflexivity].
  exfalso.
  destruct (exec_reads format s [] caps [] (eq_ind_r (fun l => In _ l) (in_eq _ _) E))
    as [read [Hs Hr]].
  rewrite app_nil_r in Hs. subst read.
  rewrite forallb_forall in Hr. specialize (Hr c Hc). congruence.
Qed.

Lemma strftime_has_plus (dt : datetime) : In 43%N (strftime dt).
Proof.
  unfold strftime.
  do 5 (apply in_or_app; right; apply in_cons).
  apply in_or_app. right. left. reflexivity.
Qed.

Lemma converted_text_is_final (uni_digit : char -> option N) (dt : datetime) :
  add_timezone_to_datetime uni_digit (PStr (strftime dt)) = PStr (strftime dt).
Proof.
  unfold add_timezone_to_datetime.
  rewrite (strptime_unreadable uni_digit (format_T uni_digit) _ 43%N
             (strftime_has_plus dt) eq_refl).
  rewrite (strptime_unreadable uni_digit (format_space uni_digit) _ 43%N
             (strftime_has_plus dt) eq_refl).
  reflexivity.
Qed.

Lemma add_timezone_result (uni_digit : char -> option N) (v : pyval) :
  add_timezone_to_datetime uni_digit v = v
  \/ exists dt, add_timezone_to_datetime uni_digit v = PStr (strftime dt).
Proof.
  unfold add_timezone_to_datetime.
  destruct (strptime uni_digit (format_T uni_digit) v) as [dt1|e1]; cbn [bind try_except].
  - destruct (minus_9_hours dt1) as [u1|e]; cbn [bind try_except]; [right; eauto|].
    destruct (strptime uni_digit (format_space uni_digit) v) as [dt2|e2];
      cbn [bind try_except]; [|left; reflexivity].
    destruct (minus_9_hours dt2) as [u2|e']; cbn [bind try_except];
      [right; eauto | left; reflexivity].
  - destruct (strptime uni_digit (format_space uni_digit) v) as [dt2|e2];
      cbn [bind try_except]; [|left; reflexivity].
    destruct (minus_9_hours dt2) as [u2|e']; cbn [bind try_except];
      [right; eauto | left; reflexivity].
Qed.

(** X16.  [add_timezone_to_datetime] shifts a date once only.  The text it
    writes ends in "+09:00", which neither format reads, so a converted
    date handed to the function again comes back as it is: on every
    value, applying the function twice gives what applying it once
    gives. *)
Theorem add_timezone_to_datetime_twice (uni_digit : char -> option N) (v : pyval) :
  add_timezone_to_datetime uni_digit (add_timezone_to_datetime uni_digit v)
  = add_timezone_to_datetime uni_digit v
  /\ forall dt, add_timezone_to_datetime uni_digit (PStr (strftime dt)) = PStr (strftime dt).
Proof.
  split; [|apply converted_text_is_final].
  destruct (add_timezone_result uni_digit v) as [H | [dt H]].
  - rewrite H. exact H.
  - rewrite H. apply converted_text_is_final.
Qed.

Lemma digit_is_date_char (uni_digit : char -> option N) (c : char) :
  is_digit c = true -> date_char uni_digit c = true.
Proof. intro H. unfold date_char, digit_value. rewrite H. reflexivity. Qed.

Lemma range_is_date_char (uni_digit : char -> option N) (a b c : char) :
  (48 <=? a)%N = true -> (b <=? 57)%N = true ->
  (a <=? c)%N && (c <=? b)%N = true -> date_char uni_digit c = true.
Proof.
  intros Ha Hb H. apply andb_true_iff in H. destruct H as [H1 H2].
  apply N.leb_le in Ha, Hb, H1, H2. apply digit_is_date_char.
  unfold is_digit. apply andb_true_iff. split; apply N.leb_le; lia.
Qed.

Ltac date_class H :=
  first
    [ refine (range_is_date_char _ _ _ _ _ _ H); reflexivity
    | apply chr_eqb_eq in H; subst; reflexivity
    | unfold date_char; rewrite H; rewrite ?orb_true_r; reflexivity
    | unfold date_char;
      apply orb_true_iff in H; destruct H as [H | H]; apply N.eqb_eq in H; subst; reflexivity ].

Lemma may_read_date_char (uni_digit : char -> option N) (c : char) :
  may_read (format_T uni_digit) c = true \/ may_read (format_space uni_digit) c = true ->
  date_char uni_digit c = true.
Proof.
  unfold format_T, format_space, format_regex, re_Y, re_m, re_d, re_H, re_M, re_S,
    d_, range, lit, Re.just.
  cbn [may_read]. intros [H | H];
    repeat match goal with
           | X : _ || _ = true |- _ => apply orb_true_iff in X; destruct X as [X | X]
           end;
    date_class H.
Qed.

(** X17.  Only plain date texts are converted.  A text that holds any
    character other than decimal digits, "-", ":", "T", "t" and white
    space (a fraction of a second, a "Z", an offset such as "+09:00")
    is read by neither format and comes back unchanged. *)
Theorem other_date_texts_are_left_unchanged
    (uni_digit : char -> option N) (s : str) (c : char) :
  In c s -> date_char uni_digit c = false ->
  add_timezone_to_datetime uni_digit (PStr s) = PStr s.
Proof.
  intros Hc Hno.
  assert (HT : may_read (format_T uni_digit) c = false).
  { destruct (may_read (format_T uni_digit) c) eqn:E; [|reflexivity].
    rewrite (may_read_date_char uni_digit c (or_introl E)) in Hno. discriminate. }
  assert (HS : may_read (format_space uni_digit) c = false).
  { destruct (may_read (format_space uni_digit) c) eqn:E; [|reflexivity].
    rewrite (may_read_date_char uni_digit c (or_intror E)) in Hno. discriminate. }
  unfold add_timezone_to_datetime.
  rewrite (strptime_unreadable uni_digit _ s c Hc HT),
          (strptime_unreadable uni_digit _ s c Hc HS).
  reflexivity.
Qed.

(** A date with a fraction of a second. *)
Lemma other_date_texts_are_left_unchanged_witness :
  add_timezone_to_datetime ascii_digits (PStr (u "2024-03-01T08:30:15.250"))
  = PStr (u "2024-03-01T08:30:15.250").
Proof.
  apply (other_date_texts_are_left_unchanged ascii_digits
           (u "2024-03-01T08:30:15.250") 46%N).
  - vm_compute. tauto.
  - reflexivity.
Defined.

(* ================================================================== *)
(** * What [clean_filename] returns *)
(* ================================================================== *)

Lemma clean_filename_steps (alnum : Re.cls) (c : char) (t : str) :
  clean_filename alnum (c :: t)
  = let collapsed := collapse_runs false (filter (kept_char alnum) (c :: t)) in
    if str_contains 46 collapsed then collapsed else collapsed ++ u ".jpg".
Proof.
  unfold clean_filename. rewrite sub_chr, sub_plus_collapses.
  rewrite (filter_ext _ (kept_char alnum)) by (intro x; apply negb_involutive).
  cbv zeta. destruct (str_contains 46 _); reflexivity.
Qed.

Lemma collapse_runs_tidy (s : str) :
  (forall b, tidy b (collapse_runs true s) = true)
  /\ tidy false (collapse_runs false s) = true.
Proof.
  induction s as [|c s [IHt IHf]]; [split; intros; reflexivity|].
  cbn [collapse_runs]. destruct (dot_or_hyphen c) eqn:E.
  - split; [exact IHt|]. cbn [tidy]. rewrite (IHt true). reflexivity.
  - split; [intro b|]; cbn [tidy]; rewrite E; exact IHf.
Qed.

Lemma collapse_runs_kept (alnum : Re.cls) (s : str) :
  forall b, forallb (kept_char alnum) s = true ->
    forallb (kept_char alnum) (collapse_runs b s) = true.
Proof.
  induction s as [|c s IH]; intros b H; [reflexivity|].
  cbn [forallb] in H. apply andb_true_iff in H. destruct H as [Hc H].
  cbn [collapse_runs]. destruct (dot_or_hyphen c).
  - destruct b; [apply IH; exact H|]. cbn [forallb]. rewrite (IH true H).
    unfold kept_char. rewrite orb_true_r. reflexivity.
  - cbn [forallb]. rewrite Hc. apply IH. exact H.
Qed.

Lemma forallb_filter {A} (p : A -> bool) (l : list A) : forallb p (filter p l) = true.
Proof.
  induction l as [|a l IH]; [reflexivity|]. cbn [filter].
  destruct (p a) eqn:E; [cbn [forallb]; rewrite E; exact IH | exact IH].
Qed.

Lemma filter_all {A} (p : A -> bool) (l : list A) : forallb p l = true -> filter p l = l.
Proof.
  induction l as [|a l IH]; [reflexivity|]. cbn [forallb filter]. intro H.
  apply andb_true_iff in H. destruct H as [-> H]. f_equal. apply IH. exact H.
Qed.

Lemma tidy_collapse (s : str) : forall b, tidy b s = true -> collapse_runs b s = s.
Proof.
  induction s as [|c s IH]; intros b H; [reflexivity|].
  cbn [tidy collapse_runs] in *. destruct (dot_or_hyphen c).
  - apply andb_true_iff in H. destruct H as [H Ht].
    apply andb_true_iff in H. destruct H as [Hc Hb].
    apply chr_eqb_eq in Hc. subst c. apply negb_true_iff in Hb. subst b.
    f_equal. apply IH. exact Ht.
  - f_equal. apply IH. exact H.
Qed.

Lemma tidy_no_hyphen (s : str) : forall b, tidy b s = true -> str_contains 45 s = false.
Proof.
  induction s as [|c s IH]; intros b H; [reflexivity|].
  cbn [tidy str_contains existsb] in *. destruct (dot_or_hyphen c) eqn:E.
  - apply andb_true_iff in H. destruct H as [H Ht].
    apply andb_true_iff in H. destruct H as [Hc _].
    apply chr_eqb_eq in Hc. subst c. cbn [chr_eqb N.eqb Pos.eqb orb].
    apply (IH true Ht).
  - assert (chr_eqb 45 c = false) as ->.
    { destruct (chr_eqb 45 c) eqn:E'; [|reflexivity].
      apply chr_eqb_eq in E'. subst c. discriminate. }
    apply (IH false H).
Qed.

Lemma tidy_no_two_dots (s : str) : forall b, tidy b s = true -> contains (u "..") s = false.
Proof.
  induction s as [|c s IH]; intros b H; [reflexivity|].
  cbn [contains]. apply orb_false_iff. split.
  - change (startswith (c :: s) (u ".."))
      with (chr_eqb 46 c && startswith s [46%N]).
    destruct (chr_eqb 46 c) eqn:E; [|reflexivity]. apply chr_eqb_eq in E. subst c.
    cbn [tidy dot_or_hyphen N.eqb Pos.eqb orb andb chr_eqb] in H.
    apply andb_true_iff in H. destruct H as [_ H].
    destruct s as [|d s]; [reflexivity|]. cbn [startswith andb].
    rewrite startswith_nil, andb_true_r.
    destruct (chr_eqb 46 d) eqn:E; [|reflexivity]. apply chr_eqb_eq in E. subst d.
    cbn in H. discriminate.
  - cbn [tidy] in H. destruct (dot_or_hyphen c).
    + apply andb_true_iff in H. destruct H as [_ H]. apply (IH true H).
    + apply (IH false H).
Qed.

Lemma tidy_append_jpg (s : str) :
  tidy false s = true -> str_contains 46 s = false -> tidy false (s ++ u ".jpg") = true.
Proof.
  induction s as [|c s IH]; intros H Hdot; [reflexivity|].
  cbn [str_contains existsb] in Hdot. apply orb_false_iff in Hdot.
  destruct Hdot as [Hc Hdot]. cbn [app tidy] in *.
  destruct (dot_or_hyphen c).
  - apply andb_true_iff in H. destruct H as [H _].
    apply andb_true_iff in H. destruct H as [H _].
    apply chr_eqb_eq in H. subst c. discriminate.
  - apply IH; assumption.
Qed.

Lemma clean_filename_shape (alnum : Re.cls) (filename : str) :
  filename <> [] ->
  let r := clean_filename alnum filename in
  forallb (kept_char alnum) r = true /\ tidy false r = true /\ str_contains 46 r = true.
Proof.
  intro Hne. destruct filename as [|c t]; [congruence|].
  rewrite clean_filename_steps. cbv zeta.
  set (collapsed := collapse_runs false (filter (kept_char alnum) (c :: t))).
  assert (Hk : forallb (kept_char alnum) collapsed = true).
  { apply collapse_runs_kept, forallb_filter. }
  assert (Ht : tidy false collapsed = true) by apply collapse_runs_tidy.
  destruct (str_contains 46 collapsed) eqn:E.
  - auto.
  - split; [|split].
    + rewrite forallb_app, Hk. reflexivity.
    + apply tidy_append_jpg; assumption.
    + unfold str_contains. rewrite existsb_app. apply orb_true_iff. right. reflexivity.
Qed.

(** X18.  The names [clean_filename] returns.  For a non-empty name the result
    consists of word characters, Hangul syllables and dots only: it holds
    no hyphen, never two dots in a row, and at least one dot (a name left
    with nothing but ".jpg" when every character was removed).  The empty
    name is returned as it is. *)
Theorem clean_filename_result (alnum : Re.cls) (filename : str) :
  let r := clean_filename alnum filename in
  forallb (kept_char alnum) r = true
  /\ str_contains 45 r = false
  /\ contains (u "..") r = false
  /\ (filename <> [] -> str_contains 46 r = true)
  /\ (filename = [] -> r = []).
Proof.
  destruct filename as [|c t].
  - cbv zeta. repeat split; congruence.
  - destruct (clean_filename_shape alnum (c :: t)) as (Hk & Ht & Hd); [discriminate|].
    cbv zeta. split; [exact Hk|]. split; [exact (tidy_no_hyphen _ _ Ht)|].
    split; [exact (tidy_no_two_dots _ _ Ht)|]. split; [intros _; exact Hd | discriminate].
Qed.

(** X19.  [clean_filename] is idempotent: a cleaned name is cleaned to
    itself. *)
Theorem clean_filename_twice (alnum : Re.cls) (filename : str) :
  clean_filename alnum (clean_filename alnum filename) = clean_filename alnum filename.
Proof.
  destruct filename as [|c t]; [reflexivity|].
  destruct (clean_filename_shape alnum (c :: t)) as (Hk & Ht & Hd); [discriminate|].
  cbv zeta in Hk, Ht, Hd.
  destruct (clean_filename alnum (c :: t)) as [|x r] eqn:E; [reflexivity|].
  rewrite clean_filename_steps. cbv zeta.
  rewrite (filter_all _ _ Hk), (tidy_collapse _ _ Ht), Hd. reflexivity.
Qed.

Example name_of_removed_characters_only :
  clean_filename ascii_only (u "(!)") = u ".jpg"
  /\ clean_filename ascii_only (u "a--b..c") = u "a.b.c"
  /\ clean_filename ascii_only (u "scan 01") = u "scan01.jpg".
Proof. repeat split; vm_compute; reflexivity. Qed.

(* ================================================================== *)
(** * Names that begin with a number *)
(* ================================================================== *)

Section RunThenChar.

Variable p : Re.cls.
Variable B : Type.
Variable g : str -> list B.
Hypothesis g_skips : forall y t, p y = true -> g (y :: t) = [].

Lemma longest_run_only (t : str) :
  flat_map g (rev (Re.lazy_rests p t)) = g (drop_run p t).
Proof.
  induction t as [|y t IH]; [cbn; apply app_nil_r|].
  cbn [Re.lazy_rests rev drop_run]. rewrite flat_map_app. cbn [flat_map].
  rewrite app_nil_r. destruct (p y) eqn:E.
  - rewrite IH, (g_skips y t E), app_nil_r. reflexivity.
  - reflexivity.
Qed.

Lemma greedy_longest_only (s : str) :
  flat_map g (Re.greedy_rests p s)
  = match take_run p s with
    | [] => []
    | _ => g (drop_run p s)
    end.
Proof.
  unfold Re.greedy_rests. destruct s as [|c t]; [reflexivity|].
  cbn [Re.lazy_rests tl take_run drop_run]. destruct (p c).
  - apply longest_run_only.
  - reflexivity.
Qed.

End RunThenChar.

Lemma decimal_not_underscore (uni_digit : char -> option N) (y : char) :
  decimal uni_digit y = true -> chr_eqb y 95 = false.
Proof.
  intro H. destruct (chr_eqb y 95) eqn:E; [|reflexivity].
  apply chr_eqb_eq in E. subst y. discriminate.
Qed.

Lemma match_leading_number (uni_digit : char -> option N) (s : str) :
  Re.match_prefix (leading_number uni_digit) s
  = match take_run (decimal uni_digit) s, drop_run (decimal uni_digit) s with
    | _ :: _, x :: rest =>
        if chr_eqb x 95 then Some ([(1, take_run (decimal uni_digit) s)], rest) else None
    | _, _ => None
    end.
Proof.
  unfold Re.match_prefix, leading_number. rewrite exec_seq.
  cbn [Re.exec]. rewrite !flat_map_concat_map, !map_map, <- flat_map_concat_map.
  cbn [fst snd].
  rewrite (greedy_longest_only (decimal uni_digit) _
             (fun t => match t with
                       | c :: t0 =>
                           if Re.just 95 c
                           then [((1, firstn (length s - length t) s) :: [], t0)]
                           else []
                       | [] => []
                       end)).
  2:{ intros y t Hy. unfold Re.just. rewrite (decimal_not_underscore _ _ Hy). reflexivity. }
  rewrite take_run_firstn.
  destruct (take_run (decimal uni_digit) s) as [|d ds]; [reflexivity|].
  destruct (drop_run (decimal uni_digit) s) as [|x rest]; [reflexivity|].
  unfold Re.just. destruct (chr_eqb x 95); reflexivity.
Qed.

(** X20.  A source file is matched by the whole number in front of its name.
    A blob is among the matching files exactly when the last segment of
    its name starts with a run of digits followed by an underscore and
    that run, taken whole, is one of the manifest's [src_idx] texts:
    "12_x.json" is matched for 12, never for 1.  The matches keep the
    order of the listing. *)
Theorem source_files_are_matched_by_number
    (uni_digit : char -> option N) (csv_src_indices blobs : list str) :
  matching_files uni_digit csv_src_indices blobs
  = flat_map
      (fun blob =>
         let filename := after_last_slash blob in
         let number := take_run (decimal uni_digit) filename in
         if negb (str_eqb number [])
            && startswith (drop_run (decimal uni_digit) filename) [95%N]
            && existsb (str_eqb number) csv_src_indices
         then [(blob, number, filename)]
         else [])
      blobs.
Proof.
  unfold matching_files. apply flat_map_ext. intro blob. cbv zeta.
  rewrite match_leading_number.
  destruct (take_run (decimal uni_digit) (after_last_slash blob)) as [|d ds] eqn:Et;
    [reflexivity|].
  destruct (drop_run (decimal uni_digit) (after_last_slash blob)) as [|x rest];
    [reflexivity|].
  cbn [str_eqb negb andb startswith]. rewrite startswith_nil, andb_true_r.
  assert (chr_eqb 95 x = chr_eqb x 95) as -> by (unfold chr_eqb; apply N.eqb_sym).
  destruct (chr_eqb x 95); reflexivity.
Qed.

Example files_matched_for_item_12 :
  matching_files ascii_digits [u "1"; u "12"]
    [u "src/12_page.json"; u "src/120_page.json"; u "src/1x_page.json"; u "src/1_a/b.json"]
  = [(u "src/12_page.json", u "12", u "12_page.json")].
Proof. vm_compute. reflexivity. Qed.

(** X21.  The number in front of the source directory's name.  The output file
    name drops one leading "<digits>_" of the directory name and no more:
    a name made of digits, an underscore and a rest is cut down to the
    rest, even when the rest begins with a number again; a name that does
    not begin with a digit is left as it is. *)
Theorem strip_leading_number_once (uni_digit : char -> option N) (digits rest : str) :
  digits <> [] -> forallb (decimal uni_digit) digits = true ->
  strip_leading_number uni_digit (digits ++ 95%N :: rest) = rest
  /\ (forall name,
        match name with c :: _ => decimal uni_digit c = false | [] => True end ->
        strip_leading_number uni_digit name = name).
Proof.
  intros Hne Hd. split.
  - unfold strip_leading_number. rewrite match_leading_number.
    destruct (take_run_prefix (decimal uni_digit) digits (95%N :: rest) Hd eq_refl)
      as [-> ->].
    destruct digits; [congruence | reflexivity].
  - intros name Hname. unfold strip_leading_number. rewrite match_leading_number.
    destruct name as [|c t]; [reflexivity|]. cbn [take_run]. rewrite Hname. reflexivity.
Qed.

(** The directory "9_4_magazines" gives "4_magazines". *)
Lemma strip_leading_number_once_witness :
  strip_leading_number ascii_digits (u "9" ++ 95%N :: u "4_magazines") = u "4_magazines"
  /\ (forall name,
        match name with c :: _ => decimal ascii_digits c = false | [] => True end ->
        strip_leading_number ascii_digits name = name).
Proof.
  apply (strip_leading_number_once ascii_digits (u "9") (u "4_magazines")).
  - discriminate.
  - reflexivity.
Defined.

(* ================================================================== *)
(** * File names read from source files *)
(* ================================================================== *)

Lemma clean_filename_clean (alnum : Re.cls) (s : str) :
  clean_name alnum (clean_filename alnum s).
Proof.
  destruct s as [|c t]; [repeat split|].
  destruct (clean_filename_shape alnum (c :: t)) as (Hk & Ht & _); [discriminate|].
  split; [exact Hk|]. split; [exact (tidy_no_hyphen _ _ Ht) | exact (tidy_no_two_dots _ _ Ht)].
Qed.

(** X22.  What [extract_filename_from_source_file] can return.  Whatever the
    bucket holds and whatever goes wrong on the way, the function returns
    a text, without raising: the empty text, or a name [clean_filename]
    has cleaned (word characters, Hangul syllables and single dots).  It
    returns the empty text when the listing fails or is empty, when the
    download fails, when [json.loads] raises anything but
    [JSONDecodeError], and when the document is an object that has
    neither name. *)
Theorem source_file_name_is_empty_or_clean
    (alnum : Re.cls) (json_loads : str -> result pyval)
    (blobs : result (list (result str))) :
  clean_name alnum (extract_filename_from_source_file alnum json_loads blobs)
  /\ (forall e, extract_filename_from_source_file alnum json_loads (Raise e) = [])
  /\ extract_filename_from_source_file alnum json_loads (Ok []) = []
  /\ (forall e others,
        extract_filename_from_source_file alnum json_loads (Ok (Raise e :: others)) = [])
  /\ (forall content others e,
        json_loads content = Raise e -> e <> JSONDecodeError ->
        extract_filename_from_source_file alnum json_loads (Ok (Ok content :: others)) = [])
  /\ (forall content others d,
        json_loads content = Ok (PDict d) ->
        lookup (u "file_name") d = None -> lookup (u "filename") d = None ->
        extract_filename_from_source_file alnum json_loads (Ok (Ok content :: others)) = []).
Proof.
  split.
  - unfold extract_filename_from_source_file.
    destruct blobs as [[|[content|e] others]|e]; cbn [bind try_except];
      try (repeat split; fail).
    destruct (json_loads content) as [data|e].
    + destruct (py_get data (u "file_name") (PStr [])) as [first|e];
        cbn [bind try_except]; [|repeat split].
      destruct (if truthy first then Ok first else py_get data (u "filename") (PStr []))
        as [filename|e]; cbn [bind try_except]; [|repeat split].
      destruct (truthy filename); [|repeat split].
      destruct filename; cbn [clean_filename_of try_except]; try (repeat split; fail).
      apply clean_filename_clean.
    + destruct e; cbn [try_except]; try (repeat split; fail).
      destruct (match search _ content with Some caps => Some caps | None => _ end)
        as [caps|]; cbn [try_except]; [apply clean_filename_clean | repeat split].
  - repeat split; try reflexivity.
    + intros content others e He Hne. unfold extract_filename_from_source_file.
      cbn [bind]. rewrite He. destruct e; try reflexivity. congruence.
    + intros content others d Hd H1 H2. unfold extract_filename_from_source_file.
      cbn [bind]. rewrite Hd. cbn [py_get bind]. rewrite H1, H2. reflexivity.
Qed.

(** X23.  The two scripts read the name keys in opposite order.  For a source
    document that is an object holding a non-empty string [a] under
    "file_name" and a string [b] under "filename",
    [extract_filename_from_source_file] returns [a] cleaned, while
    [download_and_extract_data] stores [b], without the double quotes
    around it if it has them, cleaned. *)
Theorem name_keys_are_read_in_opposite_order
    (alnum : Re.cls) (json_loads : str -> result pyval)
    (content filename a b : str) (d : list (str * pyval))
    (others : list (result str)) :
  json_loads content = Ok (PDict d) ->
  lookup (u "file_name") d = Some (PStr a) -> a <> [] ->
  lookup (u "filename") d = Some (PStr b) ->
  extract_filename_from_source_file alnum json_loads (Ok (Ok content :: others))
  = clean_filename alnum a
  /\ download_and_extract_data alnum json_loads (Ok content) filename
     = Some (clean_filename alnum
               (if startswith b [34%N] && endswith b [34%N] then strip_ends b else b)).
Proof.
  intros Hd Ha Hne Hb. split.
  - unfold extract_filename_from_source_file. cbn [bind]. rewrite Hd.
    cbn [py_get bind]. rewrite Ha.
    destruct a as [|c a']; [congruence|]. reflexivity.
  - unfold download_and_extract_data. rewrite Hd. cbn [py_get bind]. rewrite Ha, Hb.
    reflexivity.
Qed.

Lemma name_keys_are_read_in_opposite_order_witness :
  extract_filename_from_source_file ascii_only sample_loads (Ok [Ok both_keys])
  = clean_filename ascii_only (u "new-name.jpg")
  /\ download_and_extract_data ascii_only sample_loads (Ok both_keys) (u "7_scan.json")
     = Some (clean_filename ascii_only
               (if startswith (u "old name.jpg") [34%N] && endswith (u "old name.jpg") [34%N]
                then strip_ends (u "old name.jpg") else u "old name.jpg")).
Proof.
  apply (name_keys_are_read_in_opposite_order ascii_only sample_loads both_keys
           (u "7_scan.json") (u "new-name.jpg") (u "old name.jpg")
           [(u "file_name", PStr (u "new-name.jpg")); (u "filename", PStr (u "old name.jpg"))]
           []).
  - reflexivity.
  - reflexivity.
  - discriminate.
  - reflexivity.
Defined.

(** X24.  What [download_and_extract_data] stores.  When [json.loads]
    raises [JSONDecodeError] (the blob's text is not JSON), the blob's
    own file name is stored as it is, uncleaned; when it raises anything
    else, nothing is stored.  When the text is a JSON object, a cleaned
    name is stored: the string under "filename", else the string under
    "file_name", else (no such key, or a value that is no string) the
    blob's file name.  Nothing is stored when the download fails or the
    document is no object. *)
Theorem stored_source_name
    (alnum : Re.cls) (json_loads : str -> result pyval) (filename : str) :
  (forall content,
      json_loads content = Raise JSONDecodeError ->
      download_and_extract_data alnum json_loads (Ok content) filename = Some filename)
  /\ (forall content e,
        json_loads content = Raise e -> e <> JSONDecodeError ->
        download_and_extract_data alnum json_loads (Ok content) filename = None)
  /\ (forall content d,
        json_loads content = Ok (PDict d) ->
        exists name,
          download_and_extract_data alnum json_loads (Ok content) filename = Some name
          /\ clean_name alnum name)
  /\ (forall content d,
        json_loads content = Ok (PDict d) ->
        download_and_extract_data alnum json_loads (Ok content) filename
        = Some (clean_filename alnum
                  (let file_name :=
                     match lookup (u "filename") d with
                     | Some (PStr s) => s
                     | Some _ => filename
                     | None =>
                         match lookup (u "file_name") d with
                         | Some (PStr s) => s
                         | _ => filename
                         end
                     end in
                   if startswith file_name [34%N] && endswith file_name [34%N]
                   then strip_ends file_name else file_name)))
  /\ (forall e, download_and_extract_data alnum json_loads (Raise e) filename = None)
  /\ (forall content data,
        json_loads content = Ok data ->
        match data with PDict _ => False | _ => True end ->
        download_and_extract_data alnum json_loads (Ok content) filename = None).
Proof.
  split; [|split; [|split; [|split; [|split]]]].
  - intros content H. unfold download_and_extract_data. rewrite H. reflexivity.
  - intros content e H He. unfold download_and_extract_data. rewrite H.
    destruct e; try reflexivity. congruence.
  - intros content d H. unfold download_and_extract_data. rewrite H.
    cbn [py_get bind]. eexists. split; [reflexivity | apply clean_filename_clean].
  - intros content d H. unfold download_and_extract_data. rewrite H.
    cbn [py_get bind]. cbv zeta.
    destruct (lookup (u "filename") d) as [v|].
    + destruct v; reflexivity.
    + destruct (lookup (u "file_name") d) as [v|]; [destruct v|]; reflexivity.
  - reflexivity.
  - intros content data H Hd. unfold download_and_extract_data. rewrite H.
    destruct data; try reflexivity. contradiction.
Qed.

(** A text that is not JSON, and a document nested too deep for the
    parser. *)
Example not_json_and_too_deep :
  download_and_extract_data ascii_only (fun _ => Raise JSONDecodeError)
    (Ok (u "plain text")) (u "7_scan.json") = Some (u "7_scan.json")
  /\ download_and_extract_data ascii_only (fun _ => Raise RecursionError)
       (Ok (u "[[[[")) (u "7_scan.json") = None
  /\ extract_filename_from_source_file ascii_only (fun _ => Raise RecursionError)
       (Ok [Ok (dq ++ u "file_name" ++ dq ++ u ":" ++ dq ++ u "a.jpg" ++ dq)]) = [].
Proof. repeat split. Qed.

Example fallback_reads_compact_text_only :
  extract_filename_from_source_file ascii_only plain_names
    (Ok [Ok (u "{" ++ dq ++ u "file_name" ++ dq ++ u ":" ++ dq ++ u "a b.jpg" ++ dq)])
  = u "ab.jpg"
  /\ extract_filename_from_source_file ascii_only plain_names
       (Ok [Ok (u "{" ++ dq ++ u "file_name" ++ dq ++ u ": " ++ dq ++ u "a b.jpg" ++ dq)])
     = [].
Proof. split; vm_compute; reflexivity. Qed.

(* ================================================================== *)
(** * Sorting by the image order *)
(* ================================================================== *)

Section SortedFacts.

Variable A : Type.
Variable le : A -> A -> bool.
Hypothesis le_total : forall x y, le x y = false -> le y x = true.
Hypothesis le_trans : forall x y z, le x y = true -> le y z = true -> le x z = true.

Lemma insert_sorted_perm (x : A) (l : list A) : Permutation (x :: l) (insert_sorted le x l).
Proof.
  induction l as [|y l IH]; cbn [insert_sorted]; [apply Permutation_refl|].
  destruct (le x y); [apply Permutation_refl|].
  eapply Permutation_trans; [apply perm_swap|]. apply perm_skip. exact IH.
Qed.

Lemma py_sorted_perm (l : list A) : Permutation l (py_sorted le l).
Proof.
  induction l as [|x l IH]; [apply Permutation_refl|].
  cbn [py_sorted fold_right]. eapply Permutation_trans; [|apply insert_sorted_perm].
  apply perm_skip. exact IH.
Qed.

Lemma insert_sorted_sorted (x : A) (l : list A) :
  StronglySorted (fun a b => le a b = true) l ->
  StronglySorted (fun a b => le a b = true) (insert_sorted le x l).
Proof.
  induction l as [|y l IH]; intro H; cbn [insert_sorted].
  - constructor; constructor.
  - inversion H as [|? ? Hs Hf]; subst. destruct (le x y) eqn:E.
    + constructor; [exact H|]. constructor; [exact E|].
      eapply Forall_impl; [|exact Hf]. intros z Hz. exact (le_trans _ _ _ E Hz).
    + constructor; [apply IH; exact Hs|].
      apply (Permutation_Forall (insert_sorted_perm x l)).
      constructor; [exact (le_total _ _ E) | exact Hf].
Qed.

Lemma py_sorted_sorted (l : list A) :
  StronglySorted (fun a b => le a b = true) (py_sorted le l).
Proof.
  induction l as [|x l IH]; [constructor|].
  cbn [py_sorted fold_right]. apply insert_sorted_sorted. exact IH.
Qed.

Lemma sorted_precedes (l : list A) (a b : A) :
  StronglySorted (fun a b => le a b = true) l -> precedes l a b -> le a b = true.
Proof.
  intros H (l1 & l2 & l3 & ->).
  induction l1 as [|x l1 IH]; cbn [app] in H; inversion H as [|? ? Hs Hf]; subst.
  - rewrite Forall_forall in Hf. apply Hf. apply in_or_app. right. left. reflexivity.
  - apply IH. exact Hs.
Qed.

End SortedFacts.

Lemma index_of_bound (x : str) (l : list str) (i : nat) :
  index_of x l = Some i -> i < length l /\ nth_error l i = Some x.
Proof.
  revert i. induction l as [|y l IH]; intros i H; [discriminate|].
  cbn [index_of] in H. destruct (str_eqb y x) eqn:E.
  - injection H as <-. apply str_eqb_eq in E. subst y. cbn. split; [lia | reflexivity].
  - destruct (index_of x l) as [j|]; [|discriminate]. injection H as <-.
    destruct (IH j eq_refl) as [Hj Hn]. cbn. split; [lia | exact Hn].
Qed.

Lemma index_of_in (x : str) (l : list str) :
  In x l <-> exists i, index_of x l = Some i.
Proof.
  split.
  - induction l as [|y l IH]; [contradiction|]. intros [-> | H]; cbn [index_of].
    + rewrite str_eqb_refl. eauto.
    + destruct (str_eqb y x); [eauto|]. destruct (IH H) as [i ->]. eauto.
  - intros [i H]. apply index_of_bound in H. destruct H as [_ H].
    exact (nth_error_In _ _ H).
Qed.

(** X25.  [sort_filenames_by_order] with a non-empty image order.  The result
    holds the same names as the argument, each as often; a name of the
    image order stands before every name that is not in it; and two names
    of the image order stand as in the image order (by first
    occurrence).  Where the names outside the order go among themselves
    depends on [hash]. *)
Theorem names_of_the_image_order_come_first
    (hash : str -> Z) (sort_order filenames : list str) :
  sort_order <> [] ->
  let sorted := sort_filenames_by_order hash sort_order filenames in
  Permutation filenames sorted
  /\ (forall a b, In a sort_order -> ~ In b sort_order -> ~ precedes sorted b a)
  /\ (forall a b i j,
        index_of a sort_order = Some i -> index_of b sort_order = Some j ->
        i < j -> ~ precedes sorted b a).
Proof.
  intros Hne sorted.
  assert (Hs : sorted = py_sorted (fun a b => get_sort_key hash sort_order a
                                              <=? get_sort_key hash sort_order b)%Z
                          filenames).
  { unfold sorted, sort_filenames_by_order. destruct sort_order; [congruence | reflexivity]. }
  assert (Hord : forall a b, precedes sorted a b ->
                   (get_sort_key hash sort_order a <= get_sort_key hash sort_order b)%Z).
  { intros a b H. apply Z.leb_le.
    apply (sorted_precedes _ (fun a b => get_sort_key hash sort_order a
                                         <=? get_sort_key hash sort_order b)%Z sorted a b);
      [|exact H].
    rewrite Hs. apply py_sorted_sorted.
    - intros x y E. apply Z.leb_gt in E. apply Z.leb_le. lia.
    - intros x y z E1 E2. apply Z.leb_le in E1, E2. apply Z.leb_le. lia. }
  split; [rewrite Hs; apply py_sorted_perm|]. split.
  - intros a b Ha Hb Hp. apply Hord in Hp. unfold get_sort_key in Hp.
    apply index_of_in in Ha. destruct Ha as [i Hi]. rewrite Hi in Hp.
    destruct (index_of b sort_order) as [j|] eqn:Hj.
    { apply Hb. apply index_of_in. eauto. }
    apply index_of_bound in Hi. destruct Hi as [Hi _].
    pose proof (Z.mod_pos_bound (hash b) 1000 eq_refl). lia.
  - intros a b i j Hi Hj Hij Hp. apply Hord in Hp. unfold get_sort_key in Hp.
    rewrite Hi, Hj in Hp. lia.
Qed.

Lemma names_of_the_image_order_come_first_witness :
  let sorted := sort_filenames_by_order (fun _ => 0%Z) [u "p2.jpg"; u "p1.jpg"]
                  [u "x.jpg"; u "p1.jpg"; u "p2.jpg"] in
  Permutation [u "x.jpg"; u "p1.jpg"; u "p2.jpg"] sorted
  /\ (forall a b, In a [u "p2.jpg"; u "p1.jpg"] -> ~ In b [u "p2.jpg"; u "p1.jpg"] ->
        ~ precedes sorted b a)
  /\ (forall a b i j,
        index_of a [u "p2.jpg"; u "p1.jpg"] = Some i ->
        index_of b [u "p2.jpg"; u "p1.jpg"] = Some j ->
        i < j -> ~ precedes sorted b a).
Proof.
  apply (names_of_the_image_order_come_first (fun _ => 0%Z) [u "p2.jpg"; u "p1.jpg"]
           [u "x.jpg"; u "p1.jpg"; u "p2.jpg"]).
  discriminate.
Defined.

Example sorted_by_image_order :
  sort_filenames_by_order (fun _ => 0%Z) [u "p2.jpg"; u "p1.jpg"]
    [u "x.jpg"; u "p1.jpg"; u "p2.jpg"]
  = [u "p2.jpg"; u "p1.jpg"; u "x.jpg"].
Proof. vm_compute. reflexivity. Qed.

(** X26.  The sort key of a manifest row.  A row whose file name (the text
    before the first comma, blanks around it dropped) is in the image
    order gets its position there; a row with another name gets a key from
    the length of the order up to 999 more; a row without a file name gets
    the length plus 1000.  So a sort by this key puts the rows of the
    image order first, in that order, and the rows without a name behind
    all the others. *)
Theorem rows_without_a_name_sort_last
    (hash : str -> Z) (sort_order : list str) (file_name : str) :
  let key := get_sort_key_for_row hash sort_order in
  let n := Z.of_nat (length sort_order) in
  key [] = (n + 1000)%Z
  /\ (file_name <> [] -> (0 <= key file_name < n + 1000)%Z)
  /\ (file_name <> [] ->
      forall i, index_of (strip (before_comma file_name)) sort_order = Some i ->
        key file_name = Z.of_nat i /\ (key file_name < n)%Z)
  /\ (file_name <> [] ->
      index_of (strip (before_comma file_name)) sort_order = None ->
      (n <= key file_name)%Z).
Proof.
  intros key n. split; [reflexivity|].
  assert (Hk : file_name <> [] ->
               key file_name
               = match index_of (strip (before_comma file_name)) sort_order with
                 | Some i => Z.of_nat i
                 | None => (n + hash (strip (before_comma file_name)) mod 1000)%Z
                 end).
  { intro H. unfold key, get_sort_key_for_row. destruct file_name; [congruence | reflexivity]. }
  pose proof (Z.mod_pos_bound (hash (strip (before_comma file_name))) 1000 eq_refl) as Hm.
  split; [|split].
  - intro Hne. rewrite (Hk Hne).
    destruct (index_of (strip (before_comma file_name)) sort_order) as [j|] eqn:Hj.
    + apply index_of_bound in Hj. unfold n. lia.
    + lia.
  - intros Hne i Hi. rewrite (Hk Hne), Hi. apply index_of_bound in Hi. unfold n. lia.
  - intros Hne Hi. rewrite (Hk Hne), Hi. lia.
Qed.

Lemma str_leb_total (x y : str) : str_leb x y = false -> str_leb y x = true.
Proof.
  revert y. induction x as [|a x IH]; intros [|b y] H; try discriminate; try reflexivity.
  cbn [str_leb] in *.
  destruct (a <? b)%N eqn:E1; [discriminate|].
  destruct (b <? a)%N eqn:E2; [reflexivity|]. apply IH. exact H.
Qed.

Lemma str_leb_trans (x y z : str) :
  str_leb x y = true -> str_leb y z = true -> str_leb x z = true.
Proof.
  revert y z. induction x as [|a x IH]; intros [|b y] [|c z] H1 H2;
    try discriminate; try reflexivity.
  cbn [str_leb] in *.
  destruct (a <? b)%N eqn:Eab; destruct (b <? c)%N eqn:Ebc;
    destruct (b <? a)%N eqn:Eba; destruct (c <? b)%N eqn:Ecb; try discriminate;
    rewrite ?N.ltb_lt, ?N.ltb_ge in *;
    destruct (a <? c)%N eqn:Eac; try reflexivity;
    destruct (c <? a)%N eqn:Eca; rewrite ?N.ltb_lt, ?N.ltb_ge in *; try lia.
  apply (IH y z H1 H2).
Qed.

(** X27.  [sort_filenames_by_order] without an image order: the names are
    returned in ascending order of their code points (a name before the
    names it is a prefix of), none lost and none added. *)
Theorem names_without_image_order_are_sorted (hash : str -> Z) (filenames : list str) :
  let sorted := sort_filenames_by_order hash [] filenames in
  Permutation filenames sorted
  /\ forall a b, precedes sorted a b -> str_leb a b = true.
Proof.
  intro sorted. split; [apply py_sorted_perm|].
  intros a b H.
  apply (sorted_precedes _ str_leb sorted a b); [|exact H].
  apply py_sorted_sorted; [exact str_leb_total | exact str_leb_trans].
Qed.

(* ================================================================== *)
(** * Records by type *)
(* ================================================================== *)

Lemma mapM_length {A B} (f : A -> result B) (l : list A) (r : list B) :
  mapM f l = Ok r -> length r = length l.
Proof.
  revert r. induction l as [|a l IH]; intros r H; cbn [mapM] in H.
  - injection H as <-. reflexivity.
  - apply bind_ok in H. destruct H as [b [_ H]].
    apply bind_ok in H. destruct H as [bs [Hbs H]].
    injection H as <-. cbn [length]. rewrite (IH bs Hbs). reflexivity.
Qed.

(** X28.  The type of a record decides where its points are read.  A record
    whose type is neither "BOX" nor "POLYGONS" (or that has none) yields
    no point, whatever else it holds.  A "POLYGONS" record is read from
    its [points] alone: without them it yields no point even if it holds
    corners or a box; with a non-empty list of them it yields one entry
    per point, in the order of the list.  Either way the record without
    points is dropped by both converters. *)
Theorem points_are_read_by_type (py_repr : pyval -> str) (d : list (str * pyval)) :
  let record_type := entry d (u "annotation") (PStr []) in
  (py_eq_str record_type (u "BOX") = false ->
   py_eq_str record_type (u "POLYGONS") = false ->
   annotation_points (PDict d) = Ok [])
  /\ (py_eq_str record_type (u "POLYGONS") = true ->
      truthy (entry d (u "points") (PList [])) = false ->
      annotation_points (PDict d) = Ok [])
  /\ (forall ps,
        py_eq_str record_type (u "POLYGONS") = true ->
        entry d (u "points") (PList []) = PList ps -> ps <> [] ->
        annotation_points (PDict d) = mapM point_text ps
        /\ forall pts, annotation_points (PDict d) = Ok pts -> length pts = length ps)
  /\ (annotation_points (PDict d) = Ok [] ->
      forall st key,
        V1128.annotation_step py_repr st (PDict d) = Ok st
        /\ V1212.annotation_step py_repr key st (PDict d) = Ok st).
Proof.
  intro record_type.
  assert (Hp : annotation_points (PDict d)
               = if py_eq_str record_type (u "BOX") then box_points (PDict d)
                 else if py_eq_str record_type (u "POLYGONS") then polygon_points (PDict d)
                      else Ok []) by reflexivity.
  assert (Hpoly : py_eq_str record_type (u "POLYGONS") = true ->
                  py_eq_str record_type (u "BOX") = false).
  { intro H. apply py_eq_str_eq in H. rewrite H. reflexivity. }
  split; [|split; [|split]].
  - intros H1 H2. rewrite Hp, H1, H2. reflexivity.
  - intros H Hpts. rewrite Hp, (Hpoly H), H. unfold polygon_points.
    rewrite py_get_entry. cbn [bind]. rewrite Hpts. reflexivity.
  - intros ps H Hps Hne.
    assert (Ha : annotation_points (PDict d) = mapM point_text ps).
    { rewrite Hp, (Hpoly H), H. unfold polygon_points.
      rewrite py_get_entry. cbn [bind]. rewrite Hps.
      destruct ps; [congruence | reflexivity]. }
    split; [exact Ha|]. intros pts Hok. rewrite Ha in Hok. exact (mapM_length _ _ _ Hok).
  - intros Hnone st key. split; [apply dropped_1128 | apply dropped_1212]; exact Hnone.
Qed.

Example polygon_record_with_a_box_only :
  annotation_points
    (PDict [(u "annotation", PStr (u "POLYGONS"));
            (u "object", PDict [(u "left", PInt 0); (u "top", PInt 0);
                                (u "width", PInt 10); (u "height", PInt 20)])])
  = Ok [].
Proof. reflexivity. Qed.

(* ================================================================== *)
(** * Rows without a file name *)
(* ================================================================== *)

(** X29.  A row without a file name is passed over in silence.  When the
    file-name cell is a JSON object that has no "file_name" (or an empty
    one), [extract_filename_from_csv] gives the empty string, and so it
    does for an empty cell that [json.loads] rejects; both row loops then
    go on to the next row and leave the state of the run as it was: no
    image, no entry in [missing_files], whatever the disk holds. *)
Theorem rows_without_file_name_are_passed_over
    (py_repr : pyval -> str) (json_loads : str -> result pyval)
    (int_of_str : str -> result Z) (fs : FileSystem dir)
    (st : RunState) (idx : nat) (row : Row) (cell : str) :
  file_name row = PStr cell ->
  (exists d, json_loads cell = Ok (PDict d)
             /\ truthy (entry d (u "file_name") (PStr [])) = false)
  \/ (cell = [] /\ exists e, json_loads [] = Raise e) ->
  truthy (extract_filename_from_csv json_loads (file_name row)) = false
  /\ V1128.process_row py_repr json_loads fs st (idx, row) = Ok st
  /\ V1212.process_row py_repr json_loads int_of_str fs st (idx, row) = Ok st.
Proof.
  intros Hcell Hcase.
  assert (Hname : truthy (extract_filename_from_csv json_loads (file_name row)) = false).
  { rewrite Hcell. unfold extract_filename_from_csv.
    destruct Hcase as [(d & Hd & Hf) | (-> & e & He)].
    - rewrite Hd. cbn [py_get bind try_except]. exact Hf.
    - rewrite He. reflexivity. }
  split; [exact Hname|]. split.
  - unfold V1128.process_row, V1128.extract_filename_from_csv. rewrite Hname. reflexivity.
  - unfold V1212.process_row, V1212.extract_filename_from_csv. rewrite Hname. reflexivity.
Qed.

(** The cell [{}]. *)
Lemma rows_without_file_name_are_passed_over_witness :
  let row := {| data_idx := PInt 1; file_name := PStr (u "{}");
                difficulty := PStr tier_high |} in
  truthy (extract_filename_from_csv empty_object_loads (file_name row)) = false
  /\ V1128.process_row no_repr empty_object_loads disk_with_item_1 initial_state (0, row)
     = Ok initial_state
  /\ V1212.process_row no_repr empty_object_loads (fun _ => Ok 0%Z) disk_with_item_1
       initial_state (0, row) = Ok initial_state.
Proof.
  intro row.
  apply (rows_without_file_name_are_passed_over no_repr empty_object_loads (fun _ => Ok 0%Z)
           disk_with_item_1 initial_state 0 row (u "{}")).
  - reflexivity.
  - left. exists []. split; reflexivity.
Defined.
